(** * Project workspaces: atomic creation and the schema guard

    A shallow embedding of [project_creator/project_creator.py], of the
    registry in [project_overview/canonical_schema.py] and of the command
    line in [project_creator/cli.py].

    - Python [str] values are [string]s, one [ascii] per code point (the
      model covers code points below 256).
    - Values decoded from JSON are the inductive [value].
    - The base projects directory is a finite map from entry names to nodes;
      a workspace directory is a record of what the program reads and writes
      below it (sub-directories, [manifest.json], [library.db],
      [logs/project.log]).
    - A SQLite database is its catalogue of tables (names and column
      names) and the marker table [schema_meta]: its rows of text, in
      order, and whether its key is unique. Names of tables and columns
      resolve without regard to case; how [PRAGMA table_info] parses a
      name that is spliced into it is left to the environment.
    - Stateful code runs in a state-and-exception monad over a [World] that
      records every file-system state the run goes through; mutating
      operations may fail as an oracle of the environment decides, and
      printing on the standard output may fail as the environment decides
      for the text. *)

From Stdlib Require Import String Ascii NArith List Bool Lia.
From stdpp Require Import base option strings list gmap fin_maps sorting.

Set Default Proof Using "Type".
Set Warnings "-register-all,-clear-no-such-hyp".

(* ================================================================== *)
(** * Python strings *)
(* ================================================================== *)

Module Py.

Definition code (c : ascii) : N := N_of_ascii c.

Definition LF : ascii := ascii_of_N 10.
Definition CR : ascii := ascii_of_N 13.

Definition in_range (lo hi : N) (c : ascii) : bool :=
  ((lo <=? code c) && (code c <=? hi))%N.

(** [str.isspace] on one character (code points below 256). *)
Definition isspace (c : ascii) : bool :=
  in_range 9 13 c || in_range 28 32 c || (code c =? 133)%N || (code c =? 160)%N.

Fixpoint lstrip (s : string) : string :=
  match s with
  | EmptyString => EmptyString
  | String c r => if isspace c then lstrip r else s
  end.

Definition rstrip (s : string) : string := String.rev (lstrip (String.rev s)).

Definition strip (s : string) : string := rstrip (lstrip s).

Fixpoint lstrip_lf (s : string) : string :=
  match s with
  | EmptyString => EmptyString
  | String c r => if Ascii.eqb c LF then lstrip_lf r else s
  end.

(** [s.rstrip("\n")] *)
Definition rstrip_lf (s : string) : string := String.rev (lstrip_lf (String.rev s)).

(** [s.replace("\r\n", "\n")] *)
Fixpoint replace_crlf (s : string) : string :=
  match s with
  | String c1 (String c2 r as t) =>
      if Ascii.eqb c1 CR && Ascii.eqb c2 LF
      then String LF (replace_crlf r)
      else String c1 (replace_crlf t)
  | _ => s
  end.

Definition lower_char (c : ascii) : ascii :=
  if in_range 65 90 c || in_range 192 214 c || in_range 216 222 c
  then ascii_of_N (code c + 32) else c.

(** [str.lower] *)
Fixpoint lower (s : string) : string :=
  match s with
  | EmptyString => EmptyString
  | String c r => String (lower_char c) (lower r)
  end.

(** [sep.join(l)] *)
Definition join (sep : string) (l : list string) : string := String.concat sep l.

(** [c in l] on a list of strings *)
Definition mem (x : string) (l : list string) : bool := existsb (String.eqb x) l.

(** [sub in s] on strings *)
Fixpoint contains (sub s : string) : bool :=
  String.prefix sub s ||
  match s with
  | EmptyString => false
  | String _ r => contains sub r
  end.

(** [sorted(l)] on strings: code-point order. *)
Definition sorted (l : list string) : list string := merge_sort String.le l.

End Py.

(* ================================================================== *)
(** * Python values, dictionaries, exceptions *)
(* ================================================================== *)

(** What [json.loads] can return. *)
Inductive value : Type :=
| VNone
| VBool (b : bool)
| VNum (literal : string)
| VStr (s : string)
| VList (l : list value)
| VDict (d : list (string * value)).

(** [v == s] for a [str] [s]: only an equal [str] is equal. *)
Definition value_is_str (v : value) (s : string) : bool :=
  match v with
  | VStr s' => String.eqb s' s
  | _ => false
  end.

Definition type_name (v : value) : string :=
  match v with
  | VNone => "NoneType"
  | VBool _ => "bool"
  | VNum _ => "int"
  | VStr _ => "str"
  | VList _ => "list"
  | VDict _ => "dict"
  end.

(** Insertion-ordered dictionaries with [str] keys. *)
Module Dict.
Section Dict.
Context {V : Type}.

Definition t := list (string * V).

Fixpoint get (k : string) (d : list (string * V)) : option V :=
  match d with
  | [] => None
  | (k', v) :: r => if String.eqb k k' then Some v else get k r
  end.

Definition mem (k : string) (d : list (string * V)) : bool :=
  match get k d with Some _ => true | None => false end.

(** [d[k] = v]: an existing key keeps its position. *)
Fixpoint set (k : string) (v : V) (d : list (string * V)) : list (string * V) :=
  match d with
  | [] => [(k, v)]
  | (k', v') :: r =>
      if String.eqb k k' then (k, v) :: r else (k', v') :: set k v r
  end.

Definition keys (d : list (string * V)) : list string := map fst d.
End Dict.
End Dict.

Inductive ErrClass : Type :=
| ProjectCreatorError
| InvalidProjectNameError
| InvalidConfigError
| DuplicateProjectNameError
| DuplicateProjectIdError
| ProjectOpenError
| FilesystemError
| DatabaseSchemaMismatchError.

(** An exception is either one of the module's own classes (all derive from
    [ProjectCreatorError]) with its message, diagnostic and explicit cause
    ([raise ... from e]), or an exception of another class. *)
Inductive Exn : Type :=
| Typed (cls : ErrClass) (message diagnostic : string) (cause : option Exn)
| Foreign (cls_name detail : string).

(** [isinstance(e, ProjectCreatorError)] *)
Definition is_typed (e : Exn) : bool :=
  match e with Typed _ _ _ _ => true | Foreign _ _ => false end.

(** [type(e).__name__] *)
Definition exn_type_name (e : Exn) : string :=
  match e with
  | Typed ProjectCreatorError _ _ _ => "ProjectCreatorError"
  | Typed InvalidProjectNameError _ _ _ => "InvalidProjectNameError"
  | Typed InvalidConfigError _ _ _ => "InvalidConfigError"
  | Typed DuplicateProjectNameError _ _ _ => "DuplicateProjectNameError"
  | Typed DuplicateProjectIdError _ _ _ => "DuplicateProjectIdError"
  | Typed ProjectOpenError _ _ _ => "ProjectOpenError"
  | Typed FilesystemError _ _ _ => "FilesystemError"
  | Typed DatabaseSchemaMismatchError _ _ _ => "DatabaseSchemaMismatchError"
  | Foreign n _ => n
  end.

(** [str(e)] *)
Definition exn_str (e : Exn) : string :=
  match e with
  | Typed _ m _ _ => m
  | Foreign _ d => d
  end.

Definition exn_class (e : Exn) : option ErrClass :=
  match e with Typed c _ _ _ => Some c | Foreign _ _ => None end.

Definition exn_diagnostic (e : Exn) : string :=
  match e with Typed _ _ d _ => d | Foreign _ _ => "" end.

Definition exn_cause (e : Exn) : option Exn :=
  match e with Typed _ _ _ c => c | Foreign _ _ => None end.

Inductive Res (A : Type) : Type :=
| Ok (a : A)
| Raise (e : Exn).
Arguments Ok {A} a.
Arguments Raise {A} e.

Definition is_ok {A} (r : Res A) : bool :=
  match r with Ok _ => true | Raise _ => false end.

(* ================================================================== *)
(** * Data classes *)
(* ================================================================== *)

Record ExpectedTable := { et_name : string; et_columns : list string }.

Record ExpectedSchema := { tables : list ExpectedTable }.

Record ProjectConfig := {
  project_name : string;
  topic_prompt : string;
  base_projects_dir : string;
  citation_style : string;
  sources : list string;
  notes : option string
}.

Record ProjectInfo := {
  pi_project_id : value;
  pi_project_dir : string;
  pi_manifest_path : string;
  pi_database_path : string;
  pi_status : string
}.

Record ProjectSummary := {
  ps_project_id : value;
  ps_project_name : value;
  ps_project_dir : string;
  ps_created_at : value;
  ps_topic_prompt : value;
  ps_valid : bool;
  ps_error : option string
}.

(** [base / name] as text. *)
Definition path_join (base name : string) : string := base +:+ "/" +:+ name.

(* ================================================================== *)
(** * SQLite databases *)
(* ================================================================== *)

(** SQLite compares the names of tables and columns without regard to the
    case of ASCII letters. *)
Definition ascii_fold (c : ascii) : ascii :=
  if Py.in_range 65 90 c then ascii_of_N (Py.code c + 32) else c.

Fixpoint ascii_fold_string (s : string) : string :=
  match s with
  | EmptyString => EmptyString
  | String c r => String (ascii_fold c) (ascii_fold_string r)
  end.

Definition same_name (a b : string) : bool :=
  String.eqb (ascii_fold_string a) (ascii_fold_string b).

(** A database: the tables of [sqlite_master] with their column names (what
    [PRAGMA table_info] lists), and the table of the schema marker: its
    rows [(key, value)] in the order of their insertion, and whether its
    declaration makes [key] unique ([PRIMARY KEY] or [UNIQUE], as in the
    registry's DDL; the DDL is the caller's). The rows are only reachable
    when the catalogue holds the table (see [has_schema_meta]). *)
Record DB := {
  db_tables : gmap string (list string);
  meta_rows : list (string * string);
  meta_key_unique : bool
}.

Definition empty_db : DB :=
  {| db_tables := ∅; meta_rows := []; meta_key_unique := true |}.

(** The columns of the table that a name in a statement resolves to: the
    table of that name, or else one whose name differs by case only
    (SQLite keeps the names of one database distinct up to case, so at
    most one table matches). *)
Definition find_table (db : DB) (name : string) : option (list string) :=
  match db_tables db !! name with
  | Some cols => Some cols
  | None =>
      snd <$> List.find (λ kv, same_name kv.1 name) (map_to_list (db_tables db))
  end.

Definition has_column (cols : list string) (c : string) : bool :=
  existsb (λ c', same_name c' c) cols.

(** [schema_meta(key, value)] can be read and written. *)
Definition has_schema_meta (db : DB) : bool :=
  match find_table db "schema_meta" with
  | Some cols => has_column cols "key" && has_column cols "value"
  | None => false
  end.

(** [SELECT value FROM schema_meta WHERE key=...] then [fetchone()]: the
    value of the first row with that key. *)
Definition meta_value (db : DB) (key : string) : option string :=
  Dict.get key (meta_rows db).

(** [name LIKE 'sqlite_%']: LIKE ignores ASCII case, [_] stands for exactly
    one character and [%] for any run of characters. *)
Definition like_sqlite_ (name : string) : bool :=
  String.eqb (ascii_fold_string (String.substring 0 6 name)) "sqlite"
  && (7 <=? String.length name).

(* ================================================================== *)
(** * The environment *)
(* ================================================================== *)

(** What the program takes from outside: the clock, the random staging
    suffix, library functions, the SQL engine, and which mutating
    operations fail. *)
Record Env := {
  (** [_date_yyyy_mm_dd_utc()] *)
  today : string;
  (** [_utc_now_iso()] at the n-th reading of the clock *)
  now_iso : nat → string;
  (** [uuid.uuid4().hex] *)
  uuid_hex : string;
  (** [hashlib.sha256(s.encode("utf-8")).hexdigest()] *)
  sha256_hex : string → string;
  (** [conn.executescript(sql)] on a database: the new database, or the
      text of the [sqlite3.Error] *)
  sql_script : string → DB → string + DB;
  (** [cur.execute("PRAGMA table_info(" + t + ");")], the name [t] spliced
      in as it is: the text of the [sqlite3.OperationalError] when the
      statement does not parse (a name that is not a plain identifier, or
      one that is a reserved word: [near ...: syntax error]), and nothing
      when it parses *)
  pragma_error : string → option string;
  (** [print(text)] on the standard output, for the text that [json.dumps]
      gives for a value: the class and the text of the exception raised,
      if any ([UnicodeEncodeError] when the stream cannot encode a
      character of the text) *)
  stdout_error : value → option (string * string);
  (** [repr] *)
  py_repr : value → string;
  (** [traceback.format_exc()] while the exception is handled *)
  format_exc : Exn → string;
  (** the n-th mutating operation of a run fails *)
  faults : nat → bool
}.

(* ================================================================== *)
(** * The file system *)
(* ================================================================== *)

(** The content of a [manifest.json]: a text that [json.loads] decodes, or
    one on which reading or decoding raises ([err] is the text of the
    exception). *)
Inductive FileText : Type :=
| JsonDoc (v : value)
| Corrupt (err : string).

(** A directory directly under the base directory. *)
Record Dir := {
  subdirs : gset string;
  manifest_json : option FileText;
  library_db : option DB;
  project_log : option string
}.

Definition empty_dir : Dir :=
  {| subdirs := ∅; manifest_json := None; library_db := None; project_log := None |}.

Inductive Node : Type :=
| NFile
| NDir (d : Dir).

(** The base directory: absent, or its entries by name. *)
Abbreviation FS := (option (gmap string Node)).

Definition fs_lookup (fs : FS) (name : string) : option Node :=
  match fs with
  | None => None
  | Some entries => entries !! name
  end.

Definition fs_entries (fs : FS) : gmap string Node := default ∅ fs.

(** [(base / name).exists()] *)
Definition fs_exists (fs : FS) (name : string) : bool :=
  match fs_lookup fs name with Some _ => true | None => false end.

Definition fs_dir (fs : FS) (name : string) : option Dir :=
  match fs_lookup fs name with
  | Some (NDir d) => Some d
  | _ => None
  end.

Definition fs_set (fs : FS) (name : string) (n : Node) : FS :=
  Some (<[name := n]> (fs_entries fs)).

Definition fs_remove (fs : FS) (name : string) : FS :=
  match fs with
  | None => None
  | Some entries => Some (delete name entries)
  end.

(** [[p for p in base.iterdir() if p.is_dir()]] with each directory's
    content; the order is the map's. *)
Definition fs_dirs (fs : FS) : list (string * Dir) :=
  omap (λ kv, match kv.2 with NDir d => Some (kv.1, d) | NFile => None end)
       (map_to_list (fs_entries fs)).

(* ================================================================== *)
(** * The monad: state, exceptions, and the history of file-system states *)
(* ================================================================== *)

Record World := {
  fs : FS;
  (** earlier file-system states of the run, latest first *)
  past : list FS;
  (** mutating operations attempted so far *)
  opc : nat;
  (** clock readings so far *)
  clock : nat;
  (** [create_project]'s variable [conn]: the directory whose
      [library.db] the open connection is on *)
  conn : option string
}.

Definition history (w : World) : list FS := fs w :: past w.

Definition initial_world (f : FS) : World :=
  {| fs := f; past := []; opc := 0; clock := 0; conn := None |}.

Definition M (A : Type) : Type := World → Res A * World.

Definition ret {A} (a : A) : M A := λ w, (Ok a, w).

Definition raise {A} (e : Exn) : M A := λ w, (Raise e, w).

Definition bind {A B} (m : M A) (k : A → M B) : M B :=
  λ w, match m w with
       | (Ok a, w') => k a w'
       | (Raise e, w') => (Raise e, w')
       end.

(** [try: m except Exception as e: h e] *)
Definition try_except {A} (m : M A) (h : Exn → M A) : M A :=
  λ w, match m w with
       | (Ok a, w') => (Ok a, w')
       | (Raise e, w') => h e w'
       end.

(** [try: m except Exception: pass] *)
Definition try_pass (m : M unit) : M unit := try_except m (λ _, ret tt).

(** [try: m finally: f]: an exception of [f] replaces the outcome of [m]. *)
Definition try_finally {A} (m : M A) (f : M unit) : M A :=
  λ w, match m w with
       | (r, w') =>
           match f w' with
           | (Ok _, w'') => (r, w'')
           | (Raise e, w'') => (Raise e, w'')
           end
       end.

Definition lift {A} (r : Res A) : M A := λ w, (r, w).

Declare Scope monad_scope.
Delimit Scope monad_scope with M.
Notation "x <- m ;; k" := (bind m (λ x, k))
  (at level 100, m at next level, k at level 200, right associativity) : monad_scope.
Notation "m ;; k" := (bind m (λ _, k))
  (at level 100, k at level 200, right associativity) : monad_scope.
Local Open Scope monad_scope.

Definition get_fs : M FS := λ w, (Ok (fs w), w).

(** Every change of the file system is recorded. *)
Definition put_fs (f : FS) : M unit :=
  λ w, (Ok tt, {| fs := f; past := fs w :: past w; opc := opc w;
                  clock := clock w; conn := conn w |}).

Definition get_conn : M (option string) := λ w, (Ok (conn w), w).

Definition set_conn (c : option string) : M unit :=
  λ w, (Ok tt, {| fs := fs w; past := past w; opc := opc w;
                  clock := clock w; conn := c |}).

Definition res_bind {A B} (r : Res A) (k : A → Res B) : Res B :=
  match r with
  | Ok a => k a
  | Raise e => Raise e
  end.

Fixpoint for_each {A} (l : list A) (f : A → M unit) : M unit :=
  match l with
  | [] => ret tt
  | x :: r => f x ;; for_each r f
  end.

Definition nonempty {A} (l : list A) : bool :=
  match l with [] => false | _ :: _ => true end.

Definition nl : string := String Py.LF EmptyString.

(* ================================================================== *)
(** * Operations on Python values *)
(* ================================================================== *)

(** [k in m] *)
Definition py_in (k : string) (m : value) : Res bool :=
  match m with
  | VDict d => Ok (Dict.mem k d)
  | VList l => Ok (existsb (λ v, value_is_str v k) l)
  | VStr s => Ok (Py.contains k s)
  | _ => Raise (Foreign "TypeError"
                  ("argument of type '" +:+ type_name m +:+ "' is not iterable"))
  end.

(** [m.get(k)] *)
Definition py_get (m : value) (k : string) : Res value :=
  match m with
  | VDict d => Ok (default VNone (Dict.get k d))
  | _ => Raise (Foreign "AttributeError"
                  ("'" +:+ type_name m +:+ "' object has no attribute 'get'"))
  end.

(* ================================================================== *)
(** * The program *)
(* ================================================================== *)

Section Program.

Variable E : Env.

(** ** Constants and validation *)

Definition _ALLOWED_SOURCES : list string := ["pmc"; "biorxiv"].

(** The character class [[a-z0-9_]]. *)
Definition name_char (c : ascii) : bool :=
  Py.in_range 97 122 c || Py.in_range 48 57 c || Ascii.eqb c "_"%char.

(** [[a-z0-9_]*$]: without [re.MULTILINE], [$] matches at the end of the
    string and also just before a newline that ends the string. *)
Fixpoint name_re_rest (s : string) : bool :=
  match s with
  | EmptyString => true
  | String c EmptyString => name_char c || Ascii.eqb c Py.LF
  | String c r => name_char c && name_re_rest r
  end.

(** [_NAME_RE.match(s)] is not [None], for
    [_NAME_RE = re.compile(r"^[a-z0-9_]+$")]. *)
Definition _NAME_RE_match (s : string) : bool :=
  match s with
  | EmptyString => false
  | String c r => name_char c && name_re_rest r
  end.

Definition repr_strs (l : list string) : string := py_repr E (VList (map VStr l)).

Definition _validate_config (cfg : ProjectConfig) : Res unit :=
  if String.eqb (project_name cfg) "" || negb (_NAME_RE_match (project_name cfg)) then
    Raise (Typed InvalidProjectNameError
             "Invalid project_name. Use lowercase snake_case: a-z, 0-9, underscore."
             ("project_name=" +:+ py_repr E (VStr (project_name cfg))) None)
  else if negb (String.eqb (project_name cfg) (Py.lower (project_name cfg))) then
    Raise (Typed InvalidProjectNameError "project_name must be lowercase."
             (project_name cfg) None)
  else if String.eqb (Py.strip (topic_prompt cfg)) "" then
    Raise (Typed InvalidConfigError "topic_prompt must be non-empty." "" None)
  else if negb (String.eqb (citation_style cfg) "vancouver") then
    Raise (Typed InvalidConfigError "citation_style must be 'vancouver' in v1."
             (citation_style cfg) None)
  else
    let bad := List.filter (λ s, negb (Py.mem s _ALLOWED_SOURCES)) (sources cfg) in
    if nonempty bad then
      Raise (Typed InvalidConfigError
               ("Invalid sources in v1: " +:+ repr_strs bad +:+ ". Allowed: "
                +:+ repr_strs (Py.sorted _ALLOWED_SOURCES))
               ("sources=" +:+ Py.join "," (sources cfg)) None)
    else Ok tt.

(** ** The clock and the fallible operations *)

Definition _utc_now_iso : M string :=
  λ w, (Ok (now_iso E (clock w)),
        {| fs := fs w; past := past w; opc := opc w;
           clock := S (clock w); conn := conn w |}).

Definition os_error : Exn := Foreign "OSError" "operation failed".

(** One mutating operation is attempted; the environment decides whether
    it fails. A failed operation changes nothing. *)
Definition io : M unit :=
  λ w, let w' := {| fs := fs w; past := past w; opc := S (opc w);
                    clock := clock w; conn := conn w |} in
       if faults E (opc w) then (Raise os_error, w') else (Ok tt, w').

(** A mutating operation on the file system: it can fail by the
    environment, or by the state it finds. *)
Definition fs_op (f : FS → Res FS) : M unit :=
  io ;;
  cur <- get_fs ;;
  match f cur with
  | Ok new => put_fs new
  | Raise e => raise e
  end.

Definition file_exists_error : Exn := Foreign "FileExistsError" "[Errno 17] File exists".
Definition file_not_found_error : Exn :=
  Foreign "FileNotFoundError" "[Errno 2] No such file or directory".
Definition not_a_directory_error : Exn :=
  Foreign "NotADirectoryError" "[Errno 20] Not a directory".

Definition with_subdir (d : Dir) (sub : string) : Dir :=
  {| subdirs := {[sub]} ∪ subdirs d; manifest_json := manifest_json d;
     library_db := library_db d; project_log := project_log d |}.

Definition with_log (d : Dir) (text : string) : Dir :=
  {| subdirs := subdirs d; manifest_json := manifest_json d;
     library_db := library_db d; project_log := Some text |}.

Definition with_db (d : Dir) (db : DB) : Dir :=
  {| subdirs := subdirs d; manifest_json := manifest_json d;
     library_db := Some db; project_log := project_log d |}.

Definition with_manifest (d : Dir) (t : FileText) : Dir :=
  {| subdirs := subdirs d; manifest_json := Some t;
     library_db := library_db d; project_log := project_log d |}.

(** A path with a NUL character: Python's path functions refuse it
    ([ValueError]) before the system is asked. *)
Definition has_nul (path : string) : bool :=
  existsb (Ascii.eqb Ascii.zero) (list_ascii_of_string path).

Definition value_error : Exn := Foreign "ValueError" "embedded null byte".

(** [base.mkdir(parents=True, exist_ok=True)] *)
Definition mkdir_base (base : string) : M unit :=
  if has_nul base then raise value_error
  else fs_op (λ cur, Ok (Some (fs_entries cur))).

(** An operation on the entry [base / name]: [change] gets the node found
    there, if any, and gives the node to store or the exception. *)
Definition update_entry (name : string) (change : option Node → Res Node) (cur : FS)
  : Res FS :=
  match change (fs_lookup cur name) with
  | Ok n => Ok (fs_set cur name n)
  | Raise e => Raise e
  end.

(** [(base / name).mkdir(parents=True, exist_ok=False)] *)
Definition mkdir_new (name : string) : FS → Res FS :=
  update_entry name (λ found,
    match found with
    | Some _ => Raise file_exists_error
    | None => Ok (NDir empty_dir)
    end).

(** [(base / name / sub).mkdir(parents=False, exist_ok=False)] *)
Definition mkdir_sub (name sub : string) : FS → Res FS :=
  update_entry name (λ found,
    match found with
    | Some (NDir d) =>
        if bool_decide (sub ∈ subdirs d) then Raise file_exists_error
        else Ok (NDir (with_subdir d sub))
    | Some NFile => Raise not_a_directory_error
    | None => Raise file_not_found_error
    end).

(** [(base / name / "logs").mkdir(parents=True, exist_ok=True)] *)
Definition mkdir_logs (name : string) : FS → Res FS :=
  update_entry name (λ found,
    match found with
    | Some (NDir d) => Ok (NDir (with_subdir d "logs"))
    | Some NFile => Raise not_a_directory_error
    | None => Ok (NDir (with_subdir empty_dir "logs"))
    end).

(** Appending [text] to [base / name / "logs" / "project.log"]. *)
Definition append_log (name text : string) : FS → Res FS :=
  update_entry name (λ found,
    match found with
    | Some (NDir d) =>
        if bool_decide ("logs" ∈ subdirs d)
        then Ok (NDir (with_log d (default "" (project_log d) +:+ text)))
        else Raise file_not_found_error
    | Some NFile => Raise not_a_directory_error
    | None => Raise file_not_found_error
    end).

(** Writing [json.dumps(m, indent=2, ensure_ascii=False) + "\n"] to
    [base / name / "manifest.json"]: the file then decodes to [m]. *)
Definition write_manifest (name : string) (m : value) : FS → Res FS :=
  update_entry name (λ found,
    match found with
    | Some (NDir d) => Ok (NDir (with_manifest d (JsonDoc m)))
    | Some NFile => Raise not_a_directory_error
    | None => Raise file_not_found_error
    end).

(** [shutil.rmtree(base / name)] *)
Definition rmtree (name : string) (cur : FS) : Res FS :=
  match fs_lookup cur name with
  | Some (NDir _) => Ok (fs_remove cur name)
  | Some NFile => Raise not_a_directory_error
  | None => Raise file_not_found_error
  end.

(** [(base / src).rename(base / dst)]: one step; a destination that
    exists makes it fail. *)
Definition rename (src dst : string) (cur : FS) : Res FS :=
  match fs_lookup cur src with
  | Some n =>
      if fs_exists cur dst then Raise (Foreign "OSError" "destination exists")
      else Ok (fs_set (fs_remove cur src) dst n)
  | None => Raise file_not_found_error
  end.

(** ** Logging *)

(** [_write_text_line(base / name / "logs" / "project.log", line)] *)
Definition _write_text_line (name line : string) : M unit :=
  fs_op (mkdir_logs name) ;;
  fs_op (append_log name (Py.rstrip_lf line +:+ nl)).

(** [_log(base / name / "logs" / "project.log", level, event, msg)] *)
Definition _log (name level event msg : string) : M unit :=
  ts <- _utc_now_iso ;;
  let tail := if String.eqb msg "" then "" else " " +:+ msg in
  _write_text_line name (ts +:+ " [" +:+ level +:+ "] " +:+ event +:+ tail).

(** ** Manifest (v1 strict) *)

Definition _manifest_dict (cfg : ProjectConfig) (project_id created_at : string) : value :=
  VDict ([ ("project_id", VStr project_id);
           ("project_name", VStr (project_name cfg));
           ("topic_prompt", VStr (topic_prompt cfg));
           ("created_at", VStr created_at);
           ("sources", VList (map VStr (sources cfg)));
           ("citation_style", VStr (citation_style cfg));
           ("status", VStr "active");
           ("version", VStr "v1") ]
         ++ match notes cfg with
            | Some n => if String.eqb n "" then [] else [("notes", VStr n)]
            | None => []
            end).

(** [_read_manifest(base / name / "manifest.json")] *)
Definition _read_manifest (cur : FS) (name : string) : Res value :=
  match fs_lookup cur name with
  | Some (NDir d) =>
      match manifest_json d with
      | Some (JsonDoc v) => Ok v
      | Some (Corrupt err) =>
          Raise (Typed ProjectOpenError "manifest.json is corrupt or unreadable." err None)
      | None =>
          Raise (Typed ProjectOpenError "manifest.json not found."
                   (exn_str file_not_found_error) None)
      end
  | Some NFile =>
      Raise (Typed ProjectOpenError "manifest.json is corrupt or unreadable."
               (exn_str not_a_directory_error) None)
  | None =>
      Raise (Typed ProjectOpenError "manifest.json not found."
               (exn_str file_not_found_error) None)
  end.

Definition required_fields : list string :=
  ["project_id"; "project_name"; "topic_prompt"; "created_at";
   "sources"; "citation_style"; "status"; "version"].

(** [[k for k in required if k not in m]] *)
Fixpoint missing_fields (required : list string) (m : value) : Res (list string) :=
  match required with
  | [] => Ok []
  | k :: r =>
      res_bind (py_in k m) (λ present,
      res_bind (missing_fields r m) (λ rest,
      Ok (if present then rest else k :: rest)))
  end.

(** [_validate_manifest_v1(m, base / folder)] *)
Definition _validate_manifest_v1 (m : value) (folder : string) : Res unit :=
  res_bind (missing_fields required_fields m) (λ missing,
  if nonempty missing then
    Raise (Typed ProjectOpenError "manifest.json missing required fields."
             ("missing=" +:+ Py.join "," missing) None)
  else
    res_bind (py_get m "version") (λ version,
    if negb (value_is_str version "v1") then
      Raise (Typed ProjectOpenError "Unsupported manifest version. Expected v1."
               ("version=" +:+ py_repr E version) None)
    else
      res_bind (py_get m "project_id") (λ pid,
      if negb (value_is_str pid folder) then
        Raise (Typed ProjectOpenError "Manifest project_id does not match folder name."
                 ("manifest=" +:+ py_repr E pid +:+ " folder=" +:+ py_repr E (VStr folder))
                 None)
      else Ok tt))).

(** ** SQLite schema guard (schema_meta) *)

Definition compute_schema_hash (canonical_schema_sql : string) : string :=
  sha256_hex E (Py.replace_crlf (Py.strip canonical_schema_sql)).

Definition operational_error (detail : string) : Exn := Foreign "OperationalError" detail.

Definition dir_db (cur : FS) (name : string) : option DB :=
  match fs_dir cur name with
  | Some d => library_db d
  | None => None
  end.

(** [sqlite3.connect(base / name / "library.db")]: the file is created,
    empty, when it is not there. The result is the connection, named by
    the directory of its file. *)
Definition sqlite3_connect (name : string) : M string :=
  fs_op (update_entry name (λ found,
    match found with
    | Some (NDir d) => Ok (NDir (with_db d (default empty_db (library_db d))))
    | _ => Raise (operational_error "unable to open database file")
    end)) ;;
  ret name.

(** A statement that writes, run on connection [c]. The connection sees
    its own writes at once; there is no other reader. *)
Definition db_write (c : string) (stmt : DB → Res DB) : M unit :=
  fs_op (update_entry c (λ found,
    match found with
    | Some (NDir d) =>
        match library_db d with
        | Some db =>
            match stmt db with
            | Ok db' => Ok (NDir (with_db d db'))
            | Raise e => Raise e
            end
        | None => Raise (operational_error "unable to open database file")
        end
    | _ => Raise (operational_error "unable to open database file")
    end)).

(** Queries run on connection [c]: they read the state and change
    nothing. *)
Definition db_read {A} (c : string) (query : DB → Res A) : M A :=
  cur <- get_fs ;;
  match dir_db cur c with
  | Some db => lift (query db)
  | None => raise (operational_error "unable to open database file")
  end.

(** [conn.commit()] *)
Definition conn_commit (c : string) : M unit := io.

(** [conn.close()] *)
Definition conn_close (c : string) : M unit := io.

Definition run_script (sql : string) (db : DB) : Res DB :=
  match sql_script E sql db with
  | inr db' => Ok db'
  | inl err => Raise (operational_error err)
  end.

Definition apply_canonical_schema (c : string) (schema_sql : string) : M unit :=
  db_write c (run_script schema_sql) ;;
  conn_commit c.

(** The text of the error of a statement that names [schema_meta], [key]
    and [value] on a database without such a table or column. *)
Definition insert_error (db : DB) : string :=
  match find_table db "schema_meta" with
  | None => "no such table: schema_meta"
  | Some cols =>
      if has_column cols "key" then "table schema_meta has no column named value"
      else "table schema_meta has no column named key"
  end.

Definition select_error (db : DB) : string :=
  match find_table db "schema_meta" with
  | None => "no such table: schema_meta"
  | Some cols =>
      if has_column cols "value" then "no such column: key"
      else "no such column: value"
  end.

(** [INSERT OR IGNORE INTO schema_meta(key,value) VALUES (?,?)]: the row is
    added, unless the table declares [key] unique and holds a row with
    this key. *)
Definition insert_or_ignore (key val : string) (db : DB) : Res DB :=
  if has_schema_meta db then
    if meta_key_unique db && Dict.mem key (meta_rows db) then Ok db
    else Ok {| db_tables := db_tables db;
               meta_rows := meta_rows db ++ [(key, val)];
               meta_key_unique := meta_key_unique db |}
  else Raise (operational_error (insert_error db)).

Definition upsert_schema_meta (c : string) (schema_version schema_hash : string) : M unit :=
  db_write c (insert_or_ignore "schema_version" schema_version) ;;
  db_write c (insert_or_ignore "schema_hash" schema_hash) ;;
  conn_commit c.

(** [SELECT value FROM schema_meta WHERE key=...] then [fetchone()] *)
Definition select_meta (key : string) (db : DB) : Res (option string) :=
  if has_schema_meta db then Ok (meta_value db key)
  else Raise (operational_error (select_error db)).

Definition schema_mismatch (message diff : string) : Exn :=
  Typed DatabaseSchemaMismatchError message diff None.

Definition verify_schema_meta (expected_version expected_hash : string) (db : DB)
  : Res unit :=
  res_bind (select_meta "schema_version" db) (λ row_v,
  res_bind (select_meta "schema_hash" db) (λ row_h,
  match row_v with
  | None => Raise (schema_mismatch "schema_meta missing schema_version."
                     "schema_meta.schema_version missing")
  | Some v =>
      if negb (String.eqb v expected_version) then
        Raise (schema_mismatch "Unsupported schema_version in library.db."
                 ("expected schema_version=" +:+ py_repr E (VStr expected_version)
                  +:+ " got " +:+ py_repr E (VStr v)))
      else
        match row_h with
        | None => Raise (schema_mismatch "schema_meta missing schema_hash."
                           "schema_meta.schema_hash missing")
        | Some h =>
            if negb (String.eqb h expected_hash) then
              Raise (schema_mismatch "schema_hash mismatch."
                       ("expected schema_hash=" +:+ expected_hash +:+ " got " +:+ h))
            else Ok tt
        end
  end)).

(** ** Schema validation (tables + columns; v1) *)

(** The query on [sqlite_master]: names of the tables that are not
    [LIKE 'sqlite_%'], in the order of their names. *)
Definition table_names (db : DB) : list string :=
  Py.sorted (List.filter (λ t, negb (like_sqlite_ t)) (map fst (map_to_list (db_tables db)))).

(** [cur.execute(f"PRAGMA table_info({t});")], then the column names of
    the rows: the name is spliced into the statement without quotes, so
    the statement may not parse; when it does, it lists the columns of the
    table of that name. *)
Definition table_info (db : DB) (t : string) : Res (list string) :=
  match pragma_error E t with
  | Some err => Raise (operational_error err)
  | None => Ok (default [] (db_tables db !! t))
  end.

(** The loop of [_introspect_schema]. *)
Fixpoint introspect_loop (db : DB) (names : list string)
    (out : list (string * list string)) : Res (list (string * list string)) :=
  match names with
  | [] => Ok out
  | t :: r =>
      res_bind (table_info db t) (λ cols, introspect_loop db r (Dict.set t cols out))
  end.

Definition _introspect_schema (db : DB) : Res (list (string * list string)) :=
  introspect_loop db (table_names db) [].

Definition section_lines (title : string) (items : list string) : list string :=
  if nonempty items then
    title :: map (λ t, "  - " +:+ t) items ++ [""]
  else [].

Definition column_lines (diff : string * list string * list string) : list string :=
  let '(t, missing_cols, extra_cols) := diff in
  [ "  - " +:+ t +:+ ":";
    "      missing: " +:+ repr_strs missing_cols;
    "      unexpected: " +:+ repr_strs extra_cols ].

(** The list [lines] of [_format_schema_diff] before it is joined. *)
Definition schema_diff_lines
    (missing_tables extra_tables : list string)
    (column_diffs : list (string * list string * list string)) : list string :=
  ["SCHEMA_MISMATCH"; ""]
  ++ section_lines "Missing tables:" missing_tables
  ++ section_lines "Unexpected tables:" extra_tables
  ++ (if nonempty column_diffs then
        "Column mismatches:" :: concat (map column_lines column_diffs) ++ [""]
      else []).

Definition _format_schema_diff
    (missing_tables extra_tables : list string)
    (column_diffs : list (string * list string * list string)) : string :=
  Py.rstrip (Py.join nl (schema_diff_lines missing_tables extra_tables column_diffs))
  +:+ nl.

(** [{t.name: list(t.columns) for t in expected.tables}] *)
Definition exp_tables (expected : ExpectedSchema) : list (string * list string) :=
  fold_left (λ d t, Dict.set (et_name t) (et_columns t) d) (tables expected) [].

Definition missing_tables (exp actual : list (string * list string)) : list string :=
  Py.sorted (List.filter (λ t, negb (Dict.mem t actual)) (Dict.keys exp)).

Definition extra_tables (exp actual : list (string * list string)) : list string :=
  Py.sorted (List.filter (λ t, negb (Dict.mem t exp)) (Dict.keys actual)).

Definition column_diff (actual : list (string * list string))
    (item : string * list string) : option (string * list string * list string) :=
  let '(tname, exp_cols) := item in
  match Dict.get tname actual with
  | None => None
  | Some act_cols =>
      let missing_cols := List.filter (λ c, negb (Py.mem c act_cols)) exp_cols in
      let extra_cols := List.filter (λ c, negb (Py.mem c exp_cols)) act_cols in
      if nonempty missing_cols || nonempty extra_cols
      then Some (tname, missing_cols, extra_cols)
      else None
  end.

Definition column_diffs (exp actual : list (string * list string))
  : list (string * list string * list string) :=
  omap (column_diff actual) exp.

Definition validate_schema (expected : ExpectedSchema) (db : DB) : Res unit :=
  res_bind (_introspect_schema db) (λ actual,
  let exp := exp_tables expected in
  let missing := missing_tables exp actual in
  let extra := extra_tables exp actual in
  let diffs := column_diffs exp actual in
  if nonempty missing || nonempty extra || nonempty diffs then
    Raise (schema_mismatch "Database schema mismatch."
             (_format_schema_diff missing extra diffs))
  else Ok tt).

(** ** Project discovery helpers *)

(** One round of the loop of [_scan_for_project_name]; [m.get] is outside
    the [try], so a manifest that decodes to something other than an
    object raises. *)
Definition scan_entry (project_name : string) (hits : list string)
    (entry : string * Dir) : Res (list string) :=
  match manifest_json entry.2 with
  | None => Ok hits
  | Some (Corrupt _) => Ok hits
  | Some (JsonDoc m) =>
      res_bind (py_get m "version") (λ version,
      if value_is_str version "v1" then
        res_bind (py_get m "project_name") (λ name,
        Ok (if value_is_str name project_name then hits ++ [entry.1] else hits))
      else Ok hits)
  end.

Fixpoint scan_loop (project_name : string) (hits : list string)
    (entries : list (string * Dir)) : Res (list string) :=
  match entries with
  | [] => Ok hits
  | entry :: r =>
      res_bind (scan_entry project_name hits entry) (λ hits', scan_loop project_name hits' r)
  end.

(** The directories found, by name. *)
Definition _scan_for_project_name (cur : FS) (project_name : string) : Res (list string) :=
  match cur with
  | None => Ok []
  | Some _ => scan_loop project_name [] (fs_dirs cur)
  end.

Definition staging_subfolders : list string :=
  ["pdfs"; "ingested"; "indexes"; "drafts"; "exports"; "logs"].

Definition _ensure_staging_tree (staging_dir : string) : M unit :=
  fs_op (mkdir_new staging_dir) ;;
  for_each staging_subfolders (λ sub, fs_op (mkdir_sub staging_dir sub)).

(** ** Public API *)

Definition project_id_of (cfg : ProjectConfig) : string :=
  today E +:+ "_" +:+ project_name cfg.

Definition staging_name (project_id : string) : string :=
  ".tmp_" +:+ project_id +:+ "_" +:+ uuid_hex E.

Definition created_info (base project_id : string) : ProjectInfo :=
  let final_path := path_join base project_id in
  {| pi_project_id := VStr project_id;
     pi_project_dir := final_path;
     pi_manifest_path := path_join final_path "manifest.json";
     pi_database_path := path_join final_path "library.db";
     pi_status := "created" |}.

(** The body of the [try] of [create_project]. *)
Definition create_body (cfg : ProjectConfig) (expected_schema : ExpectedSchema)
    (canonical_schema_sql : string) (created_at : string) : M ProjectInfo :=
  let base := base_projects_dir cfg in
  let project_id := project_id_of cfg in
  let final_dir := project_id in
  let staging_dir := staging_name project_id in
  let db_path := path_join (path_join base staging_dir) "library.db" in
  let manifest_path := path_join (path_join base staging_dir) "manifest.json" in
  let schema_hash := compute_schema_hash canonical_schema_sql in
  mkdir_base base ;;
  _ensure_staging_tree staging_dir ;;
  _log staging_dir "INFO" "create.start"
    ("project_name=" +:+ project_name cfg +:+ " sources=" +:+ Py.join "," (sources cfg)
     +:+ " citation_style=" +:+ citation_style cfg) ;;
  _log staging_dir "INFO" "create.dirs_created" "" ;;
  _log staging_dir "INFO" "create.db_init" ("path=" +:+ db_path) ;;
  c <- sqlite3_connect staging_dir ;;
  set_conn (Some c) ;;
  apply_canonical_schema c canonical_schema_sql ;;
  upsert_schema_meta c "v1" schema_hash ;;
  db_read c (verify_schema_meta "v1" schema_hash) ;;
  db_read c (validate_schema expected_schema) ;;
  _log staging_dir "INFO" "create.schema_validated" "" ;;
  conn_close c ;;
  set_conn None ;;
  let m := _manifest_dict cfg project_id created_at in
  fs_op (write_manifest staging_dir m) ;;
  _log staging_dir "INFO" "create.manifest_written" ("path=" +:+ manifest_path) ;;
  cur <- get_fs ;;
  written <- lift (_read_manifest cur staging_dir) ;;
  lift (_validate_manifest_v1 written final_dir) ;;
  fs_op (rename staging_dir final_dir) ;;
  _log final_dir "INFO" "create.finalized" ("project_dir=" +:+ path_join base final_dir) ;;
  ret (created_info base project_id).

(** [if conn is not None: conn.close()], failures swallowed *)
Definition close_if_open : M unit :=
  try_pass (c <- get_conn ;;
            match c with
            | Some c => conn_close c
            | None => ret tt
            end).

(** The first [try] of the [except Exception as e] block: the
    best-effort log, failures swallowed. *)
Definition log_failure (staging_dir : string) (e : Exn) : M unit :=
  try_pass (cur <- get_fs ;;
            if fs_exists cur staging_dir then
              _log staging_dir "ERROR" "create.failed"
                ("error=" +:+ exn_type_name e +:+ " detail=" +:+ exn_str e) ;;
              _write_text_line staging_dir ("traceback:" +:+ nl +:+ format_exc E e)
            else ret tt).

(** [if staging_dir.exists(): shutil.rmtree(staging_dir)] *)
Definition delete_staging (staging_dir : string) : M unit :=
  cur <- get_fs ;;
  if fs_exists cur staging_dir then fs_op (rmtree staging_dir) else ret tt.

(** The [except Exception as e] block of [create_project]. *)
Definition create_rollback (staging_dir : string) (e : Exn) : M ProjectInfo :=
  log_failure staging_dir e ;;
  close_if_open ;;
  try_except (delete_staging staging_dir)
             (λ re_err, raise (Typed FilesystemError
                                 "Creation failed and rollback also failed."
                                 (exn_str re_err) (Some e))) ;;
  if is_typed e then raise e
  else raise (Typed ProjectCreatorError "Project creation failed." (exn_str e) (Some e)).

Definition create_project (cfg : ProjectConfig) (expected_schema : ExpectedSchema)
    (canonical_schema_sql : string) : M ProjectInfo :=
  lift (_validate_config cfg) ;;
  let base := base_projects_dir cfg in
  let project_id := project_id_of cfg in
  let final_dir := project_id in
  cur <- get_fs ;;
  dup_name_dirs <- lift (_scan_for_project_name cur (project_name cfg)) ;;
  if nonempty dup_name_dirs then
    raise (Typed DuplicateProjectNameError
             ("Duplicate project_name '" +:+ project_name cfg +:+ "' already exists.")
             ("found_in=" +:+ Py.join "," (map (path_join base) dup_name_dirs)) None)
  else if fs_exists cur final_dir then
    raise (Typed DuplicateProjectIdError
             ("Duplicate project_id '" +:+ project_id +:+ "' already exists.")
             (path_join base final_dir) None)
  else
    let staging_dir := staging_name project_id in
    created_at <- _utc_now_iso ;;
    set_conn None ;;
    try_finally
      (try_except
         (create_body cfg expected_schema canonical_schema_sql created_at)
         (create_rollback staging_dir))
      close_if_open.

(** [m[k]] *)
Definition py_item (m : value) (k : string) : Res value :=
  match m with
  | VDict d =>
      match Dict.get k d with
      | Some v => Ok v
      | None => Raise (Foreign "KeyError" (py_repr E (VStr k)))
      end
  | _ => Raise (Foreign "TypeError" "object is not subscriptable")
  end.

(** [open_project(base / name, ...)]; the result's [project_id] is
    [m["project_id"]]. *)
Definition open_project (base name : string) (expected_schema : ExpectedSchema)
    (canonical_schema_sql : string) : M ProjectInfo :=
  let project_dir := path_join base name in
  cur <- get_fs ;;
  m <- lift (_read_manifest cur name) ;;
  lift (_validate_manifest_v1 m name) ;;
  if negb (match dir_db cur name with Some _ => true | None => false end) then
    raise (Typed ProjectOpenError "library.db not found."
             (path_join project_dir "library.db") None)
  else
    let schema_hash := compute_schema_hash canonical_schema_sql in
    c <- sqlite3_connect name ;;
    try_finally
      (db_read c (verify_schema_meta "v1" schema_hash) ;;
       db_read c (validate_schema expected_schema))
      (conn_close c) ;;
    pid <- lift (py_item m "project_id") ;;
    ret {| pi_project_id := pid;
           pi_project_dir := project_dir;
           pi_manifest_path := path_join project_dir "manifest.json";
           pi_database_path := path_join project_dir "library.db";
           pi_status := "opened" |}.

(** The [try] block of the loop of [list_projects]. *)
Definition summarize (base name : string) (text : FileText) : Res ProjectSummary :=
  match text with
  | Corrupt err => Raise (Foreign "JSONDecodeError" err)
  | JsonDoc m =>
      res_bind (py_get m "version") (λ version,
      if negb (value_is_str version "v1") then
        Raise (Foreign "ValueError" ("Unsupported version: " +:+ py_repr E version))
      else
        res_bind (py_get m "project_id") (λ pid,
        if negb (value_is_str pid name) then
          Raise (Foreign "ValueError" "project_id mismatch")
        else
          res_bind (py_item m "project_id") (λ project_id,
          res_bind (py_item m "project_name") (λ project_name,
          res_bind (py_item m "created_at") (λ created_at,
          res_bind (py_item m "topic_prompt") (λ topic_prompt,
          Ok {| ps_project_id := project_id;
                ps_project_name := project_name;
                ps_project_dir := path_join base name;
                ps_created_at := created_at;
                ps_topic_prompt := topic_prompt;
                ps_valid := true;
                ps_error := None |}))))))
  end.

(** The summary appended by the [except Exception as e] block. *)
Definition flagged (base name : string) (e : Exn) : ProjectSummary :=
  {| ps_project_id := VStr name;
     ps_project_name := VStr "(unknown)";
     ps_project_dir := path_join base name;
     ps_created_at := VStr "";
     ps_topic_prompt := VStr "";
     ps_valid := false;
     ps_error := Some (exn_str e) |}.

(** One round of the loop of [list_projects]. *)
Definition list_entry (base : string) (out : list ProjectSummary)
    (entry : string * Dir) : Res (list ProjectSummary) :=
  match manifest_json entry.2 with
  | None => Ok out
  | Some text =>
      match summarize base entry.1 text with
      | Ok s => Ok (out ++ [s])
      | Raise e => Ok (out ++ [flagged base entry.1 e])
      end
  end.

Fixpoint list_loop (base : string) (out : list ProjectSummary)
    (entries : list (string * Dir)) : Res (list ProjectSummary) :=
  match entries with
  | [] => Ok out
  | entry :: r => res_bind (list_entry base out entry) (λ out', list_loop base out' r)
  end.

(** [sorted(dirs, key=lambda p: p.name)] *)
Definition by_name (a b : string * Dir) : Prop := String.le a.1 b.1.

Definition sorted_dirs (cur : FS) : list (string * Dir) :=
  merge_sort by_name (fs_dirs cur).

Definition list_projects (cur : FS) (base : string) : Res (list ProjectSummary) :=
  match cur with
  | None => Ok []
  | Some _ => list_loop base [] (sorted_dirs cur)
  end.

End Program.

(* ================================================================== *)
(** * The registry and a concrete environment *)
(* ================================================================== *)

(** [EXPECTED_SCHEMA] of [project_overview/canonical_schema.py]. *)
Definition EXPECTED_SCHEMA : ExpectedSchema :=
  {| tables := [
       {| et_name := "schema_meta"; et_columns := ["key"; "value"] |};
       {| et_name := "papers";
          et_columns := ["paper_id"; "source"; "title"; "authors_json"; "year"; "venue";
                         "doi"; "pmcid"; "landing_url"; "pdf_url"; "pdf_path"; "sha256";
                         "status"; "status_detail"; "added_at"; "updated_at"] |};
       {| et_name := "ingests";
          et_columns := ["paper_id"; "ingested_json_path"; "pages"; "sections_json";
                         "created_at"; "updated_at"] |};
       {| et_name := "chunks";
          et_columns := ["chunk_id"; "paper_id"; "page_num"; "section"; "text";
                         "start_char"; "end_char"; "embedding_ref"; "created_at"] |};
       {| et_name := "citations";
          et_columns := ["cite_id"; "paper_id"; "chunk_id"; "page_num"; "section";
                         "excerpt"; "start_char"; "end_char"; "excerpt_sha256";
                         "created_at"] |};
       {| et_name := "drafts";
          et_columns := ["draft_id"; "title"; "doc_type"; "content_md"; "citation_style";
                         "created_at"; "updated_at"] |};
       {| et_name := "draft_citation_map";
          et_columns := ["draft_id"; "ref_number"; "cite_id"] |};
       {| et_name := "indexes";
          et_columns := ["index_id"; "kind"; "path"; "params_json"; "created_at";
                         "updated_at"] |} ] |}.

Module Demo.

(** The tables that the [CREATE TABLE IF NOT EXISTS] statements of
    [CANONICAL_SCHEMA_SQL] declare, with their columns in order. *)
Definition canonical_tables : gmap string (list string) :=
  list_to_map (map (λ t, (et_name t, et_columns t)) (tables EXPECTED_SCHEMA)).

Definition CANONICAL_SCHEMA_SQL : string := "-- canonical schema v1 --".

(** An engine that knows the registry's script: it adds the tables that
    are not there yet ([schema_meta] with [key] as its primary key); any
    other text is a syntax error. *)
Definition engine (sql : string) (db : DB) : string + DB :=
  if String.eqb sql CANONICAL_SCHEMA_SQL then
    inr {| db_tables := db_tables db ∪ canonical_tables;
           meta_rows := meta_rows db;
           meta_key_unique :=
             match find_table db "schema_meta" with
             | Some _ => meta_key_unique db
             | None => true
             end |}
  else inl "syntax error".

Definition word_char (c : ascii) : bool :=
  Py.in_range 97 122 c || Py.in_range 65 90 c || Py.in_range 48 57 c
  || Ascii.eqb c "_"%char.

(** A parser that takes, without quotes, the names made of letters,
    digits and underscores that do not start with a digit. *)
Definition plain_identifier (t : string) : bool :=
  match t with
  | EmptyString => false
  | String c _ => negb (Py.in_range 48 57 c) && forallb word_char (list_ascii_of_string t)
  end.

Definition pragma (t : string) : option string :=
  if plain_identifier t then None else Some "syntax error".

Definition quote (s : string) : string := "'" +:+ s +:+ "'".

(** [repr] on strings without quotes or escapes, and on lists of them. *)
Definition repr (v : value) : string :=
  match v with
  | VNone => "None"
  | VBool true => "True"
  | VBool false => "False"
  | VNum lit => lit
  | VStr s => quote s
  | VList l =>
      "[" +:+ Py.join ", " (map (λ x, match x with VStr s => quote s | _ => "..." end) l)
      +:+ "]"
  | VDict _ => "{...}"
  end.

Definition env (failing : list nat) : Env :=
  {| today := "2026-01-15";
     now_iso := λ _, "2026-01-15T10:00:00Z";
     uuid_hex := "0123456789abcdef0123456789abcdef";
     sha256_hex := λ s, "sha256:" +:+ s;
     sql_script := engine;
     pragma_error := pragma;
     stdout_error := λ _, None;
     py_repr := repr;
     format_exc := λ e, "Traceback (most recent call last): " +:+ exn_str e;
     faults := λ n, existsb (Nat.eqb n) failing |}.

Definition config (name : string) : ProjectConfig :=
  {| project_name := name;
     topic_prompt := "Effects of cyclic mechanical strain";
     base_projects_dir := "projects";
     citation_style := "vancouver";
     sources := ["pmc"; "biorxiv"];
     notes := Some "Initial literature exploration" |}.

Definition run_create (failing : list nat) (name sql : string) (cur : FS)
  : Res ProjectInfo * World :=
  create_project (env failing) (config name) EXPECTED_SCHEMA sql (initial_world cur).

End Demo.

(* ================================================================== *)
(** * The command line ([project_creator/cli.py]) *)
(* ================================================================== *)

(** What [parser.parse_args] returns: the sub-command and its options.
    A path is the text that [str(Path(...))] gives; the directory given
    to [open] is its parent and its name. *)
Inductive Args : Type :=
| ArgsCreate (name topic base_dir : string) (sources : list string) (notes : option string)
| ArgsOpen (parent name : string)
| ArgsList (base_dir : string).

(** What a run of [main] printed: the value it serialised with
    [json.dumps], and the stream. *)
Inductive Printed : Type :=
| Stdout (v : value)
| Stderr (v : value).

Section Cli.

Variable E : Env.

(** The text of [CANONICAL_SCHEMA_SQL]. *)
Variable canonical_schema_sql : string.

Definition info_json (info : ProjectInfo) : value :=
  VDict [ ("project_id", pi_project_id info);
          ("project_dir", VStr (pi_project_dir info));
          ("manifest_path", VStr (pi_manifest_path info));
          ("database_path", VStr (pi_database_path info));
          ("status", VStr (pi_status info)) ].

Definition summary_json (p : ProjectSummary) : value :=
  VDict [ ("project_id", ps_project_id p);
          ("project_name", ps_project_name p);
          ("project_dir", VStr (ps_project_dir p));
          ("created_at", ps_created_at p);
          ("topic_prompt", ps_topic_prompt p);
          ("valid", VBool (ps_valid p));
          ("error", match ps_error p with Some s => VStr s | None => VNone end) ].

(** [_print_json(obj)]: [print] on the standard output, which encodes
    with the error handler [strict]. *)
Definition _print_json (obj : value) : M Printed :=
  match stdout_error E obj with
  | Some (cls, detail) => raise (Foreign cls detail)
  | None => ret (Stdout obj)
  end.

(** The handlers return the exit status and what they printed. *)
Definition cmd_create (name topic base_dir : string) (srcs : list string)
    (nts : option string) : M (nat * Printed) :=
  let cfg := {| project_name := name;
                topic_prompt := topic;
                base_projects_dir := base_dir;
                citation_style := "vancouver";
                sources := srcs;
                notes := nts |} in
  info <- create_project E cfg EXPECTED_SCHEMA canonical_schema_sql ;;
  printed <- _print_json (info_json info) ;;
  ret (0, printed).

Definition cmd_open (parent name : string) : M (nat * Printed) :=
  info <- open_project E parent name EXPECTED_SCHEMA canonical_schema_sql ;;
  printed <- _print_json (info_json info) ;;
  ret (0, printed).

Definition cmd_list (base_dir : string) : M (nat * Printed) :=
  cur <- get_fs ;;
  items <- lift (list_projects E cur base_dir) ;;
  printed <- _print_json (VList (map summary_json items)) ;;
  ret (0, printed).

(** [main(argv)] after the arguments are parsed: only the module's own
    errors are caught. The error object goes to the standard error, which
    encodes with the error handler [backslashreplace]. *)
Definition main (args : Args) : M (nat * Printed) :=
  try_except
    (match args with
     | ArgsCreate name topic base_dir srcs nts => cmd_create name topic base_dir srcs nts
     | ArgsOpen parent name => cmd_open parent name
     | ArgsList base_dir => cmd_list base_dir
     end)
    (λ e,
       match e with
       | Typed _ message diagnostic _ =>
           ret (2, Stderr (VDict [("error", VStr message);
                                  ("diagnostic", VStr diagnostic)]))
       | Foreign _ _ => raise e
       end).

End Cli.

(* ================================================================== *)
(** * Properties, in the words of the specification *)
(* ================================================================== *)

(** A name made only of lowercase letters, digits and underscores, and not
    empty: the pattern as a property of the whole string. *)
Definition is_identifier (s : string) : Prop :=
  s ≠ "" ∧ Forall (λ c, name_char c = true) (list_ascii_of_string s).

(** The expected table → column-list mapping: a later declaration of a
    name replaces an earlier one. *)
Definition expected_columns (expected : ExpectedSchema) (t : string) : option (list string) :=
  et_columns <$> last (List.filter (λ et, String.eqb (et_name et) t) (tables expected)).

(** The letter [l], given in lowercase, or its capital. *)
Definition is_letter (l c : ascii) : bool :=
  Ascii.eqb c l || (Py.code c + 32 =? Py.code l)%N.

(** The names that the introspection leaves out: the letters of [sqlite]
    in any case, then one character, whichever, then anything. *)
Definition hidden_name (t : string) : bool :=
  match t with
  | String c1 (String c2 (String c3 (String c4 (String c5 (String c6 (String _ _)))))) =>
      is_letter "s" c1 && is_letter "q" c2 && is_letter "l" c3
      && is_letter "i" c4 && is_letter "t" c5 && is_letter "e" c6
  | _ => false
  end.

(** The names that SQLite keeps for its own tables: they begin with
    [sqlite_], in any case. *)
Definition system_name (t : string) : bool :=
  String.prefix "sqlite_" (ascii_fold_string t).

(** The tables that the introspection compares, with their columns. *)
Definition visible_columns (db : DB) (t : string) : option (list string) :=
  if hidden_name t then None else db_tables db !! t.

(** Every compared table has a name that [PRAGMA table_info] takes
    without quotes. *)
Definition names_accepted (E : Env) (db : DB) : Prop :=
  ∀ t, is_Some (visible_columns db t) → pragma_error E t = None.



(** The diagnostic states the expected and the actual value of a marker. *)
Definition states_expected_vs_actual (E : Env) (expected_version expected_hash diff : string)
  : Prop :=
  (∃ actual, diff = "expected schema_version=" +:+ py_repr E (VStr expected_version)
                    +:+ " got " +:+ py_repr E (VStr actual))
  ∨ (∃ actual, diff = "expected schema_hash=" +:+ expected_hash +:+ " got " +:+ actual).

(** The report of a schema difference, section by section; a section
    with nothing to list is left out. *)
Definition report_section (title : string) (items : list string) : list string :=
  match items with
  | [] => []
  | _ :: _ => title :: items ++ [""]
  end.

Definition report_text (E : Env) (missing extra : list string)
    (diffs : list (string * list string * list string)) : string :=
  Py.rstrip
    (Py.join nl
       (["SCHEMA_MISMATCH"; ""]
        ++ report_section "Missing tables:" (map (λ t, "  - " +:+ t) missing)
        ++ report_section "Unexpected tables:" (map (λ t, "  - " +:+ t) extra)
        ++ report_section "Column mismatches:"
             (flat_map (λ d : string * list string * list string,
                          [ "  - " +:+ d.1.1 +:+ ":";
                            "      missing: " +:+ py_repr E (VList (map VStr d.1.2));
                            "      unexpected: " +:+ py_repr E (VList (map VStr d.2)) ])
                diffs)))
  +:+ nl.



(** A manifest that decodes to an object, declares version v1 and the
    directory's name as its id, and has the three entries that a summary
    shows: these entries. *)
Definition summary_fields (name : string) (text : FileText) : option (value * value * value) :=
  match text with
  | JsonDoc (VDict obj) =>
      if value_is_str (default VNone (Dict.get "version" obj)) "v1"
         && value_is_str (default VNone (Dict.get "project_id" obj)) name
      then match Dict.get "project_name" obj, Dict.get "created_at" obj,
                 Dict.get "topic_prompt" obj with
           | Some pn, Some ca, Some tp => Some (pn, ca, tp)
           | _, _, _ => None
           end
      else None
  | _ => None
  end.



(** What one directory contributes to the listing. *)
Definition entry_summary (E : Env) (base : string) (entry : string * Dir)
  : option ProjectSummary :=
  match manifest_json entry.2 with
  | None => None
  | Some text =>
      Some (match summarize E base entry.1 text with
            | Ok s => s
            | Raise e => flagged base entry.1 e
            end)
  end.

(** ** Creation *)

Definition staging_subfolder_set : gset string := list_to_set staging_subfolders.

(** The world in which the [try] of [create_project] starts: the clock has
    been read once, for [created_at]. *)
Definition try_entry_world (start : FS) : World :=
  {| fs := start; past := []; opc := 0; clock := 1; conn := None |}.

(** The statements that build the database, and the two checks on it. *)
Definition built_db (E : Env) (expected_schema : ExpectedSchema) (sql : string) : Res DB :=
  res_bind (run_script E sql empty_db) (λ db1,
  res_bind (insert_or_ignore "schema_version" "v1" db1) (λ db2,
  res_bind (insert_or_ignore "schema_hash" (compute_schema_hash E sql) db2) (λ db,
  res_bind (verify_schema_meta E "v1" (compute_schema_hash E sql) db) (λ _,
  res_bind (validate_schema E expected_schema db) (λ _, Ok db))))).

(** A fully built workspace directory: the fixed sub-folders, a database
    that passes both checks of the schema guard, and the manifest of this
    creation. *)
Definition fully_built (E : Env) (cfg : ProjectConfig) (expected_schema : ExpectedSchema)
    (sql created_at : string) (d : Dir) : Prop :=
  subdirs d = staging_subfolder_set
  ∧ manifest_json d = Some (JsonDoc (_manifest_dict cfg (project_id_of E cfg) created_at))
  ∧ ∃ db, library_db d = Some db
      ∧ verify_schema_meta E "v1" (compute_schema_hash E sql) db = Ok tt
      ∧ validate_schema E expected_schema db = Ok tt.

(** States of the base directory during a creation, relative to the state
    [start] it began in. No name other than the staging name and the final
    name is ever touched. Before promotion the final name is absent. *)
Definition not_promoted (staging final : string) (start cur : FS) : Prop :=
  fs_lookup cur final = None
  ∧ ∀ k, k ≠ staging → k ≠ final → fs_lookup cur k = fs_lookup start k.

(** After promotion the final name holds a directory that satisfies
    [built], and the staging name is gone. *)
Definition promoted (built : Dir → Prop) (staging final : string) (start cur : FS) : Prop :=
  fs_lookup cur staging = None
  ∧ (∃ d, fs_lookup cur final = Some (NDir d) ∧ built d)
  ∧ ∀ k, k ≠ staging → k ≠ final → fs_lookup cur k = fs_lookup start k.

(** A history (latest state first): states before promotion, then states
    after it. *)
Definition two_phase (built : Dir → Prop) (staging final : string) (start : FS)
    (h : list FS) : Prop :=
  ∃ after before, h = after ++ before
    ∧ Forall (promoted built staging final start) after
    ∧ Forall (not_promoted staging final start) before.

(** The checks of [create_project] before its [try]. *)
Definition prechecks (E : Env) (cfg : ProjectConfig) (start : FS) : Prop :=
  _validate_config E cfg = Ok tt
  ∧ _scan_for_project_name start (project_name cfg) = Ok []
  ∧ fs_lookup start (project_id_of E cfg) = None.

(** What a creation that got past its checks can fail of. *)
Definition failure_cause (E : Env) (base : string) (expected_schema : ExpectedSchema)
    (sql : string) (staging : string) (start : FS) : Prop :=
  has_nul base = true
  ∨ (∃ n, faults E n = true)
  ∨ fs_lookup start staging ≠ None
  ∨ is_ok (built_db E expected_schema sql) = false.

(** What [create_project] raises after its rollback, for the exception [e]
    of the [try] block: [e] itself when it is one of the module's classes,
    and the generic wrapper around it otherwise. *)
Definition reraised (e : Exn) : Exn :=
  if is_typed e then e
  else Typed ProjectCreatorError "Project creation failed." (exn_str e) (Some e).



Definition rollback_outcome (staging : string) (e x : Exn) (cur : FS) : Prop :=
  (fs_lookup cur staging ≠ None
   ∧ ∃ diagnostic,
       x = Typed FilesystemError "Creation failed and rollback also failed." diagnostic
             (Some e))
  ∨ (fs_lookup cur staging = None ∧ x = reraised e).

(** Hoare triples on the current file-system state and the earlier ones:
    from a world that satisfies [P], a run of [m] that returns [a] ends in
    [Q a], and one that raises [e] ends in [X e]. *)
Definition hoare {A} (P : FS → list FS → Prop) (m : M A)
    (Q : A → FS → list FS → Prop) (X : Exn → FS → list FS → Prop) : Prop :=
  ∀ w, P (fs w) (past w) →
    match m w with
    | (Ok a, w') => Q a (fs w') (past w')
    | (Raise e, w') => X e (fs w') (past w')
    end.

(** The staging entry holds a directory with these sub-folders, this
    manifest and this database. *)
Definition staged (S : gset string) (manifest : option FileText) (database : option DB)
    (found : option Node) : Prop :=
  ∃ d, found = Some (NDir d) ∧ subdirs d = S ∧ manifest_json d = manifest
    ∧ library_db d = database.

(* ================================================================== *)
(** * Strings and dictionaries *)
(* ================================================================== *)

Lemma lower_char_fixed c :
  name_char c = true ∨ c = Py.LF → Py.lower_char c = c.
Proof.
  destruct c as [[] [] [] [] [] [] [] []]; vm_compute; intros [H|H];
    first [reflexivity | discriminate].
Qed.

Lemma name_re_rest_lower s : name_re_rest s = true → Py.lower s = s.
Proof.
  induction s as [|c r IH]; [done|]. cbn [name_re_rest Py.lower].
  destruct r as [|c' r'].
  - intros H. cbn. rewrite lower_char_fixed; [done|].
    apply orb_true_iff in H as [H|H]; [by left|right].
    by apply Ascii.eqb_eq in H.
  - intros [H1 H2]%andb_true_iff. rewrite IH by done.
    rewrite lower_char_fixed; auto.
Qed.

(** Rule 2 of the validator never fires: a name that matches is lowercase. *)
Lemma name_re_match_lower s : _NAME_RE_match s = true → Py.lower s = s.
Proof.
  destruct s as [|c r]; [done|]. cbn [_NAME_RE_match].
  intros [H1 H2]%andb_true_iff. cbn [Py.lower].
  rewrite name_re_rest_lower by done. rewrite lower_char_fixed; auto.
Qed.

Lemma name_re_rest_identifier r :
  Forall (λ c, name_char c = true) (list_ascii_of_string r) → name_re_rest r = true.
Proof.
  induction r as [|c r IH]; [done|]. cbn [list_ascii_of_string name_re_rest].
  intros [Hc Hr]%Forall_cons. destruct r; rewrite Hc; [done|]. by apply IH.
Qed.

(** Every identifier matches the pattern. *)
Lemma identifier_matches s : is_identifier s → _NAME_RE_match s = true.
Proof.
  intros [Hne Hall]. destruct s as [|c r]; [done|].
  cbn [list_ascii_of_string] in Hall. apply Forall_cons in Hall as [Hc Hr].
  cbn [_NAME_RE_match]. rewrite Hc. by apply name_re_rest_identifier.
Qed.

Lemma name_re_rest_shape r :
  name_re_rest r = true →
  Forall (λ c, name_char c = true) (list_ascii_of_string r)
  ∨ ∃ r', r = r' +:+ nl ∧ Forall (λ c, name_char c = true) (list_ascii_of_string r').
Proof.
  induction r as [|c r IH]; [by left; constructor|].
  cbn [name_re_rest]. destruct r as [|c' r'].
  - intros [H|H]%orb_true_iff.
    + left. cbn. by repeat constructor.
    + apply Ascii.eqb_eq in H as ->. right. exists ""%string. split; [done|constructor].
  - intros [Hc Hr]%andb_true_iff. destruct (IH Hr) as [Hall|(r0 & Heq & Hall)].
    + left. cbn [list_ascii_of_string]. by constructor.
    + right. exists (String c r0). split; [by rewrite Heq|].
      cbn [list_ascii_of_string]. by constructor.
Qed.

(** What the pattern matches: an identifier, or an identifier followed by
    one newline. *)
Lemma name_re_match_shape s :
  _NAME_RE_match s = true → is_identifier s ∨ ∃ s', s = s' +:+ nl ∧ is_identifier s'.
Proof.
  destruct s as [|c r]; [done|]. cbn [_NAME_RE_match].
  intros [Hc Hr]%andb_true_iff.
  destruct (name_re_rest_shape r Hr) as [Hall|(r0 & Heq & Hall)].
  - left. split; [done|]. cbn [list_ascii_of_string]. by constructor.
  - right. exists (String c r0). split; [by rewrite Heq|].
    split; [done|]. cbn [list_ascii_of_string]. by constructor.
Qed.

Module DictFacts.
Section DictFacts.
Context {V : Type}.
Implicit Types (d : list (string * V)) (k : string) (v : V).

Lemma get_set_eq k v d : Dict.get k (Dict.set k v d) = Some v.
Proof.
  induction d as [|[k' v'] r IH]; cbn.
  - by rewrite String.eqb_refl.
  - destruct (String.eqb k k') eqn:Hk; cbn; rewrite ?String.eqb_refl, ?Hk; done.
Qed.

Lemma get_set_ne k k' v d : k ≠ k' → Dict.get k' (Dict.set k v d) = Dict.get k' d.
Proof.
  intros Hne. induction d as [|[k0 v0] r IH]; cbn.
  - by apply not_eq_sym, String.eqb_neq in Hne as ->.
  - destruct (String.eqb k k0) eqn:Hk; cbn.
    + apply String.eqb_eq in Hk as <-.
      by apply not_eq_sym, String.eqb_neq in Hne as ->.
    + by rewrite IH.
Qed.

Lemma get_set k k' v d :
  Dict.get k' (Dict.set k v d) = if decide (k = k') then Some v else Dict.get k' d.
Proof.
  case_decide as Hk; [subst; apply get_set_eq|by apply get_set_ne].
Qed.

Lemma mem_keys k d : Dict.mem k d = true ↔ k ∈ Dict.keys d.
Proof.
  unfold Dict.mem, Dict.keys. induction d as [|[k' v'] r IH]; cbn.
  - split; [done|]. by intros ?%elem_of_nil.
  - rewrite elem_of_cons. destruct (String.eqb k k') eqn:Hk.
    + apply String.eqb_eq in Hk. naive_solver.
    + apply String.eqb_neq in Hk. naive_solver.
Qed.

Lemma mem_is_Some k d : Dict.mem k d = true ↔ is_Some (Dict.get k d).
Proof.
  unfold Dict.mem. destruct (Dict.get k d); split; intros H;
    first [done | by eexists | by destruct H].
Qed.

Lemma keys_set_NoDup k v d : NoDup (Dict.keys d) → NoDup (Dict.keys (Dict.set k v d)).
Proof.
  unfold Dict.keys. induction d as [|[k' v'] r IH]; cbn.
  - intros _. repeat constructor. by intros ?%elem_of_nil.
  - intros [Hnotin Hnd]%NoDup_cons. destruct (String.eqb k k') eqn:Hk; cbn.
    + apply String.eqb_eq in Hk as ->. by constructor.
    + apply String.eqb_neq in Hk. constructor; [|by apply IH].
      intros Hin. apply Hnotin.
      apply (mem_keys k' (Dict.set k v r)) in Hin.
      apply mem_is_Some in Hin. rewrite get_set_ne in Hin by done.
      by apply mem_keys, mem_is_Some.
Qed.




End DictFacts.
End DictFacts.

(* ================================================================== *)
(** * The monad and the file system: basic facts *)
(* ================================================================== *)

Lemma bind_inv {A B} (m : M A) (k : A → M B) w r w' :
  bind m k w = (r, w') →
  (∃ a w1, m w = (Ok a, w1) ∧ k a w1 = (r, w'))
  ∨ (∃ e, m w = (Raise e, w') ∧ r = Raise e).
Proof.
  unfold bind. destruct (m w) as [[a|e] w1]; intros H.
  - left. by exists a, w1.
  - right. exists e. by injection H as <- <-.
Qed.

Lemma fs_lookup_set_eq cur name n : fs_lookup (fs_set cur name n) name = Some n.
Proof. unfold fs_lookup, fs_set. apply lookup_insert_eq. Qed.

Lemma fs_lookup_set_ne cur name n k :
  name ≠ k → fs_lookup (fs_set cur name n) k = fs_lookup cur k.
Proof.
  intros Hne. unfold fs_lookup, fs_set, fs_entries.
  rewrite lookup_insert_ne by done. by destruct cur.
Qed.

Lemma fs_lookup_remove_eq cur name : fs_lookup (fs_remove cur name) name = None.
Proof. destruct cur; cbn; [apply lookup_delete_eq|done]. Qed.

Lemma fs_lookup_remove_ne cur name k :
  name ≠ k → fs_lookup (fs_remove cur name) k = fs_lookup cur k.
Proof. intros Hne. destruct cur; cbn; [by apply lookup_delete_ne|done]. Qed.

Lemma fs_lookup_mkdir_base cur k : fs_lookup (Some (fs_entries cur)) k = fs_lookup cur k.
Proof. by destruct cur. Qed.

Lemma fs_exists_true cur name : fs_exists cur name = true ↔ fs_lookup cur name ≠ None.
Proof. unfold fs_exists. destruct (fs_lookup cur name); naive_solver. Qed.

Lemma fs_exists_false cur name : fs_exists cur name = false ↔ fs_lookup cur name = None.
Proof. unfold fs_exists. destruct (fs_lookup cur name); naive_solver. Qed.

Section Primitives.
Variable E : Env.



Lemma fs_op_ok f w w' :
  fs_op E f w = (Ok tt, w') →
  ∃ new, f (fs w) = Ok new ∧ fs w' = new ∧ past w' = fs w :: past w.
Proof.
  unfold fs_op, bind, io, get_fs, put_fs, raise.
  destruct (faults E (opc w)); [done|]. cbn.
  destruct (f (fs w)) as [new|]; [|done]. intros [= <-]. by exists new.
Qed.


End Primitives.

(* ================================================================== *)
(** * The config validator *)
(* ================================================================== *)

(** A name that is empty or does not match the pattern is refused before
    anything else happens: the world is as it was. *)
Lemma create_project_unmatched_name E cfg es sql w :
  project_name cfg = "" ∨ _NAME_RE_match (project_name cfg) = false →
  ∃ message diagnostic,
    create_project E cfg es sql w
    = (Raise (Typed InvalidProjectNameError message diagnostic None), w).
Proof.
  intros H. unfold create_project, bind, lift, _validate_config.
  assert (String.eqb (project_name cfg) "" || negb (_NAME_RE_match (project_name cfg))
          = true) as ->; [|by eexists _, _].
  destruct H as [-> | ->]; [done|]. by rewrite orb_true_r.
Qed.

(** C3, at the failing input: the name [abc] followed by a newline is not
    made of lowercase letters, digits and underscores only, yet the pattern
    matches it, the validator accepts the config, and [create_project]
    builds the workspace instead of failing with [InvalidProjectNameError]. *)
Theorem create_project_accepts_trailing_newline :
  let name := "abc" +:+ nl in
  ¬ is_identifier name
  ∧ _NAME_RE_match name = true
  ∧ (∀ E, _validate_config E (Demo.config name) = Ok tt)
  ∧ ∃ info w,
      Demo.run_create [] name Demo.CANONICAL_SCHEMA_SQL None = (Ok info, w)
      ∧ fs_exists (fs w) ("2026-01-15_abc" +:+ nl) = true.
Proof.
  cbn zeta. split; [|split; [|split]].
  - intros [_ H]. vm_compute in H.
    apply Forall_forall with (x := Py.LF) in H; [discriminate H|].
    vm_compute. repeat first [apply list_elem_of_here | apply list_elem_of_further].
  - reflexivity.
  - intros E. reflexivity.
  - eexists _, _. split; [vm_compute; reflexivity|]. vm_compute. reflexivity.
Qed.

(* ================================================================== *)
(** * The schema marker *)
(* ================================================================== *)

Lemma find_table_exact db name cols :
  db_tables db !! name = Some cols → find_table db name = Some cols.
Proof. unfold find_table. by intros ->. Qed.


Section SchemaMarker.
Variable E : Env.

Lemma verify_schema_meta_no_table ev eh db :
  has_schema_meta db = false →
  verify_schema_meta E ev eh db = Raise (operational_error (select_error db)).
Proof. intros H. unfold verify_schema_meta, select_meta. by rewrite H. Qed.


(** C5, amended: on a database in which the names [schema_meta], [key]
    and [value] resolve (SQLite resolves them in any case),
    [verify_schema_meta] raises [DatabaseSchemaMismatchError] exactly when
    no row has the key [schema_version], or the value read for it differs
    from the expected version, or no row has the key [schema_hash], or the
    value read for it differs from the expected hash. The diagnostic names
    the field at fault: a missing row is reported as missing, a differing
    value with the expected and the actual value. The version is checked
    first. On any other database the query itself fails, with
    [sqlite3.OperationalError]. *)
Theorem verify_schema_meta_spec ev eh db :
  let row_v := meta_value db "schema_version" in
  let row_h := meta_value db "schema_hash" in
  let result := verify_schema_meta E ev eh db in
  (has_schema_meta db = false → result = Raise (operational_error (select_error db)))
  ∧ (has_schema_meta db = true →
     ((∃ message diff, result = Raise (schema_mismatch message diff))
      ↔ (row_v = None ∨ (∃ v, row_v = Some v ∧ v ≠ ev)
         ∨ row_h = None ∨ (∃ h, row_h = Some h ∧ h ≠ eh)))
     ∧ (row_v = None →
        result = Raise (schema_mismatch "schema_meta missing schema_version."
                          "schema_meta.schema_version missing"))
     ∧ (∀ v, row_v = Some v → v ≠ ev →
        result = Raise (schema_mismatch "Unsupported schema_version in library.db."
                          ("expected schema_version=" +:+ py_repr E (VStr ev)
                           +:+ " got " +:+ py_repr E (VStr v))))
     ∧ (row_v = Some ev → row_h = None →
        result = Raise (schema_mismatch "schema_meta missing schema_hash."
                          "schema_meta.schema_hash missing"))
     ∧ (∀ h, row_v = Some ev → row_h = Some h → h ≠ eh →
        result = Raise (schema_mismatch "schema_hash mismatch."
                          ("expected schema_hash=" +:+ eh +:+ " got " +:+ h)))
     ∧ (row_v = Some ev → row_h = Some eh → result = Ok tt)).
Proof.
  cbn zeta. split; [apply verify_schema_meta_no_table|].
  intros Hmeta. unfold verify_schema_meta, select_meta. rewrite Hmeta. cbn.
  destruct (meta_value db "schema_version") as [v|].
  2:{ split; [|naive_solver]. split; [by left|intros _; by eexists _, _]. }
  destruct (String.eqb_spec v ev) as [->|Hv]; cbn.
  2:{ split; [|naive_solver]. split; [right; left; by exists v|intros _; by eexists _, _]. }
  destruct (meta_value db "schema_hash") as [h|].
  2:{ split; [|naive_solver].
      split; [right; right; by left|intros _; by eexists _, _]. }
  destruct (String.eqb_spec h eh) as [->|Hh]; cbn.
  2:{ split; [|naive_solver].
      split; [do 3 right; by exists h|intros _; by eexists _, _]. }
  split; [|naive_solver]. split; [by intros (? & ? & ?)|naive_solver].
Qed.

(** ** Stamping *)












End SchemaMarker.

(** C5, as stated, fails: when a marker row is missing, the diagnostic says
    so and states neither the expected nor an actual value. *)
Lemma verify_schema_meta_missing_row_diagnostic :
  let db := {| db_tables := {["schema_meta" := ["key"; "value"]]};
               meta_rows := []; meta_key_unique := true |} in
  ∃ message diff,
    verify_schema_meta (Demo.env []) "v1" "abc" db = Raise (schema_mismatch message diff)
    ∧ ¬ states_expected_vs_actual (Demo.env []) "v1" "abc" diff.
Proof.
  eexists _, _. split; [vm_compute; reflexivity|].
  intros [[actual H]|[actual H]]; vm_compute in H; discriminate H.
Qed.

(** A marker table declared in capitals is read all the same. *)
Lemma verify_schema_meta_spec_witness :
  let db := {| db_tables := {["SCHEMA_META" := ["KEY"; "VALUE"]]};
               meta_rows := [("schema_version", "v2")]; meta_key_unique := true |} in
  has_schema_meta db = true
  ∧ verify_schema_meta (Demo.env []) "v1" "abc" db
    = Raise (schema_mismatch "Unsupported schema_version in library.db."
               "expected schema_version='v1' got 'v2'").
Proof.
  cbn zeta. split; [vm_compute; reflexivity|].
  refine (proj1 (proj2 (proj2 (proj2 (verify_schema_meta_spec (Demo.env []) "v1" "abc" _) _)))
            "v2" _ _);
    [vm_compute; reflexivity|reflexivity|discriminate].
Defined.



(* ================================================================== *)
(** * Schema validation *)
(* ================================================================== *)

Lemma sorted_elem_of l x : x ∈ Py.sorted l ↔ x ∈ l.
Proof. unfold Py.sorted. by rewrite merge_sort_Permutation. Qed.


Lemma sorted_NoDup l : NoDup l → NoDup (Py.sorted l).
Proof. unfold Py.sorted. by rewrite merge_sort_Permutation. Qed.

Lemma filter_elem_of {A} (f : A → bool) l x : x ∈ List.filter f l ↔ x ∈ l ∧ f x = true.
Proof. rewrite !list_elem_of_In. apply filter_In. Qed.

Lemma filter_nil_iff {A} (f : A → bool) l : List.filter f l = [] ↔ ∀ x, x ∈ l → f x = false.
Proof.
  induction l as [|a l IH]; cbn.
  - split; [by intros _ x ?%elem_of_nil|done].
  - destruct (f a) eqn:Ha.
    + split; [done|]. intros H. specialize (H a (list_elem_of_here _ _)). congruence.
    + rewrite IH. split.
      * intros H x [->|Hx]%elem_of_cons; auto.
      * intros H x Hx. apply H. by right.
Qed.

Lemma nonempty_false {A} (l : list A) : nonempty l = false ↔ l = [].
Proof. by destruct l. Qed.

Lemma mem_elem_of x l : Py.mem x l = true ↔ x ∈ l.
Proof.
  unfold Py.mem. rewrite existsb_exists. setoid_rewrite <- list_elem_of_In. split.
  - by intros (y & Hy & ->%String.eqb_eq).
  - intros Hx. exists x. by rewrite String.eqb_refl.
Qed.

Lemma mem_false x l : Py.mem x l = false ↔ x ∉ l.
Proof. rewrite <- mem_elem_of. by destruct (Py.mem x l). Qed.

Section ExpectedTables.





Lemma fold_set_names (g : string → list string) names acc t :
  Dict.get t (fold_left (λ out t, Dict.set t (g t) out) names acc)
  = if decide (t ∈ names) then Some (g t) else Dict.get t acc.
Proof.
  revert acc. induction names as [|n r IH]; intros acc; cbn.
  - rewrite decide_False; [done|]. by intros ?%elem_of_nil.
  - rewrite IH. destruct (decide (t ∈ r)) as [Hin|Hnotin].
    + rewrite decide_True; [done|]. by right.
    + rewrite DictFacts.get_set. destruct (decide (n = t)) as [->|Hne].
      * rewrite decide_True; [done|]. by left.
      * rewrite decide_False; [done|]. by intros [->|?]%elem_of_cons.
Qed.

Lemma fold_set_names_NoDup (g : string → list string) names acc :
  NoDup (Dict.keys acc) →
  NoDup (Dict.keys (fold_left (λ out t, Dict.set t (g t) out) names acc)).
Proof.
  revert acc. induction names as [|n r IH]; intros acc Hnd; cbn; [done|].
  by apply IH, DictFacts.keys_set_NoDup.
Qed.

(** ** The names that the query leaves out *)

Lemma ascii_fold_letter l c :
  l ∈ list_ascii_of_string "sqlite" → Ascii.eqb (ascii_fold c) l = is_letter l c.
Proof.
  cbn. rewrite !elem_of_cons, elem_of_nil.
  intros [->|[->|[->|[->|[->|[->|[]]]]]]];
    destruct c as [[] [] [] [] [] [] [] []]; vm_compute; reflexivity.
Qed.

(** The pattern of the query matches exactly the hidden names. *)
Lemma like_sqlite_hidden t : like_sqlite_ t = hidden_name t.
Proof.
  unfold like_sqlite_, hidden_name.
  destruct t as [|c1 [|c2 [|c3 [|c4 [|c5 [|c6 [|c7 r]]]]]]];
    try (apply andb_false_iff; right; reflexivity).
  cbn [String.substring ascii_fold_string String.length Nat.leb String.eqb].
  rewrite !ascii_fold_letter
    by (cbn; repeat first [apply list_elem_of_here | apply list_elem_of_further]).
  by destruct (is_letter "s" c1), (is_letter "q" c2), (is_letter "l" c3),
    (is_letter "i" c4), (is_letter "t" c5), (is_letter "e" c6).
Qed.

Lemma table_names_elem_of db t : t ∈ table_names db ↔ is_Some (visible_columns db t).
Proof.
  unfold table_names, visible_columns.
  rewrite sorted_elem_of, filter_elem_of, negb_true_iff, like_sqlite_hidden.
  assert (t ∈ map fst (map_to_list (db_tables db)) ↔ is_Some (db_tables db !! t)) as ->.
  { change (map fst ?l) with (l.*1). rewrite list_elem_of_fmap. split.
    - intros ([k cols] & -> & Hin). apply elem_of_map_to_list in Hin. by eexists.
    - intros [cols Hcols]. exists (t, cols). split; [done|]. by apply elem_of_map_to_list. }
  destruct (hidden_name t); [|naive_solver].
  split; [by intros [_ ?]|by intros [? ?]].
Qed.

Lemma NoDup_list_filter {A} (f : A → bool) l : NoDup l → NoDup (List.filter f l).
Proof.
  induction 1 as [|x l Hx Hl IH]; cbn; [constructor|].
  destruct (f x); [|done]. constructor; [|done]. intros Hin. apply Hx.
  by apply filter_elem_of in Hin as [? _].
Qed.

Lemma table_names_sorted db : StronglySorted String.le (table_names db).
Proof. apply StronglySorted_merge_sort; apply _. Qed.

Lemma table_names_NoDup db : NoDup (table_names db).
Proof.
  unfold table_names. apply sorted_NoDup, NoDup_list_filter.
  apply (NoDup_fst_map_to_list (db_tables db)).
Qed.

End ExpectedTables.

(** ** The introspection *)

Section Introspect.
Variable E : Env.
Variable db : DB.

(** The loop stops at the first name that the statement cannot take. *)
Lemma introspect_loop_spec names out :
  (Forall (λ t, pragma_error E t = None) names
   ∧ introspect_loop E db names out
     = Ok (fold_left (λ out t, Dict.set t (default [] (db_tables db !! t)) out) names out))
  ∨ (∃ pre t post err, names = pre ++ t :: post
       ∧ Forall (λ t, pragma_error E t = None) pre
       ∧ pragma_error E t = Some err
       ∧ introspect_loop E db names out = Raise (operational_error err)).
Proof.
  revert out. induction names as [|t r IH]; intros out; cbn [introspect_loop fold_left].
  { left. by split. }
  unfold table_info. destruct (pragma_error E t) as [err|] eqn:Ht; cbn [res_bind].
  { right. exists [], t, r, err. by repeat split. }
  destruct (IH (Dict.set t (default [] (db_tables db !! t)) out))
    as [[Hall ->]|(pre & t' & post & err & -> & Hpre & Ht' & ->)].
  - left. split; [by constructor|done].
  - right. exists (t :: pre), t', post, err. repeat split; try done. by constructor.
Qed.

Lemma names_accepted_Forall :
  names_accepted E db ↔ Forall (λ t, pragma_error E t = None) (table_names db).
Proof.
  unfold names_accepted. rewrite Forall_forall.
  by setoid_rewrite table_names_elem_of.
Qed.

(** When every name is taken, the introspection returns the catalogue as
    the query sees it. *)
Lemma introspect_accepted :
  names_accepted E db →
  ∃ actual, _introspect_schema E db = Ok actual
    ∧ (∀ t, Dict.get t actual = visible_columns db t)
    ∧ NoDup (Dict.keys actual).
Proof.
  intros Hacc. unfold _introspect_schema.
  destruct (introspect_loop_spec (table_names db) [])
    as [[_ ->]|(pre & t & post & err & Hnames & _ & Ht & _)].
  2:{ apply names_accepted_Forall in Hacc. rewrite Hnames in Hacc.
      apply Forall_app in Hacc as [_ [Hno _]%Forall_cons]. congruence. }
  eexists. split; [done|]. split; [|apply fold_set_names_NoDup; constructor].
  intros t. rewrite fold_set_names. cbn [Dict.get]. case_decide as Hin.
  - apply table_names_elem_of in Hin as Hsome. destruct Hsome as [cols Hcols].
    rewrite Hcols. unfold visible_columns in Hcols.
    destruct (hidden_name t); [done|]. by rewrite Hcols.
  - destruct (visible_columns db t) as [cols|] eqn:Hcols; [|done].
    exfalso. apply Hin, table_names_elem_of. by eexists.
Qed.

(** Otherwise it raises the error of the first name, in the order of the
    names, that is not taken. *)
Lemma introspect_refused :
  ¬ names_accepted E db →
  ∃ t err, is_Some (visible_columns db t) ∧ pragma_error E t = Some err
    ∧ (∀ t', is_Some (visible_columns db t') → pragma_error E t' ≠ None → String.le t t')
    ∧ _introspect_schema E db = Raise (operational_error err).
Proof.
  intros Hno. unfold _introspect_schema.
  destruct (introspect_loop_spec (table_names db) [])
    as [[Hall _]|(pre & t & post & err & Hnames & Hpre & Ht & ->)].
  { exfalso. by apply Hno, names_accepted_Forall. }
  exists t, err. split.
  { apply table_names_elem_of. rewrite Hnames. apply elem_of_app. right. by left. }
  split; [done|]. split; [|done].
  intros t' Hvis Hrefused. apply table_names_elem_of in Hvis. rewrite Hnames in Hvis.
  pose proof (table_names_sorted db) as Hsorted. rewrite Hnames in Hsorted.
  apply StronglySorted_app in Hsorted as (_ & _ & Hsorted).
  apply StronglySorted_cons in Hsorted as [Hle _].
  apply elem_of_app in Hvis as [Hin|[->|Hin]%elem_of_cons].
  - rewrite Forall_forall in Hpre. by specialize (Hpre t' Hin).
  - done.
  - rewrite Forall_forall in Hle. by apply Hle.
Qed.

Lemma names_accepted_cases : names_accepted E db ∨ ¬ names_accepted E db.
Proof.
  destruct (decide (Forall (λ t, pragma_error E t = None) (table_names db))) as [H|H];
    [left|right]; by rewrite names_accepted_Forall.
Qed.

End Introspect.

(** ** The comparison *)

Section ValidateSchema.
Variables (expected : ExpectedSchema) (db : DB).
Variable actual : list (string * list string).
Hypothesis Hget : ∀ t, Dict.get t actual = visible_columns db t.

Let exp := exp_tables expected.









Lemma filter_missing_elem_of (a b : list string) c :
  c ∈ List.filter (λ c, negb (Py.mem c b)) a ↔ c ∈ a ∧ c ∉ b.
Proof. by rewrite filter_elem_of, negb_true_iff, mem_false. Qed.



End ValidateSchema.

Section SchemaReport.
Variable E : Env.
Implicit Types (missing extra : list string)
               (diffs : list (string * list string * list string)).

Lemma section_lines_report title items :
  section_lines title items = report_section title (map (λ t, "  - " +:+ t) items).
Proof. by destruct items. Qed.

Lemma column_lines_report diffs :
  concat (map (column_lines E) diffs)
  = flat_map (λ d : string * list string * list string,
                [ "  - " +:+ d.1.1 +:+ ":";
                  "      missing: " +:+ py_repr E (VList (map VStr d.1.2));
                  "      unexpected: " +:+ py_repr E (VList (map VStr d.2)) ]) diffs.
Proof.
  induction diffs as [|[[t mc] xc] r IH]; [done|].
  cbn [map concat flat_map]. by rewrite IH.
Qed.

(** The text that [_format_schema_diff] builds is the report. *)
Lemma format_schema_diff_report missing extra diffs :
  _format_schema_diff E missing extra diffs = report_text E missing extra diffs.
Proof.
  unfold _format_schema_diff, report_text, schema_diff_lines.
  rewrite !section_lines_report, <- column_lines_report.
  by destruct diffs as [|[[t mc] xc] r].
Qed.

(** What [validate_schema] does. *)
Lemma validate_schema_cases expected db :
  (∃ t err, is_Some (visible_columns db t) ∧ pragma_error E t = Some err
     ∧ (∀ t', is_Some (visible_columns db t') → pragma_error E t' ≠ None → String.le t t')
     ∧ validate_schema E expected db = Raise (operational_error err))
  ∨ (names_accepted E db
     ∧ ∃ actual, _introspect_schema E db = Ok actual
         ∧ (∀ t, Dict.get t actual = visible_columns db t)
         ∧ let missing := missing_tables (exp_tables expected) actual in
           let extra := extra_tables (exp_tables expected) actual in
           let diffs := column_diffs (exp_tables expected) actual in
           (validate_schema E expected db = Ok tt
            ∧ missing = [] ∧ extra = [] ∧ diffs = [])
           ∨ (validate_schema E expected db
              = Raise (schema_mismatch "Database schema mismatch."
                         (report_text E missing extra diffs))
              ∧ (missing ≠ [] ∨ extra ≠ [] ∨ diffs ≠ []))).
Proof.
  destruct (names_accepted_cases E db) as [Hacc|Hno].
  - right. split; [done|].
    destruct (introspect_accepted E db Hacc) as (actual & Hactual & Hget & _).
    exists actual. split; [done|]. split; [done|]. cbn zeta.
    unfold validate_schema. rewrite Hactual. cbn [res_bind].
    rewrite format_schema_diff_report.
    destruct (missing_tables (exp_tables expected) actual) as [|m ms]; cbn;
      [|right; split; [done|by left]].
    destruct (extra_tables (exp_tables expected) actual) as [|x xs]; cbn;
      [|right; split; [done|right; by left]].
    destruct (column_diffs (exp_tables expected) actual) as [|d ds]; cbn;
      [by left|right; split; [done|right; by right]].
  - left. destruct (introspect_refused E db Hno) as (t & err & Hvis & Ht & Hleast & Hrun).
    exists t, err. do 3 (split; [done|]). unfold validate_schema. by rewrite Hrun.
Qed.


End SchemaReport.

(** The registry's tables pass; a column added to [papers] is reported
    under the column mismatches, as the project's tests expect. *)
Example validate_schema_registry :
  validate_schema (Demo.env []) EXPECTED_SCHEMA
    {| db_tables := Demo.canonical_tables; meta_rows := []; meta_key_unique := true |}
  = Ok tt
  ∧ ∃ message diff,
      validate_schema (Demo.env []) EXPECTED_SCHEMA
        {| db_tables := alter (λ cols, cols ++ ["unexpected_col"]) "papers"
                          Demo.canonical_tables;
           meta_rows := []; meta_key_unique := true |}
      = Raise (schema_mismatch message diff)
      ∧ Py.contains "SCHEMA_MISMATCH" diff = true
      ∧ Py.contains "Column mismatches:" diff = true
      ∧ Py.contains "papers" diff = true
      ∧ Py.contains "unexpected: ['unexpected_col']" diff = true.
Proof.
  split; [vm_compute; reflexivity|].
  eexists _, _. split; [vm_compute; reflexivity|]. repeat split; vm_compute; reflexivity.
Qed.

(** C4, at the failing inputs. A database with the registry's tables
    and one more table of the user, [sqliteXcache]: the table is not one of
    SQLite's own (its name does not begin with [sqlite_]) and it is not
    expected, yet [validate_schema] returns, because the underscore of the
    query's pattern [sqlite_%] stands for any character. And a database
    with the registry's tables and one more table named [my table]:
    [validate_schema] raises [sqlite3.OperationalError] and not
    [DatabaseSchemaMismatchError], because the name is spliced into
    [PRAGMA table_info] without quotes. *)
Theorem validate_schema_misses_table :
  let db_like := {| db_tables := <["sqliteXcache" := ["k"; "v"]]> Demo.canonical_tables;
                    meta_rows := []; meta_key_unique := true |} in
  let db_space := {| db_tables := <["my table" := ["k"; "v"]]> Demo.canonical_tables;
                     meta_rows := []; meta_key_unique := true |} in
  system_name "sqliteXcache" = false
  ∧ db_tables db_like !! "sqliteXcache" = Some ["k"; "v"]
  ∧ expected_columns EXPECTED_SCHEMA "sqliteXcache" = None
  ∧ validate_schema (Demo.env []) EXPECTED_SCHEMA db_like = Ok tt
  ∧ system_name "my table" = false
  ∧ db_tables db_space !! "my table" = Some ["k"; "v"]
  ∧ expected_columns EXPECTED_SCHEMA "my table" = None
  ∧ ∃ detail,
      validate_schema (Demo.env []) EXPECTED_SCHEMA db_space
      = Raise (Foreign "OperationalError" detail).
Proof.
  cbn zeta. do 7 (split; [vm_compute; reflexivity|]).
  eexists. vm_compute. reflexivity.
Qed.


(* ================================================================== *)
(** * The workspace directory index *)
(* ================================================================== *)

Section ListProjects.
Variable E : Env.

Lemma value_is_str_eq v s : value_is_str v s = true ↔ v = VStr s.
Proof.
  destruct v; cbn; try (split; [done|by intros [=]]).
  rewrite String.eqb_eq. split; [by intros ->|by intros [= ->]].
Qed.


Lemma summarize_fields base name text pn ca tp :
  summary_fields name text = Some (pn, ca, tp) →
  summarize E base name text
  = Ok {| ps_project_id := VStr name; ps_project_name := pn;
          ps_project_dir := path_join base name; ps_created_at := ca;
          ps_topic_prompt := tp; ps_valid := true; ps_error := None |}.
Proof.
  unfold summary_fields, summarize. destruct text as [[| | | | |obj]|]; try done.
  cbn.
  destruct (value_is_str (default VNone (Dict.get "version" obj)) "v1") eqn:Hv;
    [|done].
  destruct (value_is_str (default VNone (Dict.get "project_id" obj)) name) eqn:Hp;
    [|done].
  cbn. apply value_is_str_eq in Hp.
  destruct (Dict.get "project_id" obj) as [pid|]; [|done]. cbn in Hp. subst pid.
  destruct (Dict.get "project_name" obj), (Dict.get "created_at" obj),
    (Dict.get "topic_prompt" obj); try done.
  by intros [= -> -> ->].
Qed.


(** The loop never raises: each directory contributes its summary or
    nothing. *)
Lemma list_loop_ok base entries out :
  list_loop E base out entries = Ok (out ++ omap (entry_summary E base) entries).
Proof.
  revert out. induction entries as [|[name d] r IH]; intros out; cbn.
  - by rewrite app_nil_r.
  - unfold list_entry, entry_summary. cbn.
    destruct (manifest_json d) as [text|]; cbn; [|apply IH].
    destruct (summarize E base name text); cbn; rewrite IH, <- app_assoc; done.
Qed.

Lemma fs_dirs_elem_of cur name d : (name, d) ∈ fs_dirs cur ↔ fs_dir cur name = Some d.
Proof.
  unfold fs_dirs, fs_dir, fs_lookup, fs_entries. rewrite list_elem_of_omap. split.
  - intros ([k [|d']] & Hin & Heq); [done|]. cbn in Heq. injection Heq as -> ->.
    apply elem_of_map_to_list in Hin.
    destruct cur; cbn in *; [by rewrite Hin|by rewrite lookup_empty in Hin].
  - intros H. exists (name, NDir d). split; [|done]. apply elem_of_map_to_list.
    destruct cur as [entries|]; cbn in *; [|done].
    by destruct (entries !! name) as [[|d']|]; simplify_eq.
Qed.

Lemma sorted_dirs_elem_of cur name d :
  (name, d) ∈ sorted_dirs cur ↔ fs_dir cur name = Some d.
Proof.
  unfold sorted_dirs. by rewrite merge_sort_Permutation, fs_dirs_elem_of.
Qed.

Lemma entry_summary_dirs base entries :
  map ps_project_dir (omap (entry_summary E base) entries)
  = map (λ entry, path_join base entry.1)
      (List.filter (λ entry, bool_decide (is_Some (manifest_json entry.2))) entries).
Proof.
  induction entries as [|[name d] r IH]; [done|]. cbn.
  unfold entry_summary at 1. cbn.
  destruct (manifest_json d) as [text|]; cbn; [|done].
  rewrite IH. f_equal.
  destruct (summarize E base name text) as [s|e] eqn:Hs; [|done].
  unfold summarize in Hs. destruct text as [m|]; [|done].
  destruct (py_get m "version") as [version|]; [|done]. cbn in Hs.
  destruct (negb (value_is_str version "v1")); [done|].
  destruct (py_get m "project_id") as [pid|]; [|done]. cbn in Hs.
  destruct (negb (value_is_str pid name)); [done|].
  destruct (py_item E m "project_id"); [|done]. cbn in Hs.
  destruct (py_item E m "project_name"); [|done]. cbn in Hs.
  destruct (py_item E m "created_at"); [|done]. cbn in Hs.
  destruct (py_item E m "topic_prompt"); [|done]. cbn in Hs.
  by injection Hs as <-.
Qed.

End ListProjects.


(* ================================================================== *)
(** * Hoare rules *)
(* ================================================================== *)

Section Hoare.
Variable E : Env.
Implicit Types (P : FS → list FS → Prop) (X : Exn → FS → list FS → Prop).

Lemma hoare_conseq {A} P P' (m : M A) (Q Q' : A → FS → list FS → Prop) X X' :
  hoare P m Q X →
  (∀ c p, P' c p → P c p) →
  (∀ a c p, Q a c p → Q' a c p) →
  (∀ e c p, X e c p → X' e c p) →
  hoare P' m Q' X'.
Proof.
  intros Hm HP HQ HX w Hw. specialize (Hm w (HP _ _ Hw)).
  destruct (m w) as [[a|e] w']; auto.
Qed.

Lemma hoare_pre {A} P P' (m : M A) Q X :
  hoare P m Q X → (∀ c p, P' c p → P c p) → hoare P' m Q X.
Proof. intros Hm HP. eapply hoare_conseq; eauto. Qed.

Lemma hoare_post {A} P (m : M A) (Q Q' : A → FS → list FS → Prop) X :
  hoare P m Q X → (∀ a c p, Q a c p → Q' a c p) → hoare P m Q' X.
Proof. intros Hm HQ. eapply hoare_conseq; eauto. Qed.

Lemma hoare_ret {A} (a : A) (Q : A → FS → list FS → Prop) X : hoare (Q a) (ret a) Q X.
Proof. by intros w Hw. Qed.

Lemma hoare_raise {A} e (Q : A → FS → list FS → Prop) X : hoare (X e) (raise e) Q X.
Proof. by intros w Hw. Qed.

Lemma hoare_lift {A} P (r : Res A) (Q : A → FS → list FS → Prop) X :
  (∀ c p, P c p → match r with Ok a => Q a c p | Raise e => X e c p end) →
  hoare P (lift r) Q X.
Proof. intros H w Hw. unfold lift. specialize (H _ _ Hw). by destruct r. Qed.

Lemma hoare_bind {A B} P (m : M A) (k : A → M B) Q R X :
  hoare P m Q X → (∀ a, hoare (Q a) (k a) R X) → hoare P (bind m k) R X.
Proof.
  intros Hm Hk w Hw. unfold bind. specialize (Hm w Hw).
  destruct (m w) as [[a|e] w1]; [by apply Hk|done].
Qed.

Lemma hoare_assume {A} (φ : Prop) P (m : M A) Q X :
  (φ → hoare P m Q X) → hoare (λ c p, φ ∧ P c p) m Q X.
Proof. intros H w [Hφ Hw]. by apply H. Qed.

Lemma hoare_exists {A T} (P : T → FS → list FS → Prop) (m : M A) Q X :
  (∀ x, hoare (P x) m Q X) → hoare (λ c p, ∃ x, P x c p) m Q X.
Proof. intros H w [x Hw]. by apply (H x). Qed.

Lemma hoare_get_fs P X : hoare P get_fs (λ a c p, a = c ∧ P c p) X.
Proof. by intros w Hw. Qed.

Lemma hoare_get_conn P X : hoare P get_conn (λ _, P) X.
Proof. by intros w Hw. Qed.

Lemma hoare_set_conn P X v : hoare P (set_conn v) (λ _, P) X.
Proof. by intros w Hw. Qed.

Lemma hoare_now P X : hoare P (_utc_now_iso E) (λ _, P) X.
Proof. by intros w Hw. Qed.

Lemma hoare_io P X :
  (∀ c p, P c p → (∃ n, faults E n = true) → X os_error c p) →
  hoare P (io E) (λ _, P) X.
Proof.
  intros HX w Hw. unfold io. destruct (faults E (opc w)) eqn:Hf; cbn; [|done].
  apply HX; eauto.
Qed.

Lemma hoare_fs_op P f (Q : unit → FS → list FS → Prop) X :
  (∀ c p, P c p → (∃ n, faults E n = true) → X os_error c p) →
  (∀ c p, P c p → match f c with Ok new => Q tt new (c :: p) | Raise e => X e c p end) →
  hoare P (fs_op E f) Q X.
Proof.
  intros HX Hf w Hw. unfold fs_op, bind, io, get_fs, put_fs, raise.
  destruct (faults E (opc w)) eqn:Hfault; cbn; [apply HX; eauto|].
  specialize (Hf _ _ Hw). by destruct (f (fs w)).
Qed.

Lemma hoare_try_except {A} P (m : M A) h Q X1 X :
  hoare P m Q X1 → (∀ e, hoare (X1 e) (h e) Q X) → hoare P (try_except m h) Q X.
Proof.
  intros Hm Hh w Hw. unfold try_except. specialize (Hm w Hw).
  destruct (m w) as [[a|e] w1]; [done|by apply Hh].
Qed.

Lemma hoare_try_pass P (m : M unit) R X :
  hoare P m (λ _, R) (λ _, R) → hoare P (try_pass m) (λ _, R) X.
Proof.
  intros Hm. unfold try_pass. eapply hoare_try_except; [exact Hm|].
  intros e. apply (hoare_ret tt (λ _, R)).
Qed.

Lemma hoare_close_if_open P X : hoare P (close_if_open E) (λ _, P) X.
Proof.
  unfold close_if_open. apply hoare_try_pass.
  eapply hoare_bind; [apply hoare_get_conn|]. intros [c|].
  - apply hoare_io. auto.
  - apply (hoare_ret tt (λ _, P)).
Qed.

Lemma close_if_open_files w :
  ∃ w', close_if_open E w = (Ok tt, w') ∧ fs w' = fs w ∧ past w' = past w.
Proof.
  pose proof (hoare_close_if_open (λ c p, c = fs w ∧ p = past w) (λ _ _ _, False) w) as H.
  destruct (close_if_open E w) as [[[]|e] w']; [|by destruct H].
  exists w'. by destruct H.
Qed.

Lemma hoare_try_finally_close {A} P (m : M A) Q X :
  hoare P m Q X → hoare P (try_finally m (close_if_open E)) Q X.
Proof.
  intros Hm w Hw. unfold try_finally. specialize (Hm w Hw).
  destruct (m w) as [r w1].
  destruct (close_if_open_files w1) as (w2 & -> & Hfs & Hpast).
  rewrite Hfs, Hpast. by destruct r.
Qed.
End Hoare.

(* ================================================================== *)
(** * Creation: the staged directory and its promotion *)
(* ================================================================== *)

Lemma string_length_app a b : String.length (a +:+ b) = String.length a + String.length b.
Proof.
  induction a as [|c a IH]; [done|].
  change (String c a +:+ b) with (String c (a +:+ b)). cbn [String.length].
  by rewrite IH.
Qed.

Lemma staging_ne_final E project_id : staging_name E project_id ≠ project_id.
Proof.
  intros H. apply (f_equal String.length) in H. unfold staging_name in H.
  rewrite !string_length_app in H. cbn in H. lia.
Qed.


Lemma subfolders_with_logs : {["logs"]} ∪ staging_subfolder_set = staging_subfolder_set.
Proof. unfold staging_subfolder_set, staging_subfolders. cbn. set_solver. Qed.

Section Creation.
Variable E : Env.
Variables (cfg : ProjectConfig) (es : ExpectedSchema) (sql created_at : string).
Variable f0 : FS.

Local Abbreviation pid := (project_id_of E cfg).
Local Abbreviation stg := (staging_name E (project_id_of E cfg)).
Local Abbreviation built := (fully_built E cfg es sql created_at).
Local Abbreviation NP := (not_promoted stg pid f0).
Local Abbreviation PR := (promoted built stg pid f0).
Local Abbreviation cause := (failure_cause E (base_projects_dir cfg) es sql stg f0).
Local Abbreviation hash := (compute_schema_hash E sql).

Implicit Types (c : FS) (p : list FS) (N : option Node → Prop).

Definition A_inv c p : Prop := Forall NP (c :: p).

Definition B_inv c p : Prop :=
  ∃ after before, c :: p = after ++ before ∧ after ≠ []
    ∧ Forall PR after ∧ Forall NP before.

(** The exceptional outcome of the [try] block. *)
Definition XC (e : Exn) c p : Prop := two_phase built stg pid f0 (c :: p) ∧ cause.

Definition PA N c p : Prop := A_inv c p ∧ N (fs_lookup c stg).

Lemma A_two_phase c p : A_inv c p → two_phase built stg pid f0 (c :: p).
Proof. intros H. exists [], (c :: p). by repeat split. Qed.

Lemma B_two_phase c p : B_inv c p → two_phase built stg pid f0 (c :: p).
Proof. intros (after & before & ? & _ & ? & ?). by exists after, before. Qed.

Lemma B_inv_head c p : B_inv c p → PR c.
Proof.
  intros (after & before & Heq & Hne & Hafter & _).
  destruct after as [|a after]; [done|]. injection Heq as <- _.
  by apply Forall_cons in Hafter as [? _].
Qed.

Lemma NP_set_staging c n : NP c → NP (fs_set c stg n).
Proof.
  pose proof (staging_ne_final E pid) as Hne.
  intros [Hfin Hothers]. split.
  - by rewrite fs_lookup_set_ne.
  - intros k Hk1 Hk2. rewrite fs_lookup_set_ne by done. by apply Hothers.
Qed.

Lemma NP_mkdir_base c : NP c → NP (Some (fs_entries c)).
Proof.
  intros [Hfin Hothers]. split; [by rewrite fs_lookup_mkdir_base|].
  intros k ? ?. rewrite fs_lookup_mkdir_base. by apply Hothers.
Qed.

Lemma NP_remove_staging c : NP c → NP (fs_remove c stg).
Proof.
  pose proof (staging_ne_final E pid) as Hne.
  intros [Hfin Hothers]. split.
  - by rewrite fs_lookup_remove_ne.
  - intros k Hk1 Hk2. rewrite fs_lookup_remove_ne by done. by apply Hothers.
Qed.

Lemma PR_rename c d :
  NP c → built d → PR (fs_set (fs_remove c stg) pid (NDir d)).
Proof.
  pose proof (staging_ne_final E pid) as Hne.
  intros [Hfin Hothers] Hd. split; [|split].
  - rewrite fs_lookup_set_ne by done. apply fs_lookup_remove_eq.
  - exists d. by rewrite fs_lookup_set_eq.
  - intros k Hk1 Hk2. rewrite fs_lookup_set_ne, fs_lookup_remove_ne by done.
    by apply Hothers.
Qed.

Lemma PR_set_final c d : PR c → built d → PR (fs_set c pid (NDir d)).
Proof.
  pose proof (staging_ne_final E pid) as Hne.
  intros (Hstg & _ & Hothers) Hd. split; [|split].
  - by rewrite fs_lookup_set_ne.
  - exists d. by rewrite fs_lookup_set_eq.
  - intros k Hk1 Hk2. rewrite fs_lookup_set_ne by done. by apply Hothers.
Qed.

Lemma A_inv_step c p new : A_inv c p → NP new → A_inv new (c :: p).
Proof. intros H Hnew. by constructor. Qed.

Lemma B_inv_step c p new : B_inv c p → PR new → B_inv new (c :: p).
Proof.
  intros (after & before & Heq & Hne & Hafter & Hbefore) Hnew.
  exists (new :: after), before. rewrite Heq. repeat split; try done. by constructor.
Qed.

Lemma B_inv_start c p new : A_inv c p → PR new → B_inv new (c :: p).
Proof.
  intros H Hnew. exists [new], (c :: p). repeat split; try done. by constructor.
Qed.

Lemma XC_fault e c p : A_inv c p → (∃ n, faults E n = true) → XC e c p.
Proof. intros H Hf. split; [by apply A_two_phase|right; by left]. Qed.

(** ** Rules for the operations on the staging entry *)

Lemma stage_op change N N' :
  (∀ n, N n → match change n with Ok n' => N' (Some n') | Raise e => cause end) →
  hoare (PA N) (fs_op E (update_entry stg change)) (λ _, PA N') XC.
Proof.
  intros Hchange. apply hoare_fs_op.
  - intros c p [HA _] Hf. by apply XC_fault.
  - intros c p [HA HN]. unfold update_entry. specialize (Hchange _ HN).
    destruct (change (fs_lookup c stg)) as [n'|e].
    + split; [|by rewrite fs_lookup_set_eq].
      apply A_inv_step; [done|]. apply NP_set_staging.
      by apply Forall_cons in HA as [? _].
    + split; [by apply A_two_phase|done].
Qed.

Lemma stage_mkdir_base N :
  hoare (PA N) (mkdir_base E (base_projects_dir cfg)) (λ _, PA N) XC.
Proof.
  unfold mkdir_base. destruct (has_nul (base_projects_dir cfg)) eqn:Hnul.
  { intros w [HA HN]. cbn. split; [by apply A_two_phase|by left]. }
  apply hoare_fs_op.
  - intros c p [HA _] Hf. by apply XC_fault.
  - intros c p [HA HN]. cbn. split; [|by rewrite fs_lookup_mkdir_base].
    apply A_inv_step; [done|]. apply NP_mkdir_base.
    by apply Forall_cons in HA as [? _].
Qed.

Lemma stage_io N : hoare (PA N) (io E) (λ _, PA N) XC.
Proof. apply hoare_io. intros c p [HA _] Hf. by apply XC_fault. Qed.

Lemma stage_mkdir_sub sub S :
  sub ∉ S →
  hoare (PA (staged S None None)) (fs_op E (mkdir_sub stg sub))
    (λ _, PA (staged ({[sub]} ∪ S) None None)) XC.
Proof.
  intros Hsub. apply stage_op. intros n (d & -> & HS & HM & HD).
  rewrite bool_decide_eq_false_2 by by rewrite HS.
  exists (with_subdir d sub). cbn. by rewrite HS.
Qed.

Lemma stage_write_text_line S manifest database line :
  hoare (PA (staged S manifest database)) (_write_text_line E stg line)
    (λ _, PA (staged ({["logs"]} ∪ S) manifest database)) XC.
Proof.
  unfold _write_text_line. eapply hoare_bind.
  { apply stage_op with (N' := staged ({["logs"]} ∪ S) manifest database).
    intros n (d & -> & HS & HM & HD). exists (with_subdir d "logs"). cbn.
    by rewrite HS. }
  intros []. cbv beta.
  apply stage_op. intros n (d & -> & HS & HM & HD).
  rewrite bool_decide_eq_true_2 by (rewrite HS; set_solver).
  eexists. by repeat split.
Qed.

Lemma stage_log S manifest database level event msg :
  hoare (PA (staged S manifest database)) (_log E stg level event msg)
    (λ _, PA (staged ({["logs"]} ∪ S) manifest database)) XC.
Proof.
  unfold _log. eapply hoare_bind; [apply hoare_now|]. intros ts. cbv beta.
  apply stage_write_text_line.
Qed.

Lemma stage_log_full manifest database level event msg :
  hoare (PA (staged staging_subfolder_set manifest database))
    (_log E stg level event msg)
    (λ _, PA (staged staging_subfolder_set manifest database)) XC.
Proof.
  eapply hoare_post; [apply stage_log|]. intros [] c p. cbv beta.
  by rewrite subfolders_with_logs.
Qed.

Lemma stage_connect S manifest :
  hoare (PA (staged S manifest None)) (sqlite3_connect E stg)
    (λ conn c p, conn = stg ∧ PA (staged S manifest (Some empty_db)) c p) XC.
Proof.
  unfold sqlite3_connect. eapply hoare_bind.
  - apply stage_op with (N' := staged S manifest (Some empty_db)).
    intros n (d & -> & HS & HM & HD). eexists. split; [done|]. cbn. by rewrite HD.
  - intros []. cbv beta. intros w Hw. by cbn.
Qed.

Lemma stage_db_write S manifest db stmt :
  (∀ e, stmt db = Raise e → cause) →
  hoare (PA (staged S manifest (Some db))) (db_write E stg stmt)
    (λ _ c p, ∃ db', stmt db = Ok db' ∧ PA (staged S manifest (Some db')) c p) XC.
Proof.
  intros Hstmt. unfold db_write.
  eapply hoare_conseq;
    [apply stage_op with
       (N := staged S manifest (Some db))
       (N' := λ n, ∃ db', stmt db = Ok db' ∧ staged S manifest (Some db') n)
    |done| |done].
  - intros n (d & -> & HS & HM & HD). rewrite HD.
    destruct (stmt db) as [db'|e] eqn:Hs; [|by eapply Hstmt].
    exists db'. split; [done|]. eexists. by repeat split.
  - intros [] c p [HA (db' & Hdb' & Hst)]. exists db'. by repeat split.
Qed.

Lemma stage_db_read {T} S manifest db (query : DB → Res T) :
  (∀ e, query db = Raise e → cause) →
  hoare (PA (staged S manifest (Some db))) (db_read stg query)
    (λ a c p, query db = Ok a ∧ PA (staged S manifest (Some db)) c p) XC.
Proof.
  intros Hq. unfold db_read. eapply hoare_bind; [apply hoare_get_fs|].
  intros cur. cbv beta. intros w [-> [HA Hst]].
  pose proof Hst as (d & Hd & HS & HM & HD).
  unfold dir_db, fs_dir. rewrite Hd, HD. unfold lift.
  destruct (query db) as [a|e] eqn:Hquery; cbn.
  - by repeat split.
  - split; [by apply A_two_phase|by eapply Hq].
Qed.

Lemma stage_write_manifest S db m :
  hoare (PA (staged S None (Some db))) (fs_op E (write_manifest stg m))
    (λ _, PA (staged S (Some (JsonDoc m)) (Some db))) XC.
Proof.
  apply stage_op. intros n (d & -> & HS & HM & HD). eexists. by repeat split.
Qed.

(** ** Promotion and the steps after it *)

Lemma manifest_dict_valid :
  _validate_manifest_v1 E (_manifest_dict cfg pid created_at) pid = Ok tt.
Proof.
  unfold _validate_manifest_v1, _manifest_dict. cbn.
  by rewrite String.eqb_refl.
Qed.

Lemma built_with_logs d : built d → built (with_subdir d "logs").
Proof.
  intros (HS & HM & HD). split; [|done]. cbn. rewrite HS. apply subfolders_with_logs.
Qed.

Lemma built_with_log d text : built d → built (with_log d text).
Proof. by intros (HS & HM & HD). Qed.

Lemma built_has_logs d : built d → "logs" ∈ subdirs d.
Proof.
  intros (-> & _). unfold staging_subfolder_set, staging_subfolders. cbn. set_solver.
Qed.

Lemma stage_rename db :
  verify_schema_meta E "v1" hash db = Ok tt →
  validate_schema E es db = Ok tt →
  hoare (PA (staged staging_subfolder_set
               (Some (JsonDoc (_manifest_dict cfg pid created_at))) (Some db)))
    (fs_op E (rename stg pid)) (λ _, B_inv) XC.
Proof.
  intros Hverify Hvalidate. apply hoare_fs_op.
  - intros c p [HA _] Hf. by apply XC_fault.
  - intros c p [HA (d & Hd & HS & HM & HD)]. unfold rename. rewrite Hd.
    pose proof HA as [[Hfin Hothers] _]%Forall_cons.
    apply fs_exists_false in Hfin as Hex. rewrite Hex.
    apply B_inv_start; [done|]. apply PR_rename; [done|].
    split; [done|]. split; [done|]. by exists db.
Qed.

Lemma final_op change :
  (∀ d, built d → ∃ d', change (Some (NDir d)) = Ok (NDir d') ∧ built d') →
  hoare B_inv (fs_op E (update_entry pid change)) (λ _, B_inv) XC.
Proof.
  intros Hchange. apply hoare_fs_op.
  - intros c p HB Hf. split; [by apply B_two_phase|right; by left].
  - intros c p HB. pose proof (B_inv_head _ _ HB) as HPR.
    pose proof HPR as (_ & (d & Hd & Hbuilt) & _).
    unfold update_entry. rewrite Hd.
    destruct (Hchange d Hbuilt) as (d' & -> & Hbuilt').
    apply B_inv_step; [done|]. by apply PR_set_final.
Qed.

Lemma final_log level event msg : hoare B_inv (_log E pid level event msg) (λ _, B_inv) XC.
Proof.
  unfold _log. eapply hoare_bind; [apply hoare_now|]. intros ts. cbv beta.
  unfold _write_text_line. eapply hoare_bind.
  - apply final_op. intros d Hd. eexists. split; [done|]. by apply built_with_logs.
  - intros []. cbv beta. apply final_op. intros d Hd.
    rewrite bool_decide_eq_true_2 by by apply built_has_logs.
    eexists. split; [done|]. by apply built_with_log.
Qed.

(** ** The [try] block *)

Lemma built_db_raise_cause : is_ok (built_db E es sql) = false → cause.
Proof. intros H. right; right; by right. Qed.

Ltac step lem := eapply hoare_bind; [lem|intros ?; cbv beta].

Lemma stage_tree :
  hoare (PA (λ n, n = fs_lookup f0 stg)) (_ensure_staging_tree E stg)
    (λ _, PA (staged staging_subfolder_set None None)) XC.
Proof.
  unfold _ensure_staging_tree, staging_subfolders. cbn [for_each].
  eapply hoare_bind.
  { apply stage_op with (N' := staged ∅ None None). intros n ->.
    destruct (fs_lookup f0 stg) eqn:Hstart.
    - right; right; left. by rewrite Hstart.
    - by exists empty_dir. }
  intros []. cbv beta.
  step ltac:(apply stage_mkdir_sub; set_solver).
  step ltac:(apply stage_mkdir_sub; set_solver).
  step ltac:(apply stage_mkdir_sub; set_solver).
  step ltac:(apply stage_mkdir_sub; set_solver).
  step ltac:(apply stage_mkdir_sub; set_solver).
  step ltac:(apply stage_mkdir_sub; set_solver).
  intros w Hw. cbn. revert Hw.
  assert ({["logs"]} ∪ ({["exports"]} ∪ ({["drafts"]} ∪ ({["indexes"]}
            ∪ ({["ingested"]} ∪ ({["pdfs"]} ∪ ∅))))) = staging_subfolder_set) as ->;
    [|done].
  unfold staging_subfolder_set, staging_subfolders. cbn. set_solver.
Qed.

Lemma stage_apply S manifest :
  hoare (PA (staged S manifest (Some empty_db))) (apply_canonical_schema E stg sql)
    (λ _ c p, ∃ db1, run_script E sql empty_db = Ok db1
                ∧ PA (staged S manifest (Some db1)) c p) XC.
Proof.
  unfold apply_canonical_schema. eapply hoare_bind.
  { apply stage_db_write. intros e He. apply built_db_raise_cause.
    unfold built_db. by rewrite He. }
  intros []. cbv beta. apply hoare_exists. intros db1.
  apply hoare_assume. intros Hdb1.
  eapply hoare_post; [apply stage_io|]. intros [] c p H. by exists db1.
Qed.

Lemma stage_upsert S manifest db1 :
  run_script E sql empty_db = Ok db1 →
  hoare (PA (staged S manifest (Some db1))) (upsert_schema_meta E stg "v1" hash)
    (λ _ c p, ∃ db2 db, insert_or_ignore "schema_version" "v1" db1 = Ok db2
                ∧ insert_or_ignore "schema_hash" hash db2 = Ok db
                ∧ PA (staged S manifest (Some db)) c p) XC.
Proof.
  intros Hdb1. unfold upsert_schema_meta. eapply hoare_bind.
  { apply stage_db_write. intros e He. apply built_db_raise_cause.
    unfold built_db. rewrite Hdb1. cbn. by rewrite He. }
  intros []. cbv beta. apply hoare_exists. intros db2.
  apply hoare_assume. intros Hdb2. eapply hoare_bind.
  { apply stage_db_write. intros e He. apply built_db_raise_cause.
    unfold built_db. rewrite Hdb1. cbn. rewrite Hdb2. cbn. by rewrite He. }
  intros []. cbv beta. apply hoare_exists. intros db.
  apply hoare_assume. intros Hdb.
  eapply hoare_post; [apply stage_io|]. intros [] c p H. by exists db2, db.
Qed.

Lemma create_body_spec :
  fs_lookup f0 pid = None →
  hoare (λ c p, c = f0 ∧ p = [])
    (create_body E cfg es sql created_at)
    (λ info c p, B_inv c p ∧ info = created_info (base_projects_dir cfg) pid) XC.
Proof.
  intros Hfin.
  apply hoare_pre with (P := PA (λ n, n = fs_lookup f0 stg)).
  2:{ intros c p [-> ->]. split; [|done]. repeat constructor; done. }
  unfold create_body.
  step ltac:(apply stage_mkdir_base).
  step ltac:(apply stage_tree).
  step ltac:(apply stage_log_full).
  step ltac:(apply stage_log_full).
  step ltac:(apply stage_log_full).
  step ltac:(apply stage_connect).
  apply hoare_assume. intros ->.
  step ltac:(apply hoare_set_conn).
  step ltac:(apply stage_apply).
  apply hoare_exists. intros db1. apply hoare_assume. intros Hdb1.
  step ltac:(by apply stage_upsert).
  apply hoare_exists. intros db2. apply hoare_exists. intros db.
  apply hoare_assume. intros Hdb2. apply hoare_assume. intros Hdb.
  eapply hoare_bind.
  { apply stage_db_read. intros e He. apply built_db_raise_cause.
    unfold built_db. rewrite Hdb1. cbn. rewrite Hdb2. cbn. rewrite Hdb. cbn.
    by rewrite He. }
  intros []. cbv beta. apply hoare_assume. intros Hverify.
  eapply hoare_bind.
  { apply stage_db_read. intros e He. apply built_db_raise_cause.
    unfold built_db. rewrite Hdb1. cbn. rewrite Hdb2. cbn. rewrite Hdb. cbn.
    rewrite Hverify. cbn. by rewrite He. }
  intros []. cbv beta. apply hoare_assume. intros Hvalidate.
  step ltac:(apply stage_log_full).
  step ltac:(apply stage_io).
  step ltac:(apply hoare_set_conn).
  step ltac:(apply stage_write_manifest).
  step ltac:(apply stage_log_full).
  step ltac:(apply hoare_get_fs).
  eapply hoare_bind with
    (Q := λ written c p,
            written = _manifest_dict cfg pid created_at
            ∧ PA (staged staging_subfolder_set
                    (Some (JsonDoc (_manifest_dict cfg pid created_at))) (Some db)) c p).
  { apply hoare_lift. intros c p [-> [HA Hst]].
    pose proof Hst as (d & Hd & HS & HM & HD).
    unfold _read_manifest. rewrite Hd, HM. by repeat split. }
  intros written. apply hoare_assume. intros ->.
  rewrite manifest_dict_valid.
  eapply hoare_bind with
    (Q := λ _, PA (staged staging_subfolder_set
                     (Some (JsonDoc (_manifest_dict cfg pid created_at))) (Some db))).
  { apply hoare_lift. by intros c p H. }
  intros [].
  step ltac:(by apply stage_rename).
  step ltac:(apply final_log).
  intros w Hw. by cbn.
Qed.

(** ** The rollback *)

(** The [except] block, for any property [I] of the history that changes
    of the staging entry and its removal keep. It always raises; what it
    raises is told by whether the staging entry is still there. *)
Lemma rollback_spec (I : FS → list FS → Prop) e :
  (∀ c p n, I c p → fs_lookup c stg ≠ None → I (fs_set c stg n) (c :: p)) →
  (∀ c p, I c p → fs_lookup c stg ≠ None → I (fs_remove c stg) (c :: p)) →
  hoare I (create_rollback E stg e) (λ _ _ _, False)
    (λ x c p, I c p ∧ rollback_outcome stg e x c).
Proof.
  intros Hset Hremove. unfold create_rollback, log_failure, delete_staging.
  set (J := λ c p, I c p ∧ fs_lookup c stg ≠ None).
  assert (∀ change, hoare J (fs_op E (update_entry stg change)) (λ _, J) (λ _, I))
    as Hwrite.
  { intros change. apply hoare_fs_op; [by intros c p [HI _] _|].
    intros c p [HI Hex]. unfold update_entry.
    destruct (change (fs_lookup c stg)) as [n|]; [|done].
    split; [by apply Hset|by rewrite fs_lookup_set_eq]. }
  assert (∀ line, hoare J (_write_text_line E stg line) (λ _, J) (λ _, I)) as Hline.
  { intros line. unfold _write_text_line.
    eapply hoare_bind; [apply Hwrite|]. intros []. apply Hwrite. }
  eapply hoare_bind with (Q := λ _, I).
  { apply hoare_try_pass. eapply hoare_bind; [apply hoare_get_fs|].
    intros cur. cbv beta. destruct (fs_exists cur stg) eqn:Hex.
    - apply hoare_pre with (P := J).
      2:{ intros c p [-> HI]. split; [done|]. by apply fs_exists_true. }
      eapply hoare_bind with (Q := λ _, J).
      + unfold _log. eapply hoare_bind; [apply hoare_now|]. intros ts. apply Hline.
      + intros []. eapply hoare_post; [apply Hline|]. by intros [] c p [HI _].
    - intros w [_ Hw]. by cbn. }
  intros []. eapply hoare_bind; [apply hoare_close_if_open|]. intros [].
  eapply hoare_bind with (Q := λ _ c p, I c p ∧ fs_lookup c stg = None).
  { eapply hoare_try_except with (X1 := λ _ c p, I c p ∧ fs_lookup c stg ≠ None).
    - eapply hoare_bind; [apply hoare_get_fs|]. intros cur. cbv beta.
      destruct (fs_exists cur stg) eqn:Hex.
      + apply hoare_fs_op.
        * intros c p [-> HI] _. split; [done|]. by apply fs_exists_true.
        * intros c p [-> HI]. apply fs_exists_true in Hex. unfold rmtree.
          destruct (fs_lookup c stg) as [[|d]|] eqn:Hlook; [done| |done].
          split; [|apply fs_lookup_remove_eq]. apply Hremove; [done|]. by rewrite Hlook.
      + intros w [-> Hw]. cbn. split; [done|]. by apply fs_exists_false.
    - intros re_err w [HI Hex]. cbn. split; [done|]. left. split; [done|]. by eexists. }
  intros []. cbv beta. intros w [HI Hgone]. unfold rollback_outcome, reraised.
  destruct (is_typed e); cbn; (split; [done|]; by right).
Qed.

Lemma two_phase_staging c p :
  two_phase built stg pid f0 (c :: p) → fs_lookup c stg ≠ None → A_inv c p.
Proof.
  intros (after & before & Heq & Hafter & Hbefore) Hex.
  destruct after as [|a after]; [unfold A_inv; by rewrite Heq|].
  injection Heq as <- _. apply Forall_cons in Hafter as [(Hgone & _) _]. done.
Qed.

Lemma create_try_spec :
  fs_lookup f0 pid = None →
  hoare (λ c p, c = f0 ∧ p = [])
    (try_finally
       (try_except (create_body E cfg es sql created_at) (create_rollback E stg))
       (close_if_open E))
    (λ info c p, B_inv c p ∧ info = created_info (base_projects_dir cfg) pid)
    (λ x c p, (two_phase built stg pid f0 (c :: p) ∧ cause)
              ∧ ∃ e, rollback_outcome stg e x c).
Proof.
  intros Hfin. apply hoare_try_finally_close.
  eapply hoare_try_except; [by apply create_body_spec|].
  intros e. eapply hoare_conseq;
    [apply (rollback_spec (λ c p, two_phase built stg pid f0 (c :: p) ∧ cause) e)
    |done|done|].
  - intros c p n [Htwo Hcause] Hex. split; [|done].
    apply A_two_phase, A_inv_step; [by apply two_phase_staging|].
    apply NP_set_staging.
    by apply two_phase_staging, Forall_cons in Htwo as [? _].
  - intros c p [Htwo Hcause] Hex. split; [|done].
    apply A_two_phase, A_inv_step; [by apply two_phase_staging|].
    apply NP_remove_staging.
    by apply two_phase_staging, Forall_cons in Htwo as [? _].
  - intros x c p [HI Hout]. split; [done|]. by exists e.
Qed.

End Creation.

(* ================================================================== *)
(** * The rollback, step by step *)
(* ================================================================== *)

Section Rollback.
Variable E : Env.
Variables (staging : string) (e : Exn).






End Rollback.

(* ================================================================== *)
(** * [create_project] *)
(* ================================================================== *)

Section CreateProject.
Variable E : Env.
Variables (cfg : ProjectConfig) (es : ExpectedSchema) (sql : string).
Variable f0 : FS.

Local Abbreviation pid := (project_id_of E cfg).
Local Abbreviation stg := (staging_name E (project_id_of E cfg)).
Local Abbreviation built := (fully_built E cfg es sql (now_iso E 0)).
Local Abbreviation run := (create_project E cfg es sql (initial_world f0)).

(** Past its checks, [create_project] is its [try] statement, run from
    the starting state. *)
Lemma create_project_unfold :
  prechecks E cfg f0 →
  run = try_finally
          (try_except (create_body E cfg es sql (now_iso E 0)) (create_rollback E stg))
          (close_if_open E) (try_entry_world f0).
Proof.
  intros (Hvalid & Hscan & Hfin).
  unfold create_project, bind, lift, get_fs. rewrite Hvalid. cbn.
  rewrite Hscan. cbn. apply fs_exists_false in Hfin. rewrite Hfin. done.
Qed.

(** A creation that its checks refuse raises and leaves the world as it
    was. *)
Lemma create_project_refused :
  ¬ prechecks E cfg f0 → ∃ e, run = (Raise e, initial_world f0).
Proof.
  intros Hno. unfold create_project, bind, lift, get_fs.
  destruct (_validate_config E cfg) as [[]|e] eqn:Hvalid; [|by eexists].
  cbn. destruct (_scan_for_project_name f0 (project_name cfg)) as [dups|e] eqn:Hscan;
    [|by eexists].
  destruct dups as [|dup dups]; cbn; [|by eexists].
  destruct (fs_exists f0 pid) eqn:Hex; [by eexists|].
  exfalso. apply Hno. repeat split; try done. by apply fs_exists_false.
Qed.

Lemma prechecks_cases : prechecks E cfg f0 ∨ ¬ prechecks E cfg f0.
Proof.
  unfold prechecks.
  destruct (_validate_config E cfg) as [[]|e]; [|right; by intros (? & _)].
  destruct (_scan_for_project_name f0 (project_name cfg)) as [[|dup dups]|e];
    [|right; by intros (_ & ? & _)..].
  destruct (fs_lookup f0 pid); [right; by intros (_ & _ & ?)|by left].
Qed.

(** What a run of [create_project] does, from a world with no history. *)
Lemma create_project_spec :
  (¬ prechecks E cfg f0 ∧ ∃ e, run = (Raise e, initial_world f0))
  ∨ (prechecks E cfg f0
     ∧ two_phase built stg pid f0 (history run.2)
     ∧ match run.1 with
       | Ok info =>
           info = created_info (base_projects_dir cfg) pid
           ∧ promoted built stg pid f0 (fs run.2)
       | Raise x =>
           failure_cause E (base_projects_dir cfg) es sql stg f0
           ∧ ∃ e, rollback_outcome stg e x (fs run.2)
       end).
Proof.
  destruct prechecks_cases as [Hpre|Hno]; [right|left; split; [done|]].
  2:{ by apply create_project_refused. }
  split; [done|]. rewrite (create_project_unfold Hpre).
  pose proof Hpre as (_ & _ & Hfin).
  pose proof (create_try_spec E cfg es sql (now_iso E 0) f0 Hfin (try_entry_world f0)) as H.
  cbn [fs past try_entry_world] in H. specialize (H (conj eq_refl eq_refl)).
  destruct (try_finally _ _ _) as [[info|x] w']; cbn [fst snd].
  - destruct H as [HB ->]. split; [by eapply B_two_phase|].
    split; [done|]. by eapply B_inv_head.
  - by destruct H as [[Htwo Hcause] Hout].
Qed.



End CreateProject.

(* ================================================================== *)
(** * Creation: the claims *)
(* ================================================================== *)

Section CreationClaims.
Variable E : Env.
Variables (cfg : ProjectConfig) (es : ExpectedSchema) (sql : string).
Variable f0 : FS.

Local Abbreviation pid := (project_id_of E cfg).
Local Abbreviation stg := (staging_name E (project_id_of E cfg)).
Local Abbreviation built := (fully_built E cfg es sql (now_iso E 0)).
Local Abbreviation run := (create_project E cfg es sql (initial_world f0)).



(** C9, amended: the sub-folders of every workspace that
    [create_project] has built and promoted are exactly pdfs, ingested,
    indexes, drafts, exports and logs. *)
Theorem created_workspace_subfolders info :
  run.1 = Ok info →
  ∃ d, fs_lookup (fs run.2) pid = Some (NDir d)
    ∧ subdirs d
      = list_to_set ["pdfs"; "ingested"; "indexes"; "drafts"; "exports"; "logs"]
    ∧ ∀ sub, sub ∈ subdirs d
             ↔ sub ∈ ["pdfs"; "ingested"; "indexes"; "drafts"; "exports"; "logs"].
Proof.
  intros Hok.
  destruct (create_project_spec E cfg es sql f0) as [[_ [e He]]|(_ & _ & Hres)].
  { rewrite He in Hok. done. }
  rewrite Hok in Hres. destruct Hres as [_ (_ & (d & Hd & HS & _) & _)].
  exists d. split; [done|]. split; [done|].
  intros sub. rewrite HS. unfold staging_subfolder_set, staging_subfolders.
  by rewrite elem_of_list_to_set.
Qed.

(** C10: from a state in which the final name is absent, the states of a
    run of [create_project] are states in which it is still absent,
    followed by states in which it holds the fully built workspace. So
    once the rename has put the workspace there, it is there, whole, in
    every later state and at the end, whatever the run then raises: the
    rollback only ever touches the staging name. *)
Theorem promoted_workspace_survives :
  fs_lookup f0 pid = None →
  two_phase built stg pid f0 (history run.2)
  ∧ (∀ f, f ∈ history run.2 → fs_lookup f pid ≠ None →
          promoted built stg pid f0 f ∧ promoted built stg pid f0 (fs run.2)).
Proof.
  intros Hfin.
  assert (two_phase built stg pid f0 (history run.2)) as Htwo.
  { destruct (create_project_spec E cfg es sql f0) as [[_ [e ->]]|(_ & Htwo & _)];
      [|done].
    exists [], [f0]. repeat split; try done. by repeat constructor. }
  split; [done|]. intros f Hin Hex.
  destruct Htwo as (after & before & Heq & Hafter & Hbefore).
  rewrite Heq in Hin. apply elem_of_app in Hin as [Hin|Hin].
  2:{ rewrite Forall_forall in Hbefore. by destruct (Hbefore f Hin). }
  split; [rewrite Forall_forall in Hafter; by apply Hafter|].
  destruct after as [|a after]; [by apply elem_of_nil in Hin|].
  unfold history in Heq. injection Heq as -> _.
  by apply Forall_cons in Hafter as [? _].
Qed.

End CreationClaims.

(* ================================================================== *)
(** * Create, then open *)
(* ================================================================== *)

Section CreateThenOpen.
Variable E : Env.
Variables (cfg : ProjectConfig) (es : ExpectedSchema) (sql : string).
Variable f0 : FS.

Local Abbreviation pid := (project_id_of E cfg).
Local Abbreviation stg := (staging_name E (project_id_of E cfg)).
Local Abbreviation built := (fully_built E cfg es sql (now_iso E 0)).
Local Abbreviation run := (create_project E cfg es sql (initial_world f0)).
Local Abbreviation hash := (compute_schema_hash E sql).







End CreateThenOpen.

(* ================================================================== *)
(** * Concrete runs *)
(* ================================================================== *)





(** C9, as stated, fails: a workspace that [create_project] has built does
    not have the sub-folder set artifact-inbox, ingested-output,
    index-storage, drafts, exports, logs. *)
Lemma created_workspace_has_no_artifact_inbox :
  let run := Demo.run_create [] "bladder_smc" Demo.CANONICAL_SCHEMA_SQL None in
  ∃ info d, run.1 = Ok info
    ∧ fs_dir (fs run.2) "2026-01-15_bladder_smc" = Some d
    ∧ subdirs d ≠ list_to_set ["artifact-inbox"; "ingested-output"; "index-storage";
                               "drafts"; "exports"; "logs"].
Proof.
  cbn zeta. eexists _, _. split; [vm_compute; reflexivity|].
  split; [vm_compute; reflexivity|].
  intros H. apply (f_equal (λ X : gset string, bool_decide ("artifact-inbox" ∈ X))) in H.
  vm_compute in H. discriminate H.
Qed.

Lemma created_workspace_subfolders_witness :
  let E := Demo.env [] in
  let cfg := Demo.config "bladder_smc" in
  let run := create_project E cfg EXPECTED_SCHEMA Demo.CANONICAL_SCHEMA_SQL
               (initial_world None) in
  run.1 = Ok (created_info "projects" "2026-01-15_bladder_smc")
  ∧ ∃ d, fs_lookup (fs run.2) (project_id_of E cfg) = Some (NDir d)
      ∧ subdirs d
        = list_to_set ["pdfs"; "ingested"; "indexes"; "drafts"; "exports"; "logs"]
      ∧ ∀ sub, sub ∈ subdirs d
               ↔ sub ∈ ["pdfs"; "ingested"; "indexes"; "drafts"; "exports"; "logs"].
Proof.
  cbn zeta.
  match goal with |- ?H ∧ _ => assert H as Hrun by (vm_compute; reflexivity) end.
  split; [exact Hrun|].
  exact (created_workspace_subfolders (Demo.env []) (Demo.config "bladder_smc")
           EXPECTED_SCHEMA Demo.CANONICAL_SCHEMA_SQL None _ Hrun).
Defined.

Lemma promoted_workspace_survives_witness :
  let E := Demo.env [27] in
  let cfg := Demo.config "bladder_smc" in
  let run := create_project E cfg EXPECTED_SCHEMA Demo.CANONICAL_SCHEMA_SQL
               (initial_world None) in
  fs_lookup None (project_id_of E cfg) = None
  ∧ run.1 = Raise (Typed ProjectCreatorError "Project creation failed."
                     "operation failed" (Some os_error))
  ∧ promoted (fully_built E cfg EXPECTED_SCHEMA Demo.CANONICAL_SCHEMA_SQL (now_iso E 0))
      (staging_name E (project_id_of E cfg)) (project_id_of E cfg) None (fs run.2).
Proof.
  cbn zeta. split; [reflexivity|]. split; [vm_compute; reflexivity|].
  refine (proj2 (proj2 (promoted_workspace_survives (Demo.env [27])
                          (Demo.config "bladder_smc") EXPECTED_SCHEMA
                          Demo.CANONICAL_SCHEMA_SQL None eq_refl) _ _ _)).
  - apply list_elem_of_here.
  - vm_compute. discriminate.
Defined.

(* ================================================================== *)
(** * Further properties: the config validator *)
(* ================================================================== *)

Lemma name_re_rest_newline r :
  Forall (λ c, name_char c = true) (list_ascii_of_string r) →
  name_re_rest (r +:+ nl) = true.
Proof.
  induction r as [|c r IH]; [done|]. cbn [list_ascii_of_string].
  intros [Hc Hr]%Forall_cons.
  change (String c r +:+ nl) with (String c (r +:+ nl)). cbn [name_re_rest].
  destruct (r +:+ nl) eqn:Heq.
  - by destruct r.
  - rewrite Hc. by apply IH.
Qed.

Lemma identifier_newline_matches s : is_identifier s → _NAME_RE_match (s +:+ nl) = true.
Proof.
  intros [Hne Hall]. destruct s as [|c r]; [done|].
  cbn [list_ascii_of_string] in Hall. apply Forall_cons in Hall as [Hc Hr].
  change (String c r +:+ nl) with (String c (r +:+ nl)). cbn [_NAME_RE_match].
  rewrite Hc. by apply name_re_rest_newline.
Qed.

Lemma bad_sources_nil l :
  List.filter (λ s, negb (Py.mem s _ALLOWED_SOURCES)) l = []
  ↔ Forall (λ s, s ∈ _ALLOWED_SOURCES) l.
Proof.
  rewrite filter_nil_iff, Forall_forall. setoid_rewrite negb_false_iff.
  by setoid_rewrite mem_elem_of.
Qed.

Lemma validate_config_name_error E cfg :
  _NAME_RE_match (project_name cfg) = false →
  _validate_config E cfg
  = Raise (Typed InvalidProjectNameError
             "Invalid project_name. Use lowercase snake_case: a-z, 0-9, underscore."
             ("project_name=" +:+ py_repr E (VStr (project_name cfg))) None).
Proof. intros H. unfold _validate_config. by rewrite H, orb_true_r. Qed.

Lemma validate_config_name_ok E cfg :
  _NAME_RE_match (project_name cfg) = true →
  _validate_config E cfg
  = if String.eqb (Py.strip (topic_prompt cfg)) "" then
      Raise (Typed InvalidConfigError "topic_prompt must be non-empty." "" None)
    else if negb (String.eqb (citation_style cfg) "vancouver") then
      Raise (Typed InvalidConfigError "citation_style must be 'vancouver' in v1."
               (citation_style cfg) None)
    else
      let bad := List.filter (λ s, negb (Py.mem s _ALLOWED_SOURCES)) (sources cfg) in
      if nonempty bad then
        Raise (Typed InvalidConfigError
                 ("Invalid sources in v1: " +:+ repr_strs E bad +:+ ". Allowed: "
                  +:+ repr_strs E (Py.sorted _ALLOWED_SOURCES))
                 ("sources=" +:+ Py.join "," (sources cfg)) None)
      else Ok tt.
Proof.
  intros H. unfold _validate_config. rewrite H.
  assert (String.eqb (project_name cfg) "" = false) as ->.
  { apply String.eqb_neq. intros Heq. by rewrite Heq in H. }
  cbn [orb negb]. by rewrite (name_re_match_lower _ H), String.eqb_refl.
Qed.

(** X1: the validator accepts a config exactly when its name is an
    identifier (lowercase letters, digits, underscores; not empty),
    possibly followed by one newline, its topic has a character that is
    not white space, its citation style is [vancouver], and each of its
    sources is [pmc] or [biorxiv]. *)
Theorem validate_config_ok_iff E cfg :
  _validate_config E cfg = Ok tt
  ↔ (is_identifier (project_name cfg)
     ∨ ∃ s, project_name cfg = s +:+ nl ∧ is_identifier s)
    ∧ Py.strip (topic_prompt cfg) ≠ ""
    ∧ citation_style cfg = "vancouver"
    ∧ Forall (λ s, s = "pmc" ∨ s = "biorxiv") (sources cfg).
Proof.
  assert (Forall (λ s, s = "pmc" ∨ s = "biorxiv") (sources cfg)
          ↔ Forall (λ s, s ∈ _ALLOWED_SOURCES) (sources cfg)) as ->.
  { apply Forall_iff. intros s. unfold _ALLOWED_SOURCES.
    rewrite elem_of_cons, list_elem_of_singleton. done. }
  destruct (_NAME_RE_match (project_name cfg)) eqn:Hname.
  - rewrite (validate_config_name_ok E cfg Hname).
    assert (is_identifier (project_name cfg)
            ∨ ∃ s, project_name cfg = s +:+ nl ∧ is_identifier s) as Hshape
      by by apply name_re_match_shape.
    destruct (String.eqb_spec (Py.strip (topic_prompt cfg)) "") as [Htopic|Htopic];
      [naive_solver|].
    destruct (String.eqb_spec (citation_style cfg) "vancouver") as [Hstyle|Hstyle];
      cbn [negb]; [|naive_solver].
    cbn zeta. rewrite <- bad_sources_nil.
    destruct (List.filter _ (sources cfg)); cbn [nonempty]; naive_solver.
  - rewrite (validate_config_name_error E cfg Hname). split; [done|].
    intros [[Hid|(s & Heq & Hid)] _].
    + by rewrite (identifier_matches _ Hid) in Hname.
    + by rewrite Heq, (identifier_newline_matches _ Hid) in Hname.
Qed.

(** X2: a config that the validator refuses makes [create_project] raise
    the validator's error and change nothing, whatever the state of the
    base directory. The error is [InvalidProjectNameError] exactly when the
    name does not match the pattern, whatever the other fields hold, and
    [InvalidConfigError] otherwise. *)
Theorem create_project_invalid_config E cfg es sql w e :
  _validate_config E cfg = Raise e →
  create_project E cfg es sql w = (Raise e, w)
  ∧ (exn_class e = Some InvalidProjectNameError
     ↔ _NAME_RE_match (project_name cfg) = false)
  ∧ (exn_class e = Some InvalidConfigError
     ↔ _NAME_RE_match (project_name cfg) = true).
Proof.
  intros He. split.
  { unfold create_project, bind, lift. by rewrite He. }
  destruct (_NAME_RE_match (project_name cfg)) eqn:Hname.
  - rewrite (validate_config_name_ok E cfg Hname) in He.
    destruct (String.eqb _ ""); [by injection He as <-|].
    destruct (negb _); [by injection He as <-|]. cbn zeta in He.
    destruct (nonempty _); [by injection He as <-|done].
  - rewrite (validate_config_name_error E cfg Hname) in He. by injection He as <-.
Qed.

(** X3: the second rule of the validator never fires: a name that matches
    the pattern is equal to its lowercase form, so no config is refused
    with the message that the name must be lowercase. *)
Theorem validate_config_lowercase_rule_dead E cfg e :
  _validate_config E cfg = Raise e →
  exn_str e ≠ "project_name must be lowercase."
  ∧ (_NAME_RE_match (project_name cfg) = true →
     Py.lower (project_name cfg) = project_name cfg).
Proof.
  intros He. split; [|apply name_re_match_lower].
  destruct (_NAME_RE_match (project_name cfg)) eqn:Hname.
  - rewrite (validate_config_name_ok E cfg Hname) in He.
    destruct (String.eqb _ ""); [by injection He as <-|].
    destruct (negb _); [by injection He as <-|]. cbn zeta in He.
    destruct (nonempty _); [|done]. injection He as <-. cbn.
    intros H. apply (f_equal (String.get 0)) in H. by vm_compute in H.
  - rewrite (validate_config_name_error E cfg Hname) in He. by injection He as <-.
Qed.

Lemma create_project_invalid_config_witness :
  let e := Typed InvalidProjectNameError
             "Invalid project_name. Use lowercase snake_case: a-z, 0-9, underscore."
             "project_name='Bad Name!'" None in
  _validate_config (Demo.env []) (Demo.config "Bad Name!") = Raise e
  ∧ create_project (Demo.env []) (Demo.config "Bad Name!") EXPECTED_SCHEMA
      Demo.CANONICAL_SCHEMA_SQL (initial_world None)
    = (Raise e, initial_world None).
Proof.
  cbn zeta. split; [reflexivity|].
  apply (create_project_invalid_config (Demo.env []) (Demo.config "Bad Name!")).
  reflexivity.
Defined.

Lemma validate_config_lowercase_rule_dead_witness :
  let cfg := {| project_name := "ok_name"; topic_prompt := "   ";
                base_projects_dir := "projects"; citation_style := "vancouver";
                sources := ["pmc"]; notes := None |} in
  let e := Typed InvalidConfigError "topic_prompt must be non-empty." "" None in
  _validate_config (Demo.env []) cfg = Raise e
  ∧ exn_str e ≠ "project_name must be lowercase.".
Proof.
  cbn zeta. split; [reflexivity|].
  apply (validate_config_lowercase_rule_dead (Demo.env [])
           {| project_name := "ok_name"; topic_prompt := "   ";
              base_projects_dir := "projects"; citation_style := "vancouver";
              sources := ["pmc"]; notes := None |}).
  reflexivity.
Defined.

(* ================================================================== *)
(** * Further properties: manifests *)
(* ================================================================== *)

Lemma missing_fields_dict required obj :
  missing_fields required (VDict obj)
  = Ok (List.filter (λ k, negb (Dict.mem k obj)) required).
Proof.
  induction required as [|k r IH]; [done|].
  cbn [missing_fields py_in res_bind List.filter]. rewrite IH. cbn [res_bind].
  by destruct (Dict.mem k obj).
Qed.

Lemma missing_fields_none required (obj : list (string * value)) :
  List.filter (λ k, negb (Dict.mem k obj)) required = []
  ↔ Forall (λ k, is_Some (Dict.get k obj)) required.
Proof.
  rewrite filter_nil_iff, Forall_forall. setoid_rewrite negb_false_iff.
  by setoid_rewrite DictFacts.mem_is_Some.
Qed.

(** What is not an object never validates: the membership test or [m.get]
    raises, or fields are reported missing. *)
Lemma validate_manifest_not_object E m folder :
  _validate_manifest_v1 E m folder = Ok tt → ∃ obj, m = VDict obj.
Proof.
  unfold _validate_manifest_v1. destruct m as [| | | | |obj]; try done; [| |by eexists].
  - destruct (missing_fields required_fields (VStr s)) as [missing|]; [|done].
    cbn. by destruct (nonempty missing).
  - destruct (missing_fields required_fields (VList l)) as [missing|]; [|done].
    cbn. by destruct (nonempty missing).
Qed.

Lemma manifest_valid_iff E m folder :
  _validate_manifest_v1 E m folder = Ok tt
  ↔ ∃ obj, m = VDict obj
      ∧ Forall (λ k, is_Some (Dict.get k obj)) required_fields
      ∧ Dict.get "version" obj = Some (VStr "v1")
      ∧ Dict.get "project_id" obj = Some (VStr folder).
Proof.
  split.
  - intros H. destruct (validate_manifest_not_object E m folder H) as [obj ->].
    exists obj. split; [done|]. revert H. unfold _validate_manifest_v1.
    rewrite missing_fields_dict. cbn [res_bind py_get].
    destruct (List.filter _ required_fields) as [|k0 l0] eqn:Hmiss; cbn [nonempty];
      [|done].
    apply missing_fields_none in Hmiss.
    pose proof Hmiss as Hall. rewrite Forall_forall in Hall.
    destruct (Hall "version") as [version Hv].
    { unfold required_fields. set_solver. }
    destruct (Hall "project_id") as [pid Hp].
    { unfold required_fields. set_solver. }
    rewrite Hv, Hp. cbn [default from_option]. unfold id.
    destruct (value_is_str version "v1") eqn:Hv1; cbn [negb]; [|done].
    destruct (value_is_str pid folder) eqn:Hp1; cbn [negb]; [|done].
    apply value_is_str_eq in Hv1 as ->. apply value_is_str_eq in Hp1 as ->. done.
  - intros (obj & -> & Hall & Hv & Hp). unfold _validate_manifest_v1.
    rewrite missing_fields_dict.
    apply missing_fields_none in Hall. rewrite Hall.
    cbn. rewrite Hv, Hp. cbn. by rewrite String.eqb_refl.
Qed.

(** X4: a decoded manifest passes [_validate_manifest_v1] for a folder
    exactly when it is an object that has the eight required keys, whose
    [version] is the string [v1] and whose [project_id] is the string that
    names the folder. A manifest that decodes to anything but an object
    (a list, a string, a number, [null]) never passes. *)
Theorem validate_manifest_v1_ok_iff E m folder :
  _validate_manifest_v1 E m folder = Ok tt
  ↔ ∃ obj, m = VDict obj
      ∧ Forall (λ k, is_Some (Dict.get k obj))
          ["project_id"; "project_name"; "topic_prompt"; "created_at";
           "sources"; "citation_style"; "status"; "version"]
      ∧ Dict.get "version" obj = Some (VStr "v1")
      ∧ Dict.get "project_id" obj = Some (VStr folder).
Proof. apply manifest_valid_iff. Qed.

Lemma manifest_dict_get cfg project_id created_at :
  ∃ obj, _manifest_dict cfg project_id created_at = VDict obj
  ∧ Forall (λ k, is_Some (Dict.get k obj)) required_fields
  ∧ Dict.get "version" obj = Some (VStr "v1")
  ∧ Dict.get "project_id" obj = Some (VStr project_id)
  ∧ Dict.get "project_name" obj = Some (VStr (project_name cfg))
  ∧ Dict.get "created_at" obj = Some (VStr created_at)
  ∧ Dict.get "topic_prompt" obj = Some (VStr (topic_prompt cfg)).
Proof.
  unfold _manifest_dict, required_fields. eexists. split; [done|]. cbn.
  repeat split; try done. repeat constructor; by eexists.
Qed.

(** X5: the manifest that [_manifest_dict] makes for an id validates for a
    folder exactly when the folder has that id as its name, whatever the
    config holds (with or without notes). *)
Theorem manifest_dict_valid_iff E cfg project_id created_at folder :
  _validate_manifest_v1 E (_manifest_dict cfg project_id created_at) folder = Ok tt
  ↔ folder = project_id.
Proof.
  destruct (manifest_dict_get cfg project_id created_at)
    as (obj & Heq & Hall & Hv & Hp & _).
  rewrite manifest_valid_iff. rewrite Heq. split.
  - intros (obj' & [= <-] & _ & _ & Hp'). rewrite Hp in Hp'. by injection Hp' as ->.
  - intros ->. eexists. by repeat split.
Qed.

(* ================================================================== *)
(** * Further properties: [open_project] *)
(* ================================================================== *)

Lemma fs_set_same cur name n : fs_lookup cur name = Some n → fs_set cur name n = cur.
Proof.
  destruct cur as [entries|]; [|done]. cbn. intros H. unfold fs_set. cbn.
  by rewrite insert_id.
Qed.

Lemma with_db_same d db : library_db d = Some db → with_db d db = d.
Proof. destruct d. cbn. by intros ->. Qed.

Lemma missing_fields_raise required m e :
  missing_fields required m = Raise e → exn_class e = None ∧ ∀ obj, m ≠ VDict obj.
Proof.
  induction required as [|k r IH]; [done|]. cbn [missing_fields].
  destruct (py_in k m) as [present|e'] eqn:Hin; cbn [res_bind].
  - destruct (missing_fields r m) as [rest|e'']; cbn [res_bind]; [done|].
    intros [= <-]. by apply IH.
  - intros [= <-]. destruct m; try done; by injection Hin as <-.
Qed.

(** What [_validate_manifest_v1] raises: a [ProjectOpenError], or, only
    for a manifest that is not an object, an exception of another class. *)
Lemma validate_manifest_raise E m folder e :
  _validate_manifest_v1 E m folder = Raise e →
  exn_class e = Some ProjectOpenError
  ∨ (exn_class e = None ∧ ∀ obj, m ≠ VDict obj).
Proof.
  unfold _validate_manifest_v1.
  destruct (missing_fields required_fields m) as [missing|e'] eqn:Hmiss; cbn [res_bind].
  2:{ intros [= <-]. right. by eapply missing_fields_raise. }
  destruct (nonempty missing); [intros [= <-]; by left|].
  destruct m as [| | | | |obj]; cbn [py_get res_bind];
    try (intros [= <-]; right; by split).
  destruct (negb (value_is_str _ "v1")); [intros [= <-]; by left|].
  destruct (negb (value_is_str _ folder)); [intros [= <-]; by left|done].
Qed.

Lemma read_manifest_raise cur name e :
  _read_manifest cur name = Raise e → exn_class e = Some ProjectOpenError.
Proof.
  unfold _read_manifest.
  destruct (fs_lookup cur name) as [[|d]|]; [by intros [= <-]| |by intros [= <-]].
  destruct (manifest_json d) as [[v|err]|]; [done|by intros [= <-]..].
Qed.

Lemma read_manifest_ok cur name m :
  _read_manifest cur name = Ok m
  ↔ ∃ d, fs_lookup cur name = Some (NDir d) ∧ manifest_json d = Some (JsonDoc m).
Proof.
  unfold _read_manifest. split.
  - destruct (fs_lookup cur name) as [[|d]|]; [done| |done].
    destruct (manifest_json d) as [[v|err]|] eqn:HM; [|done..].
    intros [= ->]. by exists d.
  - by intros (d & -> & ->).
Qed.

(** A workspace that [open_project] gets as far as connecting to: a
    directory with a manifest that validates for it and a database file. *)
Lemma open_project_cases E base name es sql w :
  (∃ e, open_project E base name es sql w = (Raise e, w)
        ∧ (exn_class e = Some ProjectOpenError
           ∨ (exn_class e = None
              ∧ ∃ d m, fs_lookup (fs w) name = Some (NDir d)
                  ∧ manifest_json d = Some (JsonDoc m) ∧ ∀ obj, m ≠ VDict obj))
        ∧ ¬ ∃ d m db, fs_lookup (fs w) name = Some (NDir d)
              ∧ manifest_json d = Some (JsonDoc m)
              ∧ _validate_manifest_v1 E m name = Ok tt
              ∧ library_db d = Some db)
  ∨ (∃ d m db, fs_lookup (fs w) name = Some (NDir d)
        ∧ manifest_json d = Some (JsonDoc m)
        ∧ _validate_manifest_v1 E m name = Ok tt
        ∧ library_db d = Some db).
Proof.
  unfold open_project, bind, get_fs, lift, raise.
  destruct (_read_manifest (fs w) name) as [m|e] eqn:Hread.
  2:{ left. exists e. split; [done|]. split; [left; by eapply read_manifest_raise|].
      intros (d & m & db & Hd & HM & _).
      assert (_read_manifest (fs w) name = Ok m) as Hok
        by (apply read_manifest_ok; by exists d).
      by rewrite Hok in Hread. }
  apply read_manifest_ok in Hread as (d & Hd & HM).
  destruct (_validate_manifest_v1 E m name) as [[]|e] eqn:Hvalid.
  2:{ left. exists e. split; [done|]. split.
      - destruct (validate_manifest_raise E m name e Hvalid) as [?|[? Hno]]; [by left|].
        right. split; [done|]. by exists d, m.
      - intros (d' & m' & db & Hd' & HM' & Hvalid' & _).
        rewrite Hd in Hd'. injection Hd' as <-. rewrite HM in HM'. injection HM' as <-.
        by rewrite Hvalid in Hvalid'. }
  unfold dir_db, fs_dir. rewrite Hd.
  destruct (library_db d) as [db|] eqn:HD; cbn [negb].
  - right. by exists d, m, db.
  - left. eexists. split; [done|]. split; [by left|].
    intros (d' & m' & db & Hd' & _ & _ & HD'). by simplify_eq.
Qed.

(** The run of [open_project] on such a workspace: one operation to
    connect, the two checks, one operation to close. *)
Lemma open_project_connected E base name es sql w d m db :
  fs_lookup (fs w) name = Some (NDir d) →
  manifest_json d = Some (JsonDoc m) →
  _validate_manifest_v1 E m name = Ok tt →
  library_db d = Some db →
  open_project E base name es sql w
  = if faults E (opc w) then
      (Raise os_error,
       {| fs := fs w; past := past w; opc := S (opc w); clock := clock w;
          conn := conn w |})
    else
      let w2 := {| fs := fs w; past := fs w :: past w; opc := S (S (opc w));
                   clock := clock w; conn := conn w |} in
      if faults E (S (opc w)) then (Raise os_error, w2)
      else
        match res_bind (verify_schema_meta E "v1" (compute_schema_hash E sql) db)
                (λ _, validate_schema E es db) with
        | Ok _ =>
            (Ok {| pi_project_id := VStr name;
                   pi_project_dir := path_join base name;
                   pi_manifest_path := path_join (path_join base name) "manifest.json";
                   pi_database_path := path_join (path_join base name) "library.db";
                   pi_status := "opened" |}, w2)
        | Raise e => (Raise e, w2)
        end.
Proof.
  intros Hd HM Hvalid HD.
  assert (py_item E m "project_id" = Ok (VStr name)) as Hitem.
  { apply manifest_valid_iff in Hvalid as (obj & -> & _ & _ & Hpid).
    cbn. by rewrite Hpid. }
  unfold open_project, bind, get_fs, lift.
  assert (_read_manifest (fs w) name = Ok m) as ->
    by (apply read_manifest_ok; by exists d).
  rewrite Hvalid. unfold dir_db, fs_dir. rewrite Hd, HD. cbn [negb].
  unfold sqlite3_connect, fs_op, bind, io, get_fs, put_fs, ret.
  destruct (faults E (opc w)); [done|].
  cbn [fs]. unfold update_entry. rewrite Hd, HD. cbn [default from_option]. unfold id.
  rewrite (with_db_same d db HD), (fs_set_same _ _ _ Hd).
  cbn [fs past opc clock conn].
  unfold try_finally, db_read, bind, get_fs, lift, dir_db, fs_dir. cbn [fs].
  rewrite Hd, HD.
  destruct (verify_schema_meta E "v1" (compute_schema_hash E sql) db) as [[]|e];
    cbn [res_bind fs]; unfold conn_close, io; cbn [opc fs past clock conn].
  - rewrite Hd, HD.
    destruct (validate_schema E es db) as [[]|e]; cbn [opc fs past clock conn];
      destruct (faults E (S (opc w))); try done.
    by rewrite Hitem.
  - by destruct (faults E (S (opc w))).
Qed.

(** X6: a workspace directory that has been renamed or copied under
    another name no longer opens: when the directory [name] holds the
    manifest written for the id [project_id] and [name] differs from it,
    [open_project] raises [ProjectOpenError], with the message that the
    manifest's id does not match the folder name and both names in the
    diagnostic, before it looks at the database, and changes nothing. *)
Theorem open_project_renamed_workspace E base name es sql w d cfg project_id created_at :
  fs_lookup (fs w) name = Some (NDir d) →
  manifest_json d = Some (JsonDoc (_manifest_dict cfg project_id created_at)) →
  name ≠ project_id →
  open_project E base name es sql w
  = (Raise (Typed ProjectOpenError "Manifest project_id does not match folder name."
              ("manifest=" +:+ py_repr E (VStr project_id)
               +:+ " folder=" +:+ py_repr E (VStr name)) None), w).
Proof.
  intros Hd HM Hne. unfold open_project, bind, get_fs, lift.
  assert (_read_manifest (fs w) name = Ok (_manifest_dict cfg project_id created_at))
    as -> by (apply read_manifest_ok; by exists d).
  unfold _validate_manifest_v1, _manifest_dict. cbn.
  apply not_eq_sym, String.eqb_neq in Hne. by rewrite Hne.
Qed.

(** X7: [open_project] is read-only: whatever it returns or raises, the
    base directory at the end is the one it started from, and so is every
    state it went through. *)
Theorem open_project_read_only E base name es sql w :
  let w' := (open_project E base name es sql w).2 in
  fs w' = fs w ∧ ∀ f, f ∈ history w' → f ∈ history w.
Proof.
  cbn zeta.
  destruct (open_project_cases E base name es sql w)
    as [(e & -> & _)|(d & m & db & Hd & HM & Hvalid & HD)]; [done|].
  rewrite (open_project_connected E base name es sql w d m db Hd HM Hvalid HD).
  unfold history.
  destruct (faults E (opc w)); [done|]. cbn zeta.
  assert (∀ f, f ∈ fs w :: fs w :: past w → f ∈ fs w :: past w) as Hin by set_solver.
  destruct (faults E (S (opc w))); [done|].
  by destruct (res_bind _ _).
Qed.

(** X8: [open_project] returns exactly when the directory holds a manifest
    that validates for its name and a database that passes the marker
    check and the shape check, and neither connecting nor closing fails
    (its first and second operation). What it returns then has the
    directory's name as [project_id], the paths of the directory, its
    manifest and its database, and the status [opened]. *)
Theorem open_project_ok_iff E base name es sql w info :
  (open_project E base name es sql w).1 = Ok info
  ↔ (∃ d m db, fs_lookup (fs w) name = Some (NDir d)
        ∧ manifest_json d = Some (JsonDoc m)
        ∧ _validate_manifest_v1 E m name = Ok tt
        ∧ library_db d = Some db
        ∧ verify_schema_meta E "v1" (compute_schema_hash E sql) db = Ok tt
        ∧ validate_schema E es db = Ok tt)
    ∧ faults E (opc w) = false ∧ faults E (S (opc w)) = false
    ∧ info = {| pi_project_id := VStr name;
                pi_project_dir := path_join base name;
                pi_manifest_path := path_join (path_join base name) "manifest.json";
                pi_database_path := path_join (path_join base name) "library.db";
                pi_status := "opened" |}.
Proof.
  split.
  - intros Hok.
    destruct (open_project_cases E base name es sql w)
      as [(e & He & _)|(d & m & db & Hd & HM & Hvalid & HD)].
    { by rewrite He in Hok. }
    rewrite (open_project_connected E base name es sql w d m db Hd HM Hvalid HD) in Hok.
    destruct (faults E (opc w)); [done|]. cbn zeta in Hok.
    destruct (faults E (S (opc w))); [done|].
    destruct (verify_schema_meta E "v1" (compute_schema_hash E sql) db) as [[]|e] eqn:Hv;
      cbn [res_bind] in Hok; [|done].
    destruct (validate_schema E es db) as [[]|e] eqn:Hs; [|done].
    cbn in Hok. injection Hok as <-. split; [|done]. by exists d, m, db.
  - intros ((d & m & db & Hd & HM & Hvalid & HD & Hv & Hs) & Hf1 & Hf2 & ->).
    rewrite (open_project_connected E base name es sql w d m db Hd HM Hvalid HD).
    rewrite Hf1. cbn zeta. rewrite Hf2, Hv. cbn [res_bind]. by rewrite Hs.
Qed.

Lemma verify_schema_meta_raise E ev eh db e :
  verify_schema_meta E ev eh db = Raise e →
  exn_class e = Some DatabaseSchemaMismatchError ∨ exn_class e = None.
Proof.
  unfold verify_schema_meta, select_meta.
  destruct (has_schema_meta db); cbn [res_bind]; [|intros [= <-]; by right].
  destruct (meta_value db "schema_version") as [v|]; [|intros [= <-]; by left].
  destruct (negb (String.eqb v ev)); [intros [= <-]; by left|].
  destruct (meta_value db "schema_hash") as [h|]; [|intros [= <-]; by left].
  destruct (negb (String.eqb h eh)); [intros [= <-]; by left|done].
Qed.

Lemma validate_schema_raise E es db e :
  validate_schema E es db = Raise e →
  exn_class e = Some DatabaseSchemaMismatchError ∨ exn_class e = None.
Proof.
  destruct (validate_schema_cases E es db)
    as [(t & err & _ & _ & _ & ->)|(_ & actual & _ & _ & [(-> & _)|[-> _]])];
    [intros [= <-]; by right|done|intros [= <-]; by left].
Qed.

(** X9: the errors of [open_project]. A [ProjectOpenError] is raised
    before the database is touched, and only when the manifest is missing,
    unreadable or not valid for the folder, or the database file is
    missing; the world is then as it was. A
    [DatabaseSchemaMismatchError] is raised only for a workspace whose
    manifest is valid, by the marker check or, when the marker check
    passes, by the shape check. It raises no other error of the module's
    classes. *)
Theorem open_project_errors E base name es sql w e w' :
  open_project E base name es sql w = (Raise e, w') →
  match exn_class e with
  | Some ProjectOpenError =>
      w' = w
      ∧ ¬ ∃ d m db, fs_lookup (fs w) name = Some (NDir d)
            ∧ manifest_json d = Some (JsonDoc m)
            ∧ _validate_manifest_v1 E m name = Ok tt
            ∧ library_db d = Some db
  | Some DatabaseSchemaMismatchError =>
      ∃ d m db, fs_lookup (fs w) name = Some (NDir d)
        ∧ manifest_json d = Some (JsonDoc m)
        ∧ _validate_manifest_v1 E m name = Ok tt
        ∧ library_db d = Some db
        ∧ (verify_schema_meta E "v1" (compute_schema_hash E sql) db = Raise e
           ∨ (verify_schema_meta E "v1" (compute_schema_hash E sql) db = Ok tt
              ∧ validate_schema E es db = Raise e))
  | Some _ => False
  | None => True
  end.
Proof.
  intros Hrun.
  destruct (open_project_cases E base name es sql w)
    as [(e0 & He & Hclass & Hno)|(d & m & db & Hd & HM & Hvalid & HD)].
  { rewrite He in Hrun. injection Hrun as <- <-.
    destruct Hclass as [->|[-> _]]; done. }
  rewrite (open_project_connected E base name es sql w d m db Hd HM Hvalid HD) in Hrun.
  destruct (faults E (opc w)); [by injection Hrun as <- <-|]. cbn zeta in Hrun.
  destruct (faults E (S (opc w))); [by injection Hrun as <- <-|].
  destruct (verify_schema_meta E "v1" (compute_schema_hash E sql) db) as [[]|e1] eqn:Hv;
    cbn [res_bind] in Hrun.
  - destruct (validate_schema E es db) as [[]|e2] eqn:Hs; [done|].
    injection Hrun as <- <-.
    destruct (validate_schema_raise E _ _ _ Hs) as [Hc|Hc]; rewrite Hc; [|done].
    exists d, m, db. repeat split; try done. by right.
  - injection Hrun as <- <-.
    destruct (verify_schema_meta_raise E _ _ _ _ Hv) as [Hc|Hc]; rewrite Hc; [|done].
    exists d, m, db. repeat split; try done. by left.
Qed.

(* ================================================================== *)
(** * Further properties: the schema guard *)
(* ================================================================== *)


(** ** White space around the schema text *)

Lemma rev_app_app a b t :
  String.rev_app (a +:+ b) t = String.rev_app b (String.rev_app a t).
Proof.
  revert t. induction a as [|c a IH]; intros t; [done|].
  change (String c a +:+ b) with (String c (a +:+ b)). cbn [String.rev_app]. apply IH.
Qed.

Lemma lstrip_blank_app l y :
  Forall (λ c, Py.isspace c = true) (list_ascii_of_string l) →
  Py.lstrip (l +:+ y) = Py.lstrip y.
Proof.
  induction l as [|c l IH]; [done|]. cbn [list_ascii_of_string].
  intros [Hc Hl]%Forall_cons.
  change (String c l +:+ y) with (String c (l +:+ y)). cbn [Py.lstrip].
  rewrite Hc. by apply IH.
Qed.

Lemma lstrip_blank l :
  Forall (λ c, Py.isspace c = true) (list_ascii_of_string l) → Py.lstrip l = "".
Proof.
  induction l as [|c l IH]; [done|]. cbn [list_ascii_of_string].
  intros [Hc Hl]%Forall_cons. cbn [Py.lstrip]. rewrite Hc. by apply IH.
Qed.

Lemma lstrip_rev_app_blank r x :
  Forall (λ c, Py.isspace c = true) (list_ascii_of_string r) →
  Py.lstrip (String.rev_app r x) = Py.lstrip x.
Proof.
  revert x. induction r as [|c r IH]; intros x; [done|]. cbn [list_ascii_of_string].
  intros [Hc Hr]%Forall_cons. cbn [String.rev_app]. rewrite IH by done.
  cbn [Py.lstrip]. by rewrite Hc.
Qed.

Lemma rstrip_app_blank x r :
  Forall (λ c, Py.isspace c = true) (list_ascii_of_string r) →
  Py.rstrip (x +:+ r) = Py.rstrip x.
Proof.
  intros Hr. unfold Py.rstrip, String.rev.
  by rewrite rev_app_app, lstrip_rev_app_blank.
Qed.

Lemma strip_app_blank s r :
  Forall (λ c, Py.isspace c = true) (list_ascii_of_string r) →
  Py.strip (s +:+ r) = Py.strip s.
Proof.
  intros Hr. unfold Py.strip. induction s as [|c s IH].
  - change ("" +:+ r) with r. by rewrite (lstrip_blank r Hr).
  - change (String c s +:+ r) with (String c (s +:+ r)). cbn [Py.lstrip].
    destruct (Py.isspace c); [done|].
    change (String c (s +:+ r)) with (String c s +:+ r). by apply rstrip_app_blank.
Qed.

Lemma strip_padding l s r :
  Forall (λ c, Py.isspace c = true) (list_ascii_of_string l) →
  Forall (λ c, Py.isspace c = true) (list_ascii_of_string r) →
  Py.strip (l +:+ s +:+ r) = Py.strip s.
Proof.
  intros Hl Hr. rewrite <- (strip_app_blank s r Hr). unfold Py.strip.
  by rewrite lstrip_blank_app.
Qed.

(** X11: white space before and after the schema text does not count:
    the hash of the padded text is the hash of the text, and
    [open_project] called with the padded text does what it does with the
    text. *)
Theorem schema_hash_ignores_padding E l r sql :
  Forall (λ c, Py.isspace c = true) (list_ascii_of_string l) →
  Forall (λ c, Py.isspace c = true) (list_ascii_of_string r) →
  compute_schema_hash E (l +:+ sql +:+ r) = compute_schema_hash E sql
  ∧ ∀ base name es,
      open_project E base name es (l +:+ sql +:+ r) = open_project E base name es sql.
Proof.
  intros Hl Hr.
  assert (compute_schema_hash E (l +:+ sql +:+ r) = compute_schema_hash E sql) as Heq.
  { unfold compute_schema_hash. by rewrite strip_padding. }
  split; [done|]. intros base name es. unfold open_project. by rewrite Heq.
Qed.

(** ** Tables that the introspection does not see *)



(* ================================================================== *)
(** * Further properties: the scan for a project name *)
(* ================================================================== *)

(** One round of the scan on an object. *)
Lemma scan_entry_object pn hits name d obj :
  manifest_json d = Some (JsonDoc (VDict obj)) →
  scan_entry pn hits (name, d)
  = Ok (if value_is_str (default VNone (Dict.get "version" obj)) "v1"
           && value_is_str (default VNone (Dict.get "project_name" obj)) pn
        then hits ++ [name] else hits).
Proof.
  intros HM. unfold scan_entry. cbn [fst snd]. rewrite HM. cbn [py_get res_bind].
  by destruct (value_is_str _ "v1").
Qed.

Lemma scan_entry_cases pn hits name d :
  match manifest_json d with
  | Some (JsonDoc (VDict obj)) => True
  | Some (JsonDoc v) =>
      scan_entry pn hits (name, d)
      = Raise (Foreign "AttributeError"
                 ("'" +:+ type_name v +:+ "' object has no attribute 'get'"))
  | _ => scan_entry pn hits (name, d) = Ok hits
  end.
Proof.
  unfold scan_entry. cbn [fst snd].
  by destruct (manifest_json d) as [[[| | | | |obj]|err]|].
Qed.

Lemma scan_loop_ok pn entries hits hits' :
  scan_loop pn hits entries = Ok hits' →
  (∀ name, name ∈ hits' ↔
     name ∈ hits
     ∨ ∃ d obj, (name, d) ∈ entries
         ∧ manifest_json d = Some (JsonDoc (VDict obj))
         ∧ Dict.get "version" obj = Some (VStr "v1")
         ∧ Dict.get "project_name" obj = Some (VStr pn))
  ∧ ∀ name d v, (name, d) ∈ entries → manifest_json d = Some (JsonDoc v) →
                ∃ obj, v = VDict obj.
Proof.
  revert hits. induction entries as [|[name0 d0] r IH]; intros hits.
  { cbn. intros [= <-]. split; [|by intros ??? ?%elem_of_nil].
    intros name. split; [by left|].
    intros [?|(d & obj & ?%elem_of_nil & _)]; done. }
  cbn [scan_loop].
  destruct (scan_entry pn hits (name0, d0)) as [hits1|e] eqn:Hentry; cbn [res_bind];
    [|done].
  intros Hloop. destruct (IH hits1 Hloop) as [Hhits Hobjs].
  pose proof (scan_entry_cases pn hits name0 d0) as Hcases.
  destruct (manifest_json d0) as [[v0|err]|] eqn:HM0.
  - assert (∃ obj0, v0 = VDict obj0) as [obj0 ->].
    { destruct v0; try (rewrite Hcases in Hentry; discriminate Hentry). by eexists. }
    rewrite (scan_entry_object pn hits name0 d0 obj0 HM0) in Hentry.
    injection Hentry as <-. split.
    + intros name. rewrite Hhits. setoid_rewrite elem_of_cons.
      destruct (value_is_str (default VNone (Dict.get "version" obj0)) "v1") eqn:Hv;
        [destruct (value_is_str (default VNone (Dict.get "project_name" obj0)) pn) eqn:Hn|];
        cbn [andb].
      * apply value_is_str_eq in Hv, Hn.
        assert (Dict.get "version" obj0 = Some (VStr "v1")) as Hv'
          by (destruct (Dict.get "version" obj0); by simplify_eq/=).
        assert (Dict.get "project_name" obj0 = Some (VStr pn)) as Hn'
          by (destruct (Dict.get "project_name" obj0); by simplify_eq/=).
        rewrite elem_of_app, list_elem_of_singleton. split.
        -- intros [[?| ->]|(d & obj & Hin & ?)]; [by left| |].
           ++ right. exists d0, obj0. split; [by left|done].
           ++ right. exists d, obj. split; [by right|done].
        -- intros [?|(d & obj & [[= -> ->]|Hin] & HM & ?)]; [by left; left|by left; right|].
           right. by exists d, obj.
      * split.
        -- intros [?|(d & obj & Hin & ?)]; [by left|].
           right. exists d, obj. split; [by right|done].
        -- intros [?|(d & obj & [[= -> ->]|Hin] & HM & Hv' & Hn')]; [by left| |].
           ++ rewrite HM0 in HM. injection HM as <-. rewrite Hn' in Hn. cbn in Hn.
              by rewrite String.eqb_refl in Hn.
           ++ right. by exists d, obj.
      * split.
        -- intros [?|(d & obj & Hin & ?)]; [by left|].
           right. exists d, obj. split; [by right|done].
        -- intros [?|(d & obj & [[= -> ->]|Hin] & HM & Hv' & Hn')]; [by left| |].
           ++ rewrite HM0 in HM. injection HM as <-. rewrite Hv' in Hv. done.
           ++ right. by exists d, obj.
    + intros name d v [[= -> ->]|Hin]%elem_of_cons HM; [|by eapply Hobjs].
      rewrite HM0 in HM. injection HM as <-. by eexists.
  - rewrite Hcases in Hentry. injection Hentry as <-. split.
    + intros name. rewrite Hhits. setoid_rewrite elem_of_cons. split.
      * intros [?|(d & obj & Hin & ?)]; [by left|].
        right. exists d, obj. split; [by right|done].
      * intros [?|(d & obj & [[= -> ->]|Hin] & HM & ?)]; [by left|congruence|].
        right. by exists d, obj.
    + intros name d v [[= -> ->]|Hin]%elem_of_cons HM; [congruence|by eapply Hobjs].
  - rewrite Hcases in Hentry. injection Hentry as <-. split.
    + intros name. rewrite Hhits. setoid_rewrite elem_of_cons. split.
      * intros [?|(d & obj & Hin & ?)]; [by left|].
        right. exists d, obj. split; [by right|done].
      * intros [?|(d & obj & [[= -> ->]|Hin] & HM & ?)]; [by left|congruence|].
        right. by exists d, obj.
    + intros name d v [[= -> ->]|Hin]%elem_of_cons HM; [congruence|by eapply Hobjs].
Qed.

Lemma scan_loop_raise pn entries hits e :
  scan_loop pn hits entries = Raise e →
  is_typed e = false ∧ exn_type_name e = "AttributeError"
  ∧ ∃ name d v, (name, d) ∈ entries ∧ manifest_json d = Some (JsonDoc v)
      ∧ ∀ obj, v ≠ VDict obj.
Proof.
  revert hits. induction entries as [|[name0 d0] r IH]; intros hits; [done|].
  cbn [scan_loop].
  destruct (scan_entry pn hits (name0, d0)) as [hits1|e0] eqn:Hentry; cbn [res_bind].
  - intros Hloop. destruct (IH hits1 Hloop) as (? & ? & name & d & v & Hin & ?).
    split; [done|]. split; [done|]. exists name, d, v. split; [by right|done].
  - intros [= <-]. pose proof (scan_entry_cases pn hits name0 d0) as Hcases.
    destruct (manifest_json d0) as [[v0|err]|] eqn:HM0;
      [|rewrite Hcases in Hentry; discriminate Hentry..].
    destruct v0 as [| | | | |obj0];
      try (rewrite Hcases in Hentry; injection Hentry as <-;
           split; [done|]; split; [done|];
           eexists name0, d0, _; split; [by left|]; by split).
    by rewrite (scan_entry_object pn hits name0 d0 obj0 HM0) in Hentry.
Qed.

(** What the scan finds and when it raises, in terms of the base
    directory. *)
Lemma scan_spec cur pn :
  match _scan_for_project_name cur pn with
  | Ok hits =>
      (∀ name, name ∈ hits ↔
         ∃ d obj, fs_dir cur name = Some d
           ∧ manifest_json d = Some (JsonDoc (VDict obj))
           ∧ Dict.get "version" obj = Some (VStr "v1")
           ∧ Dict.get "project_name" obj = Some (VStr pn))
      ∧ ∀ name d v, fs_dir cur name = Some d → manifest_json d = Some (JsonDoc v) →
                    ∃ obj, v = VDict obj
  | Raise e =>
      is_typed e = false ∧ exn_type_name e = "AttributeError"
      ∧ ∃ name d v, fs_dir cur name = Some d ∧ manifest_json d = Some (JsonDoc v)
          ∧ ∀ obj, v ≠ VDict obj
  end.
Proof.
  unfold _scan_for_project_name. destruct cur as [entries|].
  2:{ split; [|done]. intros name. split; [by intros ?%elem_of_nil|].
      by intros (d & obj & ? & _). }
  destruct (scan_loop pn [] (fs_dirs (Some entries))) as [hits|e] eqn:Hloop.
  - apply scan_loop_ok in Hloop as [Hhits Hobjs]. split.
    + intros name. rewrite Hhits. setoid_rewrite fs_dirs_elem_of. split.
      * by intros [?%elem_of_nil|?].
      * by right.
    + intros name d v Hd HM. apply (Hobjs name d v); [by apply fs_dirs_elem_of|done].
  - apply scan_loop_raise in Hloop as (? & ? & name & d & v & Hin & ?).
    split; [done|]. split; [done|]. exists name, d, v.
    split; [by apply fs_dirs_elem_of|done].
Qed.


(* ================================================================== *)
(** * Further properties: the uniqueness checks of [create_project] *)
(* ================================================================== *)

Lemma create_project_dup_name E cfg es sql w name d obj :
  _validate_config E cfg = Ok tt →
  (∀ name d v, fs_dir (fs w) name = Some d → manifest_json d = Some (JsonDoc v) →
               ∃ obj, v = VDict obj) →
  fs_dir (fs w) name = Some d →
  manifest_json d = Some (JsonDoc (VDict obj)) →
  Dict.get "version" obj = Some (VStr "v1") →
  Dict.get "project_name" obj = Some (VStr (project_name cfg)) →
  ∃ hits,
    _scan_for_project_name (fs w) (project_name cfg) = Ok hits ∧ name ∈ hits
    ∧ create_project E cfg es sql w
      = (Raise (Typed DuplicateProjectNameError
                  ("Duplicate project_name '" +:+ project_name cfg
                   +:+ "' already exists.")
                  ("found_in="
                   +:+ Py.join "," (map (path_join (base_projects_dir cfg)) hits))
                  None), w).
Proof.
  intros Hvalid Hobjs Hd HM Hv Hn.
  pose proof (scan_spec (fs w) (project_name cfg)) as Hscan.
  destruct (_scan_for_project_name (fs w) (project_name cfg)) as [hits|e] eqn:Heq.
  2:{ destruct Hscan as (_ & _ & name' & d' & v & Hd' & HM' & Hno).
      destruct (Hobjs name' d' v Hd' HM') as [obj' ->]. by destruct (Hno obj'). }
  destruct Hscan as [Hhits _].
  assert (name ∈ hits) as Hin by (apply Hhits; by exists d, obj).
  exists hits. split; [done|]. split; [done|].
  unfold create_project, bind, lift, get_fs, raise. rewrite Hvalid, Heq.
  destruct hits; [by apply elem_of_nil in Hin|done].
Qed.

(** X14: the name check. When the config is valid and some directory of
    the base directory holds an object manifest of version v1 with the
    config's [project_name] (and no manifest there decodes to something
    that is not an object), [create_project] raises
    [DuplicateProjectNameError], lists that directory among those found,
    and changes nothing: no directory is made, not even the base
    directory. *)
Theorem create_project_duplicate_name E cfg es sql w name d obj :
  _validate_config E cfg = Ok tt →
  (∀ name d v, fs_dir (fs w) name = Some d → manifest_json d = Some (JsonDoc v) →
               ∃ obj, v = VDict obj) →
  fs_dir (fs w) name = Some d →
  manifest_json d = Some (JsonDoc (VDict obj)) →
  Dict.get "version" obj = Some (VStr "v1") →
  Dict.get "project_name" obj = Some (VStr (project_name cfg)) →
  ∃ hits,
    name ∈ hits
    ∧ create_project E cfg es sql w
      = (Raise (Typed DuplicateProjectNameError
                  ("Duplicate project_name '" +:+ project_name cfg
                   +:+ "' already exists.")
                  ("found_in="
                   +:+ Py.join "," (map (path_join (base_projects_dir cfg)) hits))
                  None), w).
Proof.
  intros Hvalid Hobjs Hd HM Hv Hn.
  destruct (create_project_dup_name E cfg es sql w name d obj Hvalid Hobjs Hd HM Hv Hn)
    as (hits & _ & Hin & Hrun).
  by exists hits.
Qed.

(** X15: a manifest that is not an object blocks every creation. When
    some directory of the base directory holds a manifest that decodes to
    a list, a string, a number, a boolean or [null], [create_project]
    with a valid config raises [AttributeError], which is not one of the
    module's error classes, and changes nothing. *)
Theorem create_project_foreign_manifest E cfg es sql w name d v :
  _validate_config E cfg = Ok tt →
  fs_dir (fs w) name = Some d →
  manifest_json d = Some (JsonDoc v) →
  (∀ obj, v ≠ VDict obj) →
  ∃ e, create_project E cfg es sql w = (Raise e, w)
    ∧ is_typed e = false ∧ exn_type_name e = "AttributeError".
Proof.
  intros Hvalid Hd HM Hno.
  pose proof (scan_spec (fs w) (project_name cfg)) as Hscan.
  destruct (_scan_for_project_name (fs w) (project_name cfg)) as [hits|e] eqn:Heq.
  { destruct Hscan as [_ Hobjs]. destruct (Hobjs name d v Hd HM) as [obj ->].
    by destruct (Hno obj). }
  destruct Hscan as (? & ? & _). exists e. split; [|done].
  unfold create_project, bind, lift, get_fs. by rewrite Hvalid, Heq.
Qed.

(** X16: the id check. When the config is valid, every manifest in the
    base directory that decodes is an object, none of them has version v1
    and the config's [project_name], and the final name
    [<date>_<project_name>] is taken, by a file or by a directory, with or
    without a manifest, [create_project] raises [DuplicateProjectIdError]
    with the final path as diagnostic and changes nothing. *)
Theorem create_project_duplicate_id E cfg es sql w n :
  _validate_config E cfg = Ok tt →
  (∀ name d v, fs_dir (fs w) name = Some d → manifest_json d = Some (JsonDoc v) →
               ∃ obj, v = VDict obj
                 ∧ ¬ (Dict.get "version" obj = Some (VStr "v1")
                      ∧ Dict.get "project_name" obj = Some (VStr (project_name cfg)))) →
  fs_lookup (fs w) (project_id_of E cfg) = Some n →
  create_project E cfg es sql w
  = (Raise (Typed DuplicateProjectIdError
              ("Duplicate project_id '" +:+ project_id_of E cfg +:+ "' already exists.")
              (path_join (base_projects_dir cfg) (project_id_of E cfg)) None), w).
Proof.
  intros Hvalid Hobjs Hn.
  pose proof (scan_spec (fs w) (project_name cfg)) as Hscan.
  destruct (_scan_for_project_name (fs w) (project_name cfg)) as [hits|e] eqn:Heq.
  2:{ destruct Hscan as (_ & _ & name' & d' & v & Hd' & HM' & Hno).
      destruct (Hobjs name' d' v Hd' HM') as (obj' & -> & _). by destruct (Hno obj'). }
  destruct Hscan as [Hhits _].
  assert (hits = []) as ->.
  { destruct hits as [|name hits]; [done|]. exfalso.
    destruct (proj1 (Hhits name) (list_elem_of_here _ _)) as (d & obj & Hd & HM & Hv & Hp).
    destruct (Hobjs name d _ Hd HM) as (obj' & [= <-] & Hnot). by apply Hnot. }
  unfold create_project, bind, lift, get_fs, raise. rewrite Hvalid, Heq.
  cbn [nonempty]. unfold fs_exists. by rewrite Hn.
Qed.

(* ================================================================== *)
(** * Further properties: what a creation leaves behind *)
(* ================================================================== *)

Lemma fs_dir_Some cur name d : fs_dir cur name = Some d ↔ fs_lookup cur name = Some (NDir d).
Proof.
  unfold fs_dir. destruct (fs_lookup cur name) as [[|d']|]; split; intros H;
    by simplify_eq.
Qed.

(** The end of a creation that returned. *)
Lemma create_project_ok_end E cfg es sql f0 info :
  (create_project E cfg es sql (initial_world f0)).1 = Ok info →
  prechecks E cfg f0
  ∧ info = created_info (base_projects_dir cfg) (project_id_of E cfg)
  ∧ promoted (fully_built E cfg es sql (now_iso E 0))
      (staging_name E (project_id_of E cfg)) (project_id_of E cfg) f0
      (fs (create_project E cfg es sql (initial_world f0)).2).
Proof.
  intros Hok.
  destruct (create_project_spec E cfg es sql f0) as [[_ [e He]]|(Hpre & _ & Hres)].
  { by rewrite He in Hok. }
  rewrite Hok in Hres. by destruct Hres.
Qed.


Lemma summary_fields_manifest_dict cfg project_id created_at :
  summary_fields project_id (JsonDoc (_manifest_dict cfg project_id created_at))
  = Some (VStr (project_name cfg), VStr created_at, VStr (topic_prompt cfg)).
Proof. unfold summary_fields, _manifest_dict. cbn. by rewrite String.eqb_refl. Qed.

(** X18: creating, then listing. After [create_project] has returned,
    [list_projects] on the base directory (called with any path text for
    it) lists the new workspace as valid, with the id, the name and the
    topic of the config and the time of its creation. *)
Theorem create_then_list E cfg es sql f0 info E' base :
  (create_project E cfg es sql (initial_world f0)).1 = Ok info →
  ∃ out,
    list_projects E' (fs (create_project E cfg es sql (initial_world f0)).2) base = Ok out
    ∧ {| ps_project_id := VStr (project_id_of E cfg);
         ps_project_name := VStr (project_name cfg);
         ps_project_dir := path_join base (project_id_of E cfg);
         ps_created_at := VStr (now_iso E 0);
         ps_topic_prompt := VStr (topic_prompt cfg);
         ps_valid := true;
         ps_error := None |} ∈ out.
Proof.
  intros Hok.
  destruct (create_project_ok_end E cfg es sql f0 info Hok)
    as (_ & _ & _ & (d & Hd & _ & HM & _) & _).
  destruct (fs (create_project E cfg es sql (initial_world f0)).2) as [entries|] eqn:Hfs;
    [|done].
  unfold list_projects. rewrite list_loop_ok. cbn [app]. eexists. split; [done|].
  apply list_elem_of_omap. exists (project_id_of E cfg, d).
  split; [by apply sorted_dirs_elem_of, fs_dir_Some|].
  unfold entry_summary. cbn [fst snd]. rewrite HM.
  by rewrite (summarize_fields E' base _ _ _ _ _
                (summary_fields_manifest_dict cfg (project_id_of E cfg) (now_iso E 0))).
Qed.



(** X20: all or nothing at the end. When [create_project] raises
    anything but [FilesystemError], from a base directory in which the
    staging name is not taken, then at the end either every entry of the
    base directory is as it was at the start, or the final directory holds
    the fully built workspace, the staging directory is gone and every
    other entry is as it was (the failure came after the rename). *)
Theorem create_project_all_or_nothing E cfg es sql f0 x :
  (create_project E cfg es sql (initial_world f0)).1 = Raise x →
  exn_class x ≠ Some FilesystemError →
  fs_lookup f0 (staging_name E (project_id_of E cfg)) = None →
  let end_fs := fs (create_project E cfg es sql (initial_world f0)).2 in
  (∀ k, fs_lookup end_fs k = fs_lookup f0 k)
  ∨ promoted (fully_built E cfg es sql (now_iso E 0))
      (staging_name E (project_id_of E cfg)) (project_id_of E cfg) f0 end_fs.
Proof.
  intros Hx Hclass Hstg. cbn zeta.
  destruct (create_project_spec E cfg es sql f0)
    as [[_ [e He]]|((_ & _ & Hfin) & (after & before & Hhist & Hafter & Hbefore) & Hres)].
  { left. by rewrite He. }
  rewrite Hx in Hres. destruct Hres as [_ [e [[_ [diag ->]]|[Hgone _]]]]; [done|].
  unfold history in Hhist. destruct after as [|a after].
  - left. cbn [app] in Hhist. rewrite <- Hhist in Hbefore.
    apply Forall_cons in Hbefore as [[Hnone Hframe] _]. intros k.
    destruct (decide (k = project_id_of E cfg)) as [->|Hne1]; [by rewrite Hnone, Hfin|].
    destruct (decide (k = staging_name E (project_id_of E cfg))) as [->|Hne2];
      [by rewrite Hgone, Hstg|].
    by apply Hframe.
  - right. injection Hhist as -> _. by apply Forall_cons in Hafter as [? _].
Qed.

(* ================================================================== *)
(** * Further properties: concrete runs *)
(* ================================================================== *)

Lemma fs_lookup_singleton k n name x :
  fs_lookup (Some {[k := n]}) name = Some x → k = name ∧ n = x.
Proof. apply lookup_singleton_Some. Qed.

Lemma open_project_renamed_workspace_witness :
  let d := with_manifest empty_dir
             (JsonDoc (_manifest_dict (Demo.config "bladder_smc") "2026-01-15_bladder_smc"
                         "2026-01-15T10:00:00Z")) in
  let w := initial_world (Some {["copy" := NDir d]}) in
  fs_lookup (fs w) "copy" = Some (NDir d)
  ∧ "copy" ≠ "2026-01-15_bladder_smc"
  ∧ open_project (Demo.env []) "projects" "copy" EXPECTED_SCHEMA Demo.CANONICAL_SCHEMA_SQL w
    = (Raise (Typed ProjectOpenError "Manifest project_id does not match folder name."
                "manifest='2026-01-15_bladder_smc' folder='copy'" None), w).
Proof.
  intros d w. split; [vm_compute; reflexivity|]. split; [discriminate|].
  apply (open_project_renamed_workspace (Demo.env []) "projects" "copy" EXPECTED_SCHEMA
           Demo.CANONICAL_SCHEMA_SQL w d (Demo.config "bladder_smc")
           "2026-01-15_bladder_smc" "2026-01-15T10:00:00Z");
    [vm_compute; reflexivity|reflexivity|discriminate].
Defined.

Lemma open_project_errors_witness :
  let E := Demo.env [] in
  let db := {| db_tables := Demo.canonical_tables;
               meta_rows := [("schema_version", "v2")];
               meta_key_unique := true |} in
  let m := _manifest_dict (Demo.config "bladder_smc") "p" "2026-01-15T10:00:00Z" in
  let d := with_db (with_manifest empty_dir (JsonDoc m)) db in
  let cur : FS := Some {["p" := NDir d]} in
  let w := initial_world cur in
  let e := schema_mismatch "Unsupported schema_version in library.db."
             "expected schema_version='v1' got 'v2'" in
  let w' := {| fs := cur; past := [cur]; opc := 2; clock := 0; conn := None |} in
  open_project E "projects" "p" EXPECTED_SCHEMA Demo.CANONICAL_SCHEMA_SQL w = (Raise e, w')
  ∧ ∃ d m db, fs_lookup (fs w) "p" = Some (NDir d)
      ∧ manifest_json d = Some (JsonDoc m)
      ∧ _validate_manifest_v1 E m "p" = Ok tt
      ∧ library_db d = Some db
      ∧ (verify_schema_meta E "v1" (compute_schema_hash E Demo.CANONICAL_SCHEMA_SQL) db
         = Raise e
         ∨ (verify_schema_meta E "v1" (compute_schema_hash E Demo.CANONICAL_SCHEMA_SQL) db
            = Ok tt
            ∧ validate_schema E EXPECTED_SCHEMA db = Raise e)).
Proof.
  cbn zeta.
  match goal with |- ?H ∧ _ => assert H as Hrun by (vm_compute; reflexivity) end.
  split; [exact Hrun|].
  exact (open_project_errors _ _ _ _ _ _ _ _ Hrun).
Defined.


Lemma schema_hash_ignores_padding_witness :
  Forall (λ c, Py.isspace c = true) (list_ascii_of_string "  ")
  ∧ Forall (λ c, Py.isspace c = true) (list_ascii_of_string nl)
  ∧ compute_schema_hash (Demo.env []) ("  " +:+ Demo.CANONICAL_SCHEMA_SQL +:+ nl)
    = compute_schema_hash (Demo.env []) Demo.CANONICAL_SCHEMA_SQL.
Proof.
  assert (Forall (λ c, Py.isspace c = true) (list_ascii_of_string "  ")) as Hl
    by (cbn; repeat constructor).
  assert (Forall (λ c, Py.isspace c = true) (list_ascii_of_string nl)) as Hr
    by (cbn; repeat constructor).
  split; [exact Hl|]. split; [exact Hr|].
  exact (proj1 (schema_hash_ignores_padding (Demo.env []) "  " nl
                  Demo.CANONICAL_SCHEMA_SQL Hl Hr)).
Defined.


Lemma create_project_duplicate_name_witness :
  let E := Demo.env [] in
  let cfg := Demo.config "bladder_smc" in
  let obj := [("version", VStr "v1"); ("project_name", VStr "bladder_smc")] in
  let d := with_manifest empty_dir (JsonDoc (VDict obj)) in
  let w := initial_world (Some {["2025-12-01_bladder_smc" := NDir d]}) in
  _validate_config E cfg = Ok tt
  ∧ fs_dir (fs w) "2025-12-01_bladder_smc" = Some d
  ∧ ∃ hits,
      "2025-12-01_bladder_smc" ∈ hits
      ∧ create_project E cfg EXPECTED_SCHEMA Demo.CANONICAL_SCHEMA_SQL w
        = (Raise (Typed DuplicateProjectNameError
                    "Duplicate project_name 'bladder_smc' already exists."
                    ("found_in=" +:+ Py.join "," (map (path_join "projects") hits))
                    None), w).
Proof.
  intros E cfg obj d w. split; [reflexivity|]. split; [vm_compute; reflexivity|].
  apply (create_project_duplicate_name E cfg EXPECTED_SCHEMA Demo.CANONICAL_SCHEMA_SQL
           w "2025-12-01_bladder_smc" d obj eq_refl);
    [|vm_compute; reflexivity|reflexivity|reflexivity|reflexivity].
  intros name d' v Hd HM. apply fs_dir_Some in Hd.
  apply fs_lookup_singleton in Hd as [_ [= <-]]. injection HM as <-. by eexists.
Defined.

Lemma create_project_foreign_manifest_witness :
  let E := Demo.env [] in
  let d := with_manifest empty_dir (JsonDoc (VList [])) in
  let w := initial_world (Some {["junk" := NDir d]}) in
  fs_dir (fs w) "junk" = Some d
  ∧ ∃ e, create_project E (Demo.config "bladder_smc") EXPECTED_SCHEMA
           Demo.CANONICAL_SCHEMA_SQL w = (Raise e, w)
      ∧ is_typed e = false ∧ exn_type_name e = "AttributeError".
Proof.
  cbn zeta. split; [vm_compute; reflexivity|].
  apply (create_project_foreign_manifest (Demo.env []) (Demo.config "bladder_smc")
           EXPECTED_SCHEMA Demo.CANONICAL_SCHEMA_SQL _ "junk"
           (with_manifest empty_dir (JsonDoc (VList []))) (VList []));
    [reflexivity|vm_compute; reflexivity|reflexivity|discriminate].
Defined.

Lemma create_project_duplicate_id_witness :
  let E := Demo.env [] in
  let cfg := Demo.config "bladder_smc" in
  let w := initial_world (Some {["2026-01-15_bladder_smc" := NDir empty_dir]}) in
  fs_lookup (fs w) (project_id_of E cfg) = Some (NDir empty_dir)
  ∧ create_project E cfg EXPECTED_SCHEMA Demo.CANONICAL_SCHEMA_SQL w
    = (Raise (Typed DuplicateProjectIdError
                "Duplicate project_id '2026-01-15_bladder_smc' already exists."
                "projects/2026-01-15_bladder_smc" None), w).
Proof.
  cbn zeta. split; [vm_compute; reflexivity|].
  apply (create_project_duplicate_id (Demo.env []) (Demo.config "bladder_smc")
           EXPECTED_SCHEMA Demo.CANONICAL_SCHEMA_SQL
           (initial_world (Some {["2026-01-15_bladder_smc" := NDir empty_dir]}))
           (NDir empty_dir));
    [reflexivity| |vm_compute; reflexivity].
  intros name d v Hd HM. apply fs_dir_Some in Hd.
  apply fs_lookup_singleton in Hd as [_ [= <-]]. discriminate HM.
Defined.


Lemma create_then_list_witness :
  let E := Demo.env [] in
  let cfg := Demo.config "bladder_smc" in
  let run := create_project E cfg EXPECTED_SCHEMA Demo.CANONICAL_SCHEMA_SQL
               (initial_world None) in
  run.1 = Ok (created_info "projects" "2026-01-15_bladder_smc")
  ∧ ∃ out, list_projects E (fs run.2) "projects" = Ok out
      ∧ {| ps_project_id := VStr "2026-01-15_bladder_smc";
           ps_project_name := VStr "bladder_smc";
           ps_project_dir := "projects/2026-01-15_bladder_smc";
           ps_created_at := VStr "2026-01-15T10:00:00Z";
           ps_topic_prompt := VStr "Effects of cyclic mechanical strain";
           ps_valid := true;
           ps_error := None |} ∈ out.
Proof.
  cbn zeta.
  match goal with |- ?H ∧ _ => assert H as Hrun by (vm_compute; reflexivity) end.
  split; [exact Hrun|].
  exact (create_then_list (Demo.env []) (Demo.config "bladder_smc") EXPECTED_SCHEMA
           Demo.CANONICAL_SCHEMA_SQL None _ (Demo.env []) "projects" Hrun).
Defined.


Lemma create_project_all_or_nothing_witness :
  let E := Demo.env [] in
  let cfg := Demo.config "bladder_smc" in
  let run := create_project E cfg EXPECTED_SCHEMA "THIS IS NOT SQL;" (initial_world None) in
  let x := Typed ProjectCreatorError "Project creation failed." "syntax error"
             (Some (operational_error "syntax error")) in
  run.1 = Raise x
  ∧ exn_class x ≠ Some FilesystemError
  ∧ fs_lookup None (staging_name E (project_id_of E cfg)) = None
  ∧ ((∀ k, fs_lookup (fs run.2) k = fs_lookup None k)
     ∨ promoted (fully_built E cfg EXPECTED_SCHEMA "THIS IS NOT SQL;" (now_iso E 0))
         (staging_name E (project_id_of E cfg)) (project_id_of E cfg) None (fs run.2)).
Proof.
  cbn zeta.
  match goal with |- ?H ∧ _ => assert H as Hrun by (vm_compute; reflexivity) end.
  split; [exact Hrun|]. split; [discriminate|]. split; [reflexivity|].
  apply (create_project_all_or_nothing (Demo.env []) (Demo.config "bladder_smc")
           EXPECTED_SCHEMA "THIS IS NOT SQL;" None _ Hrun); [discriminate|reflexivity].
Defined.

(* ================================================================== *)
(** * Further properties: the order of the listing *)
(* ================================================================== *)

Lemma summarize_id E base name text s :
  summarize E base name text = Ok s → ps_project_id s = VStr name.
Proof.
  unfold summarize. destruct text as [m|]; [|done].
  destruct m as [| | | | |obj]; try done. cbn [py_get res_bind py_item].
  destruct (negb (value_is_str _ "v1")); [done|].
  destruct (value_is_str (default VNone (Dict.get "project_id" obj)) name) eqn:Hp;
    cbn [negb]; [|done].
  apply value_is_str_eq in Hp.
  destruct (Dict.get "project_id" obj) as [pid|]; [|done]. cbn in Hp. subst pid.
  cbn [res_bind].
  destruct (Dict.get "project_name" obj); [|done]. cbn [res_bind].
  destruct (Dict.get "created_at" obj); [|done]. cbn [res_bind].
  destruct (Dict.get "topic_prompt" obj); [|done]. cbn [res_bind].
  by intros [= <-].
Qed.

Lemma entry_summary_ids E base entries :
  map ps_project_id (omap (entry_summary E base) entries)
  = map (λ entry, VStr entry.1)
      (List.filter (λ entry, bool_decide (is_Some (manifest_json entry.2))) entries).
Proof.
  induction entries as [|[name d] r IH]; [done|]. cbn.
  unfold entry_summary at 1. cbn.
  destruct (manifest_json d) as [text|]; cbn; [|done].
  rewrite IH. f_equal.
  destruct (summarize E base name text) as [s|e] eqn:Hs; [|done].
  by eapply summarize_id.
Qed.

Lemma by_name_transitive : Transitive by_name.
Proof. intros a b c. unfold by_name. apply transitivity. Qed.

Lemma by_name_total : Total by_name.
Proof. intros a b. unfold by_name. apply total, _. Qed.

Lemma StronglySorted_list_filter {A} (R : relation A) (f : A → bool) l :
  StronglySorted R l → StronglySorted R (List.filter f l).
Proof.
  induction 1 as [|x l Hs IH Hall]; [constructor|]. cbn.
  destruct (f x); [|done]. constructor; [done|].
  rewrite Forall_forall in Hall |- *. intros y [Hy _]%filter_elem_of. by apply Hall.
Qed.

Lemma NoDup_fst_list_filter {A B} (f : A * B → bool) (l : list (A * B)) :
  NoDup (map fst l) → NoDup (map fst (List.filter f l)).
Proof.
  induction l as [|x l IH]; [done|]. cbn. intros [Hnotin Hnd]%NoDup_cons.
  destruct (f x); cbn; [|by apply IH]. constructor; [|by apply IH].
  intros (y & Hy1 & [Hy _]%filter_elem_of)%list_elem_of_fmap. apply Hnotin.
  apply list_elem_of_fmap. by exists y.
Qed.

Lemma NoDup_fst_fs_dirs cur : NoDup (map fst (fs_dirs cur)).
Proof.
  unfold fs_dirs. pose proof (NoDup_fst_map_to_list (fs_entries cur)) as Hnd.
  induction (map_to_list (fs_entries cur)) as [|[k n] l IH]; [constructor|].
  cbn in Hnd. apply NoDup_cons in Hnd as [Hnotin Hnd]. cbn.
  destruct n as [|d]; cbn; [by apply IH|]. constructor; [|by apply IH].
  intros ([k' d'] & Hk & Hin)%list_elem_of_fmap. cbn in Hk. subst k'.
  apply list_elem_of_omap in Hin as ([k0 n0] & Hin & Heq). apply Hnotin.
  apply list_elem_of_fmap. exists (k0, n0). split; [|done].
  destruct n0; cbn in Heq; by simplify_eq.
Qed.

(** X21: the listing is in the order of the directory names. The ids that
    [list_projects] shows are the names of the directories that hold a
    manifest file, valid or not, each once, in increasing order (by code
    points), and each summary's directory is the base path joined with
    that name. *)
Theorem list_projects_sorted E cur base out :
  list_projects E cur base = Ok out →
  ∃ names,
    map ps_project_id out = map VStr names
    ∧ map ps_project_dir out = map (path_join base) names
    ∧ StronglySorted String.le names
    ∧ NoDup names
    ∧ ∀ name, name ∈ names ↔ ∃ d, fs_dir cur name = Some d ∧ is_Some (manifest_json d).
Proof.
  unfold list_projects. destruct cur as [entries|].
  2:{ intros [= <-]. exists []. repeat split; try constructor.
      - by intros ?%elem_of_nil.
      - by intros (d & ? & _). }
  rewrite list_loop_ok. cbn [app]. intros [= <-].
  set (cur := Some entries).
  set (has := λ entry : string * Dir, bool_decide (is_Some (manifest_json entry.2))).
  exists (map fst (List.filter has (sorted_dirs cur))).
  split; [by rewrite entry_summary_ids, map_map|].
  split; [by rewrite entry_summary_dirs, map_map|].
  split.
  { apply (StronglySorted_fmap fst by_name String.le); [done|].
    apply StronglySorted_list_filter.
    apply (@StronglySorted_merge_sort _ by_name _ by_name_transitive by_name_total). }
  split.
  { apply NoDup_fst_list_filter. unfold sorted_dirs.
    rewrite (merge_sort_Permutation by_name (fs_dirs cur)). apply NoDup_fst_fs_dirs. }
  intros name. rewrite list_elem_of_fmap. split.
  - intros ([name' d] & -> & [Hin Hhas]%filter_elem_of). exists d.
    split; [by apply sorted_dirs_elem_of|]. by apply bool_decide_eq_true in Hhas.
  - intros (d & Hd & HM). exists (name, d). split; [done|].
    apply filter_elem_of. split; [by apply sorted_dirs_elem_of|].
    by apply bool_decide_eq_true.
Qed.

(* ================================================================== *)
(** * Further properties: the log and the staging tree *)
(* ================================================================== *)

Lemma rev_app_rev_app a b c :
  String.rev_app (String.rev_app a b) c = String.rev_app b (a +:+ c).
Proof.
  revert b c. induction a as [|x a IH]; intros b c; [done|].
  cbn [String.rev_app]. rewrite IH. cbn [String.rev_app]. done.
Qed.

Lemma string_app_nil_r s : s +:+ "" = s.
Proof.
  induction s as [|c s IH]; [done|].
  change (String c s +:+ "") with (String c (s +:+ "")). by rewrite IH.
Qed.

Lemma rev_involutive s : String.rev (String.rev s) = s.
Proof. unfold String.rev. by rewrite rev_app_rev_app, string_app_nil_r. Qed.

Lemma rstrip_lf_app_nl s : Py.rstrip_lf (s +:+ nl) = Py.rstrip_lf s.
Proof.
  unfold Py.rstrip_lf, String.rev. rewrite rev_app_app. cbn [String.rev_app nl].
  cbn [Py.lstrip_lf]. by rewrite Ascii.eqb_refl.
Qed.

Lemma lstrip_lf_head s c r : Py.lstrip_lf s = String c r → c ≠ Py.LF.
Proof.
  induction s as [|c0 s IH]; [done|]. cbn [Py.lstrip_lf].
  destruct (Ascii.eqb_spec c0 Py.LF) as [->|Hne]; [done|]. by intros [= <- _].
Qed.

(** What [rstrip] leaves does not end in a newline. *)
Lemma rstrip_lf_no_nl s t : Py.rstrip_lf s ≠ t +:+ nl.
Proof.
  unfold Py.rstrip_lf. intros H. apply (f_equal String.rev) in H.
  rewrite rev_involutive in H.
  change (String.rev (t +:+ nl)) with (String.rev_app (t +:+ nl) "") in H.
  rewrite rev_app_app in H. cbn [String.rev_app nl] in H.
  by apply lstrip_lf_head in H.
Qed.

Lemma fs_op_run E f w new :
  faults E (opc w) = false → f (fs w) = Ok new →
  fs_op E f w
  = (Ok tt, {| fs := new; past := fs w :: past w; opc := S (opc w);
               clock := clock w; conn := conn w |}).
Proof.
  intros Hf Hnew. unfold fs_op, bind, io, get_fs, put_fs. rewrite Hf. cbn.
  by rewrite Hnew.
Qed.

(** X22: one call of [_write_text_line] that returns has appended one
    line to the log of the directory: the log is what it was (empty when
    there was none) followed by the text without its final newlines and
    one newline; the text so written does not end in a newline before
    that one. The [logs] folder exists afterwards (the directory itself
    is made when it was not there), the directory's other content and
    every other entry are as they were. A final newline in the text makes
    no difference to what the call does. *)
Theorem write_text_line_appends E name line w w' :
  _write_text_line E name line w = (Ok tt, w') →
  let before := default empty_dir (fs_dir (fs w) name) in
  fs_lookup (fs w') name
  = Some (NDir {| subdirs := {["logs"]} ∪ subdirs before;
                  manifest_json := manifest_json before;
                  library_db := library_db before;
                  project_log :=
                    Some (default "" (project_log before)
                          +:+ Py.rstrip_lf line +:+ nl) |})
  ∧ (∀ k, k ≠ name → fs_lookup (fs w') k = fs_lookup (fs w) k)
  ∧ (∀ t, Py.rstrip_lf line ≠ t +:+ nl)
  ∧ _write_text_line E name (line +:+ nl) w = _write_text_line E name line w.
Proof.
  intros Hrun. cbn zeta.
  split; [|split; [|split; [intros t; apply rstrip_lf_no_nl|]]].
  3:{ unfold _write_text_line. by rewrite rstrip_lf_app_nl. }
  all: unfold _write_text_line in Hrun;
    apply bind_inv in Hrun as [([] & w1 & H1 & H2)|(e & _ & ?)]; [|done];
    apply fs_op_ok in H1 as (new1 & Hnew1 & Hfs1 & _);
    apply fs_op_ok in H2 as (new2 & Hnew2 & Hfs2 & _);
    rewrite Hfs1 in Hnew2; rewrite Hfs2; clear Hfs1 Hfs2;
    unfold mkdir_logs, update_entry in Hnew1; unfold fs_dir;
    destruct (fs_lookup (fs w) name) as [[|d]|] eqn:Hlook; [done| |];
    injection Hnew1 as <-;
    unfold append_log, update_entry in Hnew2;
    rewrite fs_lookup_set_eq in Hnew2; cbn [subdirs with_subdir] in Hnew2;
    (rewrite bool_decide_eq_true_2 in Hnew2 by set_solver);
    injection Hnew2 as <-.
  - by rewrite fs_lookup_set_eq.
  - by rewrite fs_lookup_set_eq.
  - intros k Hk. by rewrite !fs_lookup_set_ne.
  - intros k Hk. by rewrite !fs_lookup_set_ne.
Qed.

Lemma mkdir_sub_run staging sub cur d :
  fs_lookup cur staging = Some (NDir d) → sub ∉ subdirs d →
  mkdir_sub staging sub cur = Ok (fs_set cur staging (NDir (with_subdir d sub))).
Proof.
  intros Hd Hsub. unfold mkdir_sub, update_entry. rewrite Hd.
  by rewrite bool_decide_eq_false_2.
Qed.

Lemma for_each_mkdir_sub E staging subs w d :
  (∀ n, faults E n = false) →
  fs_lookup (fs w) staging = Some (NDir d) →
  NoDup subs → (∀ s, s ∈ subs → s ∉ subdirs d) →
  ∃ w' d',
    for_each subs (λ sub, fs_op E (mkdir_sub staging sub)) w = (Ok tt, w')
    ∧ fs_lookup (fs w') staging = Some (NDir d')
    ∧ subdirs d' = list_to_set subs ∪ subdirs d
    ∧ manifest_json d' = manifest_json d
    ∧ library_db d' = library_db d
    ∧ project_log d' = project_log d
    ∧ ∀ k, k ≠ staging → fs_lookup (fs w') k = fs_lookup (fs w) k.
Proof.
  intros Hf. revert w d. induction subs as [|s subs IH]; intros w d Hd Hnd Hnew.
  { exists w, d. cbn. repeat split; try done. set_solver. }
  apply NoDup_cons in Hnd as [Hs Hnd]. cbn [for_each]. unfold bind.
  rewrite (fs_op_run E _ w _ (Hf _)
             (mkdir_sub_run staging s (fs w) d Hd (Hnew s (list_elem_of_here _ _)))).
  set (w1 := {| fs := _ |}).
  destruct (IH w1 (with_subdir d s)) as (w' & d' & Hrun & Hd' & HS & HM & HD & HL & Hframe).
  - subst w1. cbn [fs]. apply fs_lookup_set_eq.
  - done.
  - intros s' Hs'. cbn [subdirs with_subdir]. apply not_elem_of_union. split.
    + apply not_elem_of_singleton. by intros ->.
    + apply Hnew. by right.
  - exists w', d'. rewrite Hrun. repeat split; try done.
    + rewrite HS. cbn. set_solver.
    + intros k Hk. rewrite (Hframe k Hk). subst w1. cbn [fs].
      by apply fs_lookup_set_ne.
Qed.

(** X23: [_ensure_staging_tree] makes the staging directory only when
    its name is free. When nothing fails: on a name that is taken, by a
    file or a directory, it raises [FileExistsError] and changes nothing;
    on a free name it returns, the staging directory then has exactly the
    six sub-folders and neither manifest, database nor log, and every
    other entry is as it was. *)
Theorem ensure_staging_tree_spec E staging w :
  (∀ n, faults E n = false) →
  match fs_lookup (fs w) staging with
  | Some _ =>
      ∃ w', _ensure_staging_tree E staging w = (Raise file_exists_error, w')
        ∧ fs w' = fs w
  | None =>
      ∃ w' d, _ensure_staging_tree E staging w = (Ok tt, w')
        ∧ fs_lookup (fs w') staging = Some (NDir d)
        ∧ subdirs d
          = list_to_set ["pdfs"; "ingested"; "indexes"; "drafts"; "exports"; "logs"]
        ∧ manifest_json d = None ∧ library_db d = None ∧ project_log d = None
        ∧ ∀ k, k ≠ staging → fs_lookup (fs w') k = fs_lookup (fs w) k
  end.
Proof.
  intros Hf. unfold _ensure_staging_tree.
  destruct (fs_lookup (fs w) staging) as [n|] eqn:Hlook.
  - eexists. unfold bind, fs_op, bind, io, get_fs, raise. rewrite Hf. cbn.
    unfold mkdir_new, update_entry. rewrite Hlook. done.
  - unfold bind.
    rewrite (fs_op_run E (mkdir_new staging) w (fs_set (fs w) staging (NDir empty_dir))
               (Hf _)).
    2:{ unfold mkdir_new, update_entry. by rewrite Hlook. }
    set (w1 := {| fs := _ |}).
    destruct (for_each_mkdir_sub E staging staging_subfolders w1 empty_dir Hf)
      as (w' & d' & Hrun & Hd' & HS & HM & HD & HL & Hframe).
    + subst w1. cbn [fs]. apply fs_lookup_set_eq.
    + unfold staging_subfolders. apply NoDup_ListNoDup. repeat constructor; cbn;
        intuition discriminate.
    + intros s _. cbn. set_solver.
    + exists w', d'. rewrite Hrun. repeat split; try done.
      intros k Hk. rewrite (Hframe k Hk). subst w1. cbn [fs].
      by apply fs_lookup_set_ne.
Qed.

(* ================================================================== *)
(** * Further properties: the command line *)
(* ================================================================== *)

Lemma main_run E sql args w :
  let handler :=
    match args with
    | ArgsCreate name topic base_dir srcs nts =>
        cmd_create E sql name topic base_dir srcs nts
    | ArgsOpen parent name => cmd_open E sql parent name
    | ArgsList base_dir => cmd_list E base_dir
    end in
  main E sql args w
  = match handler w with
    | (Ok out, w') => (Ok out, w')
    | (Raise (Typed _ message diagnostic _), w') =>
        (Ok (2, Stderr (VDict [("error", VStr message);
                               ("diagnostic", VStr diagnostic)])), w')
    | (Raise e, w') => (Raise e, w')
    end.
Proof.
  cbn zeta. unfold main, try_except.
  destruct args; (match goal with |- context [?h w] => destruct (h w) as [[out|[]] w'] end);
    done.
Qed.

Lemma handler_ok E sql args :
  ∀ w status printed w',
    match args with
    | ArgsCreate name topic base_dir srcs nts =>
        cmd_create E sql name topic base_dir srcs nts
    | ArgsOpen parent name => cmd_open E sql parent name
    | ArgsList base_dir => cmd_list E base_dir
    end w = (Ok (status, printed), w') →
    status = 0 ∧ ∃ v, printed = Stdout v.
Proof.
  intros w status printed w'.
  destruct args;
    unfold cmd_create, cmd_open, cmd_list, _print_json, bind, ret, raise, get_fs, lift.
  - destruct (create_project _ _ _ _ _) as [[info|e] w1]; [|done].
    destruct (stdout_error E _) as [[cls detail]|]; [done|].
    intros [= <- <- <-]. split; [done|by eexists].
  - destruct (open_project _ _ _ _ _ _) as [[info|e] w1]; [|done].
    destruct (stdout_error E _) as [[cls detail]|]; [done|].
    intros [= <- <- <-]. split; [done|by eexists].
  - destruct (list_projects _ _ _) as [items|e]; [|done].
    destruct (stdout_error E _) as [[cls detail]|]; [done|].
    intros [= <- <- <-]. split; [done|by eexists].
Qed.

(** X24: the exit status of [main]. Whatever the command and the state
    of the disk, [main] either returns 0 after printing one JSON value on
    the standard output, or returns 2 after printing on the standard error
    an object with the keys [error] and [diagnostic], or lets an exception
    escape that is not of the module's error classes. None of the
    module's errors ever escapes, and no other status is returned. *)
Theorem main_exit_status E sql args w :
  match main E sql args w with
  | (Ok (status, printed), _) =>
      (status = 0 ∧ ∃ v, printed = Stdout v)
      ∨ (status = 2
         ∧ ∃ message diagnostic,
             printed = Stderr (VDict [("error", VStr message);
                                      ("diagnostic", VStr diagnostic)]))
  | (Raise e, _) => is_typed e = false
  end.
Proof.
  rewrite main_run. cbn zeta. pose proof (handler_ok E sql args w) as Hok.
  destruct (match args with
            | ArgsCreate name topic base_dir srcs nts =>
                cmd_create E sql name topic base_dir srcs nts
            | ArgsOpen parent name => cmd_open E sql parent name
            | ArgsList base_dir => cmd_list E base_dir
            end w) as [[[status printed]|[cls message diagnostic cause|cls detail]] w'].
  - left. by eapply Hok.
  - right. split; [done|]. by eexists _, _.
  - done.
Qed.





(* ================================================================== *)
(** * Further properties: more concrete runs *)
(* ================================================================== *)

Lemma list_projects_sorted_witness :
  let cur : FS :=
    Some {["b" := NDir (with_manifest empty_dir (Corrupt "Expecting value"));
           "a" := NDir (with_manifest empty_dir
                          (JsonDoc (_manifest_dict (Demo.config "x") "a" "t")));
           "c" := NDir empty_dir]} in
  ∃ out,
    list_projects (Demo.env []) cur "projects" = Ok out
    ∧ ∃ names,
        map ps_project_id out = map VStr names
        ∧ map ps_project_dir out = map (path_join "projects") names
        ∧ StronglySorted String.le names
        ∧ NoDup names
        ∧ ∀ name, name ∈ names ↔ ∃ d, fs_dir cur name = Some d ∧ is_Some (manifest_json d).
Proof.
  intros cur. eexists. split; [vm_compute; reflexivity|].
  apply (list_projects_sorted (Demo.env []) cur "projects"). vm_compute. reflexivity.
Defined.

Lemma write_text_line_appends_witness :
  let E := Demo.env [] in
  let w := initial_world (Some {["d" := NDir empty_dir]}) in
  let w' := (_write_text_line E "d" "hello" w).2 in
  _write_text_line E "d" "hello" w = (Ok tt, w')
  ∧ (∀ k, k ≠ "d" → fs_lookup (fs w') k = fs_lookup (fs w) k)
  ∧ (∀ t, Py.rstrip_lf "hello" ≠ t +:+ nl).
Proof.
  intros E w w'.
  assert (_write_text_line E "d" "hello" w = (Ok tt, w')) as Hrun
    by (vm_compute; reflexivity).
  split; [exact Hrun|].
  destruct (write_text_line_appends E "d" "hello" w w' Hrun) as (_ & Hframe & Hnl & _).
  split; [exact Hframe|exact Hnl].
Defined.

Lemma ensure_staging_tree_spec_witness :
  let E := Demo.env [] in
  let w := initial_world None in
  (∀ n, faults E n = false)
  ∧ ∃ w' d, _ensure_staging_tree E ".tmp_p" w = (Ok tt, w')
      ∧ fs_lookup (fs w') ".tmp_p" = Some (NDir d)
      ∧ subdirs d
        = list_to_set ["pdfs"; "ingested"; "indexes"; "drafts"; "exports"; "logs"]
      ∧ manifest_json d = None ∧ library_db d = None ∧ project_log d = None
      ∧ ∀ k, k ≠ ".tmp_p" → fs_lookup (fs w') k = fs_lookup (fs w) k.
Proof.
  intros E w.
  assert (∀ n, faults E n = false) as Hf by (intros n; reflexivity).
  split; [exact Hf|]. exact (ensure_staging_tree_spec E ".tmp_p" w Hf).
Defined.



